(** * Order-book synchronisation and message routing of the ccxt websocket
      exchanges [ripio] (python/ccxt/pro/ripio.py) and [bitmex]
      (python/ccxtpro/bitmex.py)

    The two classes are embedded as state-passing functions over the Python
    values they receive.  The file is organised like the sources:

    - [Py]     : Python values, exceptions, calls, and the state/exception
                 monad the methods run in;
    - [Base]   : what the classes inherit or are handed (the [safe_*]
                 readers, price-level books, the connection's waiters);
    - [Ripio]  : the methods of class ripio;
    - [Bitmex] : the methods of class bitmex;
    - the properties of both, proved last. *)

From Stdlib Require Import ZArith QArith Qround Ascii String List Lia Bool.
From stdpp Require Import base tactics option list strings gmap pretty.

Set Warnings "-register-all".

Open Scope Z_scope.
Open Scope string_scope.
Open Scope list_scope.

(* ===================================================================== *)
(** * Python values and control                                           *)
(* ===================================================================== *)

Module Py.

(** The bound methods a ripio subscription stores under ['method']. *)
Inductive Method : Type :=
| handle_trade_method
| handle_ticker_method
| handle_order_book_method.

(** JSON-shaped Python values.  A dict keeps its insertion order, as Python's
    does; keys are strings.  A float is kept as the text of its literal: the
    code never computes with one, it only converts ([float(...)]) and
    stores. *)
Inductive PyVal : Type :=
| PNone
| PBool (b : bool)
| PInt (z : Z)
| PFloat (lit : string)
| PStr (s : string)
| PList (l : list PyVal)
| PDict (d : list (string * PyVal))
| PMethod (m : Method).

(** Exception classes the two files can meet. *)
Inductive ExnClass : Type :=
| TypeError | ValueError | KeyError | AttributeError | IndexError
| ExchangeError | RateLimitExceeded | BadSymbol | NetworkError
| NotImplementedError.

Record Exn : Type := mkExn { exn_class : ExnClass; exn_arg : PyVal }.

Definition exn_class_eqb (a b : ExnClass) : bool :=
  match a, b with
  | TypeError, TypeError | ValueError, ValueError | KeyError, KeyError
  | AttributeError, AttributeError | IndexError, IndexError
  | ExchangeError, ExchangeError | RateLimitExceeded, RateLimitExceeded
  | BadSymbol, BadSymbol | NetworkError, NetworkError
  | NotImplementedError, NotImplementedError => true
  | _, _ => false
  end.

(** ** Insertion-ordered dicts *)

Definition pydict (V : Type) : Type := list (string * V).

Fixpoint dict_get {V} (d : pydict V) (k : string) : option V :=
  match d with
  | [] => None
  | (k', v) :: d' => if String.eqb k' k then Some v else dict_get d' k
  end.

Definition dict_mem {V} (d : pydict V) (k : string) : bool :=
  match dict_get d k with Some _ => true | None => false end.

(** [d[k] = v]: an existing key keeps its place, a new one goes last. *)
Fixpoint dict_set {V} (d : pydict V) (k : string) (v : V) : pydict V :=
  match d with
  | [] => [(k, v)]
  | (k', v') :: d' =>
      if String.eqb k' k then (k, v) :: d' else (k', v') :: dict_set d' k v
  end.

Definition dict_keys {V} (d : pydict V) : list string := map fst d.

(** ** [str] and [repr] *)

Definition hex_digit (n : N) : ascii :=
  match n with
  | 0 => "0" | 1 => "1" | 2 => "2" | 3 => "3" | 4 => "4" | 5 => "5"
  | 6 => "6" | 7 => "7" | 8 => "8" | 9 => "9" | 10 => "a" | 11 => "b"
  | 12 => "c" | 13 => "d" | 14 => "e" | _ => "f"
  end%N%char.

Fixpoint string_mem (c : ascii) (s : string) : bool :=
  match s with
  | EmptyString => false
  | String c' s' => Ascii.eqb c c' || string_mem c s'
  end.

(** One character of a [repr]'d string, for the quote [q] chosen. *)
Definition repr_char (q c : ascii) : string :=
  let n := N_of_ascii c in
  if Ascii.eqb c "\"%char then "\\"
  else if Ascii.eqb c q then String "\"%char (String c "")
  else if (n =? 10)%N then "\n"
  else if (n =? 13)%N then "\r"
  else if (n =? 9)%N then "\t"
  else if ((n <? 32) || (n =? 127))%N
       then String "\"%char (String "x"%char
              (String (hex_digit (n / 16)) (String (hex_digit (n mod 16)) "")))
  else String c "".

Fixpoint repr_chars (q : ascii) (s : string) : string :=
  match s with
  | EmptyString => ""
  | String c s' => repr_char q c +:+ repr_chars q s'
  end.

Definition squote : ascii := "'"%char.
Definition dquote : ascii := Ascii.ascii_of_nat 34.

(** [repr] of a str: single quotes, unless the text holds a single quote and
    no double quote. *)
Definition repr_str (s : string) : string :=
  let q := if string_mem squote s && negb (string_mem dquote s)
           then dquote else squote in
  String q (repr_chars q s +:+ String q "").

Fixpoint join (sep : string) (l : list string) : string :=
  match l with
  | [] => ""
  | [x] => x
  | x :: l' => x +:+ sep +:+ join sep l'
  end.

Definition method_name (m : Method) : string :=
  match m with
  | handle_trade_method => "handle_trade"
  | handle_ticker_method => "handle_ticker"
  | handle_order_book_method => "handle_order_book"
  end.

Fixpoint py_repr (v : PyVal) : string :=
  match v with
  | PNone => "None"
  | PBool true => "True"
  | PBool false => "False"
  | PInt z => pretty z
  | PFloat lit => lit
  | PStr s => repr_str s
  | PList l => "[" +:+ join ", " (map py_repr l) +:+ "]"
  | PDict d =>
      "{" +:+ join ", "
               (map (fun kv => repr_str (fst kv) +:+ ": " +:+ py_repr (snd kv)) d)
          +:+ "}"
  | PMethod m => "<bound method " +:+ method_name m +:+ ">"
  end.

(** [str(v)]: the text itself for a str, [repr] for everything else. *)
Definition py_str (v : PyVal) : string :=
  match v with
  | PStr s => s
  | _ => py_repr v
  end.

(** Truthiness, as [if v:] and [v or w] see it. *)
Definition truthy (v : PyVal) : bool :=
  match v with
  | PNone => false
  | PBool b => b
  | PInt z => negb (z =? 0)%Z
  | PFloat _ => true
  | PStr s => negb (String.eqb s "")
  | PList l => match l with [] => false | _ => true end
  | PDict d => match d with [] => false | _ => true end
  | PMethod _ => true
  end.

(** ** Results and the state/exception monad

    A method either returns or raises; what it wrote to the objects it was
    handed before raising stays written, so the state is returned on both
    paths. *)

Inductive Res (A : Type) : Type :=
| Ok (a : A)
| Raise (e : Exn).
Arguments Ok {A} a.
Arguments Raise {A} e.

Definition M (S A : Type) : Type := S -> Res A * S.

Definition ret {S A} (a : A) : M S A := fun s => (Ok a, s).

Definition bind {S A B} (c : M S A) (k : A -> M S B) : M S B :=
  fun s =>
    match c s with
    | (Ok a, s') => k a s'
    | (Raise e, s') => (Raise e, s')
    end.

Definition raise {S A} (e : Exn) : M S A := fun s => (Raise e, s).

Definition get {S} : M S S := fun s => (Ok s, s).
Definition put {S} (s : S) : M S unit := fun _ => (Ok tt, s).
Definition modify {S} (f : S -> S) : M S unit := fun s => (Ok tt, f s).

(** [try: c  except Exception as e: h e] *)
Definition try_except {S A} (c : M S A) (h : Exn -> M S A) : M S A :=
  fun s =>
    match c s with
    | (Ok a, s') => (Ok a, s')
    | (Raise e, s') => h e s'
    end.

(** A pure computation that may raise, run inside a method. *)
Definition lift {S A} (r : Res A) : M S A := fun s => (r, s).

(** Run [c] on the part of the state that [rd] reads and [wr] writes. *)
Definition zoom {S T A} (rd : S -> T) (wr : T -> S -> S) (c : M T A) : M S A :=
  fun s => let '(r, t) := c (rd s) in (r, wr t s).

(** [for i in range(0, len(xs)): body(xs[i])] *)
Fixpoint for_each {S A} (xs : list A) (body : A -> M S unit) : M S unit :=
  match xs with
  | [] => ret tt
  | x :: xs' => bind (body x) (fun _ => for_each xs' body)
  end.

Notation "x <- c ;; k" := (bind c (fun x => k))
  (at level 100, c at next level, right associativity).
Notation "c ;;; k" := (bind c (fun _ => k))
  (at level 100, right associativity).

(** The same loop, carrying a local variable. *)
Fixpoint fold_each {S A B} (xs : list A) (acc : B) (body : B -> A -> M S B) : M S B :=
  match xs with
  | [] => ret acc
  | x :: xs' => bind (body acc x) (fun acc' => fold_each xs' acc' body)
  end.

(** Whatever state [m] starts in, the state it ends in (returning or
    raising) is [R]-related to it. *)
Definition keeps {S A} (R : S -> S -> Prop) (m : M S A) : Prop :=
  forall s, R s (m s).2.

Definition type_error (msg : string) : Exn := mkExn TypeError (PStr msg).

(** The items [xs[0], ..., xs[len(xs) - 1]] a loop
    [for i in range(0, len(xs))] visits.  A str yields its characters; a
    dict has a length but no item under [0]; a number has no length. *)
Definition py_items (xs : PyVal) : Res (list PyVal) :=
  match xs with
  | PList l => Ok l
  | PStr s => Ok (map (fun c => PStr (String c "")) (list_ascii_of_string s))
  | PDict [] => Ok []
  | PDict _ => Raise (mkExn KeyError (PInt 0))
  | _ => Raise (type_error "object has no len()")
  end.

(** [len(v)] *)
Definition py_len (v : PyVal) : Res Z :=
  match v with
  | PList l => Ok (Z.of_nat (length l))
  | PStr s => Ok (Z.of_nat (String.length s))
  | PDict d => Ok (Z.of_nat (length d))
  | _ => Raise (type_error "object has no len()")
  end.

(** [v[i]] for an index [i >= 0] *)
Definition py_index (v : PyVal) (i : nat) : Res PyVal :=
  match v with
  | PList l =>
      match nth_error l i with
      | Some x => Ok x
      | None => Raise (mkExn IndexError (PStr "list index out of range"))
      end
  | PStr s =>
      match String.get i s with
      | Some c => Ok (PStr (String c ""))
      | None => Raise (mkExn IndexError (PStr "string index out of range"))
      end
  | PDict _ => Raise (mkExn KeyError (PInt (Z.of_nat i)))
  | _ => Raise (type_error "object is not subscriptable")
  end.

(** ** Ordering comparison [a > b]

    Python 3 orders two ints; [None] on either side is a TypeError. *)
Definition py_gt (a b : option Z) : Res bool :=
  match a, b with
  | Some x, Some y => Ok (y <? x)%Z
  | None, Some _ =>
      Raise (type_error "'>' not supported between instances of 'NoneType' and 'int'")
  | Some _, None =>
      Raise (type_error "'>' not supported between instances of 'int' and 'NoneType'")
  | None, None =>
      Raise (type_error "'>' not supported between instances of 'NoneType' and 'NoneType'")
  end.

(** ** Calling a method with positional arguments

    [params] are the names after [self] in the [def]; none of the methods
    called this way has defaults, [*args] or keywords, so the call binds
    only when the counts agree. *)
Definition bind_positional {A} (fname : string) (params : list string)
    (args : list A) : Res (list (string * A)) :=
  if (length args =? length params)%nat then Ok (combine params args)
  else if (length params <? length args)%nat then
    Raise (type_error
      (fname +:+ "() takes " +:+ pretty (Z.of_nat (S (length params)))
             +:+ " positional arguments but "
             +:+ pretty (Z.of_nat (S (length args))) +:+ " were given"))
  else
    Raise (type_error (fname +:+ "() missing required positional arguments")).

End Py.

(* ===================================================================== *)
(** * What the exchange classes inherit and are handed                    *)
(* ===================================================================== *)

Module Base.
Import Py.

(** ** Readers of decoded frames *)

Inductive Key : Type :=
| KStr (s : string)
| KInt (i : Z).

(** [container[key]], [None] when the lookup would fail. *)
Definition py_getitem (container : PyVal) (key : Key) : option PyVal :=
  match container, key with
  | PDict d, KStr s => dict_get d s
  | PList l, KInt i => if (0 <=? i)%Z then nth_error l (Z.to_nat i) else None
  | _, _ => None
  end.

(** Modelled from the spec: [Exchange.key_exists] of the base class
    (python/ccxt/base/exchange.py is not among the sources).  A key counts
    as present when the container is a dict or a list, holds it, and the
    value under it is not [None]. *)
Definition key_exists (container : PyVal) (key : Key) : bool :=
  match py_getitem container key with
  | Some PNone | None => false
  | Some _ => true
  end.

(** Modelled from the spec: [Exchange.safe_value] of the base class; the
    value under the key, or nothing (the caller's default) when
    [key_exists] fails. *)
Definition safe_value (container : PyVal) (key : Key) : option PyVal :=
  if key_exists container key then py_getitem container key else None.

(** Modelled from the spec: [Exchange.safe_string] of the base class; as
    [safe_value], but the value is passed through [str]. *)
Definition safe_string (container : PyVal) (key : Key) : option string :=
  py_str <$> safe_value container key.

(** The [default] argument of the [safe_*] readers. *)
Definition or_default {A} (o : option A) (default : A) : A :=
  match o with Some a => a | None => default end.

(** *** Numbers read from text *)

Definition digit_of (c : ascii) : option Z :=
  let n := Z.of_N (N_of_ascii c) in
  if ((48 <=? n) && (n <=? 57))%Z then Some (n - 48)%Z else None.

Fixpoint take_digits (s : string) (acc : Z) (n : nat) : Z * nat * string :=
  match s with
  | String c s' =>
      match digit_of c with
      | Some d => take_digits s' (10 * acc + d)%Z (S n)
      | None => (acc, n, s)
      end
  | EmptyString => (acc, n, s)
  end.

Definition take_sign (s : string) : bool * string :=
  match s with
  | String c s' =>
      if Ascii.eqb c "-"%char then (true, s')
      else if Ascii.eqb c "+"%char then (false, s')
      else (false, s)
  | EmptyString => (false, s)
  end.

Definition pow10 (e : Z) : Q :=
  if (0 <=? e)%Z then inject_Z (10 ^ e) else Qinv (inject_Z (10 ^ (- e))).

(** A decimal literal [[+-]digits[.digits][e[+-]digits]] as the exact
    rational it denotes; the rounding of a binary float is not modelled. *)
Definition parse_decimal (s : string) : option Q :=
  let '(neg, s1) := take_sign s in
  let '(ip, ni, s2) := take_digits s1 0 0 in
  let '(m, nf, s3) :=
    match s2 with
    | String c s' =>
        if Ascii.eqb c "."%char then take_digits s' ip 0 else (ip, 0%nat, s2)
    | EmptyString => (ip, 0%nat, s2)
    end in
  if (ni + nf =? 0)%nat then None
  else
    let exponent :=
      match s3 with
      | EmptyString => Some 0%Z
      | String c s' =>
          if Ascii.eqb c "e"%char || Ascii.eqb c "E"%char then
            let '(eneg, s4) := take_sign s' in
            let '(e, ne, s5) := take_digits s4 0 0 in
            if (ne =? 0)%nat || negb (String.eqb s5 "") then None
            else Some (if eneg then (- e)%Z else e)
          else None
      end in
    match exponent with
    | None => None
    | Some e =>
        let q := Qmult (inject_Z (if neg then (- m)%Z else m))
                       (pow10 (e - Z.of_nat nf)) in
        Some (Qred q)
    end.

Definition value_error (msg : string) : Exn := mkExn ValueError (PStr msg).

(** [float(v)] *)
Definition py_float (v : PyVal) : Res Q :=
  match v with
  | PInt z => Ok (inject_Z z)
  | PBool b => Ok (inject_Z (if b then 1 else 0))
  | PFloat lit | PStr lit =>
      match parse_decimal lit with
      | Some q => Ok q
      | None => Raise (value_error ("could not convert string to float: " +:+ repr_str lit))
      end
  | _ => Raise (type_error "float() argument must be a string or a real number")
  end.

(** [int(x)] of a float truncates toward zero. *)
Definition truncate (q : Q) : Z :=
  if Qle_bool 0 q then Qfloor q else (- Qfloor (Qopp q))%Z.

(** Modelled from the spec: [Exchange.safe_float] of the base class:
    [float] of the value when the key is present, the default when the key
    is missing or the text is not a number. *)
Definition safe_float (container : PyVal) (key : Key) : Res (option Q) :=
  match safe_value container key with
  | None => Ok None
  | Some v =>
      match py_float v with
      | Ok q => Ok (Some q)
      | Raise e =>
          match exn_class e with
          | ValueError => Ok None
          | _ => Raise e
          end
      end
  end.

(** Modelled from the spec: [Exchange.safe_integer] of the base class:
    [int(float(value))] when the key is present, the default when it is
    missing or not a number.  An int goes through unchanged (the float
    round trip is exact up to 2^53, far above any sequence number). *)
Definition safe_integer (container : PyVal) (key : Key) : option Z :=
  match safe_value container key with
  | Some (PInt z) => Some z
  | Some v =>
      match py_float v with
      | Ok q => Some (truncate q)
      | Raise _ => None
      end
  | None => None
  end.

(** ** Error matching *)

Fixpoint is_prefix (p s : string) : bool :=
  match p, s with
  | EmptyString, _ => true
  | String a p', String b s' => Ascii.eqb a b && is_prefix p' s'
  | String _ _, EmptyString => false
  end.

(** [0 <= s.find(sub)] *)
Fixpoint contains (s sub : string) : bool :=
  is_prefix sub s ||
  match s with
  | EmptyString => false
  | String _ s' => contains s' sub
  end.

(** Modelled from the spec: [Exchange.find_broadly_matched_key] of the base
    class: the first key of the table that occurs in the text.  The text is
    searched with [str.find], which only a str has. *)
Fixpoint find_broadly_matched_key {V} (broad : pydict V) (text : PyVal)
    : Res (option string) :=
  match broad with
  | [] => Ok None
  | (key, _) :: broad' =>
      match text with
      | PStr s =>
          if contains s key then Ok (Some key)
          else find_broadly_matched_key broad' text
      | _ => Raise (mkExn AttributeError (PStr "object has no attribute 'find'"))
      end
  end.

(** ** Price-level books *)

Record Level : Type := mkLevel { price : Q; amount : Q; level_id : option string }.

Inductive SideKind : Type := BidsSide | AsksSide.

Record OrderBookSide : Type := mkSide {
  side_kind : SideKind;
  levels : list Level;
  depth : option Z
}.

Definition empty_side (k : SideKind) (d : option Z) : OrderBookSide :=
  mkSide k [] d.

(** The level an update addresses: by id in an id-keyed book, else by price. *)
Definition same_level (p : option Q) (i : option string) (l : Level) : bool :=
  match i with
  | Some k =>
      match level_id l with Some k' => String.eqb k k' | None => false end
  | None =>
      match p with Some q => Qeq_bool (price l) q | None => false end
  end.

(** Bids are kept descending by price, asks ascending. *)
Definition goes_before (k : SideKind) (p q : Q) : bool :=
  match k with
  | AsksSide => Qle_bool p q
  | BidsSide => Qle_bool q p
  end.

Fixpoint insert_level (k : SideKind) (x : Level) (ls : list Level) : list Level :=
  match ls with
  | [] => [x]
  | l :: ls' =>
      if goes_before k (price x) (price l) then x :: l :: ls'
      else l :: insert_level k x ls'
  end.

(** The amount a level is left with by an update, section 4.2: a level that
    does not exist is entered only with an amount above 0; one that exists
    takes the new amount, whatever its sign, and goes when that amount is 0.
    An update that carries no amount is read as one of amount 0. *)
Definition kept_amount (known : bool) (a : option Q) : option Q :=
  match a with
  | Some q =>
      if known then (if Qeq_bool q 0 then None else Some q)
      else (if Qle_bool q 0 then None else Some q)
  | None => None
  end.

(** Modelled from the spec: [OrderBookSide.store] (python/ccxt/pro/base/
    order_book_side.py is not among the sources), section 4.2: upsert; a
    level that does not exist is inserted only if amount > 0, an existing
    one has its amount replaced and is removed when the amount is 0. *)
Definition store (p a : option Q) (i : option string) (s : OrderBookSide)
    : Res OrderBookSide :=
  let known := existsb (same_level p i) (levels s) in
  let others := List.filter (fun l => negb (same_level p i l)) (levels s) in
  match kept_amount known a, p with
  | None, _ => Ok (mkSide (side_kind s) others (depth s))
  | Some q, Some pr =>
      Ok (mkSide (side_kind s)
                 (insert_level (side_kind s) (mkLevel pr q i) others) (depth s))
  | Some _, None =>
      Raise (type_error "'<' not supported between instances of 'NoneType' and 'float'")
  end.

(** Modelled from the spec: [IndexedOrderBookSide.restore], section 4.2: as
    [store], but an update that carries no price takes the price of the
    level already cached under its id. *)
Definition restore (p a : option Q) (i : option string) (s : OrderBookSide)
    : Res OrderBookSide :=
  match p with
  | Some _ => store p a i s
  | None =>
      match List.find (same_level None i) (levels s) with
      | Some l => store (Some (price l)) a i s
      | None => Ok s
      end
  end.

(** The best [n] levels; the book itself is not changed. *)
Definition side_limit (n : option Z) (s : OrderBookSide) : list Level :=
  match n with
  | Some k => firstn (Z.to_nat k) (levels s)
  | None => levels s
  end.

(** ** Order books *)

Record OrderBook : Type := mkOrderBook {
  ob_asks : OrderBookSide;
  ob_bids : OrderBookSide;
  ob_timestamp : option Z;
  ob_datetime : option string;
  ob_nonce : option Z;
  ob_symbol : option string;
  ob_cache : list PyVal        (* the frames buffered before the snapshot *)
}.

Definition set_asks (x : OrderBookSide) (ob : OrderBook) : OrderBook :=
  mkOrderBook x (ob_bids ob) (ob_timestamp ob) (ob_datetime ob) (ob_nonce ob)
              (ob_symbol ob) (ob_cache ob).
Definition set_bids (x : OrderBookSide) (ob : OrderBook) : OrderBook :=
  mkOrderBook (ob_asks ob) x (ob_timestamp ob) (ob_datetime ob) (ob_nonce ob)
              (ob_symbol ob) (ob_cache ob).
Definition set_timestamp (x : option Z) (ob : OrderBook) : OrderBook :=
  mkOrderBook (ob_asks ob) (ob_bids ob) x (ob_datetime ob) (ob_nonce ob)
              (ob_symbol ob) (ob_cache ob).
Definition set_datetime (x : option string) (ob : OrderBook) : OrderBook :=
  mkOrderBook (ob_asks ob) (ob_bids ob) (ob_timestamp ob) x (ob_nonce ob)
              (ob_symbol ob) (ob_cache ob).
Definition set_nonce (x : option Z) (ob : OrderBook) : OrderBook :=
  mkOrderBook (ob_asks ob) (ob_bids ob) (ob_timestamp ob) (ob_datetime ob) x
              (ob_symbol ob) (ob_cache ob).
Definition set_cache (x : list PyVal) (ob : OrderBook) : OrderBook :=
  mkOrderBook (ob_asks ob) (ob_bids ob) (ob_timestamp ob) (ob_datetime ob)
              (ob_nonce ob) (ob_symbol ob) x.

(** Run [c] on one side of the book: [orderbook['asks']] or
    [orderbook['bids']], the object itself. *)
Definition on_side {A} (k : SideKind) (c : M OrderBookSide A) : M OrderBook A :=
  match k with
  | AsksSide => zoom ob_asks set_asks c
  | BidsSide => zoom ob_bids set_bids c
  end.

(** Modelled from the spec: [Exchange.order_book({})] and
    [Exchange.indexed_order_book({}, depth)] of the base class, section 4.3:
    an empty [OrderBook]; its nonce is unset and nothing is buffered. *)
Definition order_book (d : option Z) : OrderBook :=
  mkOrderBook (empty_side AsksSide d) (empty_side BidsSide d)
              None None None None [].

Definition indexed_order_book (d : option Z) : OrderBook := order_book d.

(** What the REST collaborator returns, section 6:
    [{bids: [[price, amount]], asks: [[price, amount]], nonce}]. *)
Record Snapshot : Type := mkSnapshot {
  snap_bids : list (Q * Q);
  snap_asks : list (Q * Q);
  snap_nonce : option Z;
  snap_timestamp : option Z;
  snap_datetime : option string;
  snap_symbol : option string
}.

Definition store_all (rows : list (Q * Q)) (s : OrderBookSide) : OrderBookSide :=
  fold_left
    (fun acc row =>
       match store (Some (fst row)) (Some (snd row)) None acc with
       | Ok acc' => acc'
       | Raise _ => acc
       end)
    rows s.

(** Modelled from the spec: [OrderBook.reset(snapshot)] (python/ccxt/pro/
    base/order_book.py is not among the sources), section 4.3: install the
    snapshot's bids, asks and nonce into the book.  The frames buffered in
    [cache] are not its concern. *)
Definition reset (snapshot : Snapshot) (ob : OrderBook) : OrderBook :=
  mkOrderBook
    (store_all (snap_asks snapshot) (empty_side AsksSide (depth (ob_asks ob))))
    (store_all (snap_bids snapshot) (empty_side BidsSide (depth (ob_bids ob))))
    (snap_timestamp snapshot)
    (snap_datetime snapshot)
    (snap_nonce snapshot)
    (snap_symbol snapshot)
    (ob_cache ob).

(** Modelled from the spec: [OrderBook.limit(n)], section 3: the best [n]
    levels of each side, as a view. *)
Definition limit (n : option Z) (ob : OrderBook) : list Level * list Level :=
  (side_limit n (ob_bids ob), side_limit n (ob_asks ob)).

(** ** The connection and its waiters *)

(** What a waiter is handed. *)
Inductive Value : Type :=
| VBook (ob : OrderBook)
| VTrades (ts : list PyVal)
| VPy (v : PyVal).

Inductive Outcome : Type :=
| Resolved (v : Value)
| Rejected (e : Exn).

Record Client : Type := mkClient {
  url : string;
  subscriptions : pydict PyVal;          (* routing key -> subscription *)
  futures : list string;                 (* routing keys with a pending waiter *)
  settled : list (string * Outcome);     (* waiters completed so far, oldest first *)
  sent : list PyVal                      (* frames written to the transport *)
}.

Definition new_client (u : string) : Client := mkClient u [] [] [] [].

Definition set_subscriptions (x : pydict PyVal) (c : Client) : Client :=
  mkClient (url c) x (futures c) (settled c) (sent c).

Definition pending (c : Client) (key : string) : bool :=
  existsb (String.eqb key) (futures c).

Definition drop_key (key : string) (ks : list string) : list string :=
  List.filter (fun k => negb (String.eqb key k)) ks.

Definition settle (key : string) (o : Outcome) (c : Client) : Client :=
  if pending c key then
    mkClient (url c) (subscriptions c) (drop_key key (futures c))
             (settled c ++ [(key, o)]) (sent c)
  else c.

(** Modelled from the spec: [client.future(routingKey)] of the connection
    (python/ccxt/pro/base is not among the sources), section 3: the waiter
    under a routing key; a second request for the key attaches to it. *)
Definition future (key : string) (c : Client) : Client :=
  if pending c key then c
  else mkClient (url c) (subscriptions c) (futures c ++ [key]) (settled c) (sent c).

(** Modelled from the spec: [resolveWaiter(routingKey, value)], section 6:
    hands the value to the waiter pending under the key, if there is one. *)
Definition resolve (v : Value) (key : option string) (c : Client) : Client :=
  match key with
  | Some k => settle k (Resolved v) c
  | None => c
  end.

(** Modelled from the spec: [rejectWaiter(routingKey, error)], section 6:
    fails the waiter pending under the key, if there is one.  Called with no
    key it is the connection-wide failure of section 7, which reaches every
    pending waiter. *)
Definition reject (e : Exn) (key : option string) (c : Client) : Client :=
  match key with
  | Some (String _ _ as k) => settle k (Rejected e) c
  | _ => fold_left (fun c' k => settle k (Rejected e) c') (futures c) c
  end.

(** From [c] to [c'] waiters were completed, and every key resolved (not
    rejected) on the way satisfies [P]. *)
Definition resolved_within (P : string -> Prop) (c c' : Client) : Prop :=
  exists new,
    settled c' = settled c ++ new
    /\ forall key v, In (key, Resolved v) new -> P key.

(** Modelled from the spec: [client.send(payload)], section 6: an outbound
    transport write. *)
Definition send (payload : PyVal) (c : Client) : Client :=
  mkClient (url c) (subscriptions c) (futures c) (settled c) (sent c ++ [payload]).

(** ** The exchange object *)

Record Market : Type := mkMarket { market_id : string; market_symbol : string }.

(** [ArrayCache(limit)]: the last [limit] trades, oldest first. *)
Record ArrayCache : Type := mkArrayCache { cache_limit : Z; cache_items : list PyVal }.

(** Modelled from the spec: [ArrayCache.append] (python/ccxt/pro/base/cache.py
    is not among the sources), section 3: evicts the oldest entry once
    full. *)
Definition array_cache_append (x : PyVal) (c : ArrayCache) : ArrayCache :=
  let items := cache_items c ++ [x] in
  mkArrayCache (cache_limit c)
    (skipn (length items - Z.to_nat (cache_limit c)) items).

(** A call scheduled with [self.delay(delay, self.fetch_order_book_snapshot,
    client, subscription)]. *)
Record DelayedCall : Type := mkDelayed {
  dc_delay : Z;
  dc_client : string;          (* the url of the client handed over *)
  dc_subscription : PyVal
}.

(** A task started with [self.spawn(self.ack, client, messageId)]. *)
Record AckTask : Type := mkAck { ack_client : string; ack_message_id : string }.

(** The fields of [self], inherited from the base class, that the websocket
    methods of the two classes read and write. *)
Record Exchange : Type := mkExchange {
  id : string;
  markets : gmap string Market;            (* by unified symbol *)
  markets_by_id : gmap string Market;
  options : PyVal;
  ws_broad : pydict ExnClass;              (* self.exceptions['ws']['broad'] *)
  rateLimit : Z;
  ws_url : string;                         (* self.urls['api']['ws'] *)
  orderbooks : gmap string OrderBook;
  trades : gmap string ArrayCache;
  tickers : gmap string PyVal;
  clients : gmap string Client;            (* by url *)
  delayed : list DelayedCall;
  spawned : list AckTask;
  printed : list PyVal                     (* what print(...) wrote *)
}.

Definition set_orderbooks (x : gmap string OrderBook) (ex : Exchange) : Exchange :=
  mkExchange (id ex) (markets ex) (markets_by_id ex) (options ex) (ws_broad ex)
             (rateLimit ex) (ws_url ex) x (trades ex)
             (tickers ex) (clients ex) (delayed ex) (spawned ex) (printed ex).
Definition set_trades (x : gmap string ArrayCache) (ex : Exchange) : Exchange :=
  mkExchange (id ex) (markets ex) (markets_by_id ex) (options ex) (ws_broad ex)
             (rateLimit ex) (ws_url ex) (orderbooks ex) x
             (tickers ex) (clients ex) (delayed ex) (spawned ex) (printed ex).
Definition set_tickers (x : gmap string PyVal) (ex : Exchange) : Exchange :=
  mkExchange (id ex) (markets ex) (markets_by_id ex) (options ex) (ws_broad ex)
             (rateLimit ex) (ws_url ex) (orderbooks ex)
             (trades ex) x (clients ex) (delayed ex) (spawned ex) (printed ex).
Definition set_clients (x : gmap string Client) (ex : Exchange) : Exchange :=
  mkExchange (id ex) (markets ex) (markets_by_id ex) (options ex) (ws_broad ex)
             (rateLimit ex) (ws_url ex) (orderbooks ex)
             (trades ex) (tickers ex) x (delayed ex) (spawned ex) (printed ex).
Definition set_delayed (x : list DelayedCall) (ex : Exchange) : Exchange :=
  mkExchange (id ex) (markets ex) (markets_by_id ex) (options ex) (ws_broad ex)
             (rateLimit ex) (ws_url ex) (orderbooks ex)
             (trades ex) (tickers ex) (clients ex) x (spawned ex) (printed ex).
Definition set_spawned (x : list AckTask) (ex : Exchange) : Exchange :=
  mkExchange (id ex) (markets ex) (markets_by_id ex) (options ex) (ws_broad ex)
             (rateLimit ex) (ws_url ex) (orderbooks ex)
             (trades ex) (tickers ex) (clients ex) (delayed ex) x (printed ex).
Definition set_printed (x : list PyVal) (ex : Exchange) : Exchange :=
  mkExchange (id ex) (markets ex) (markets_by_id ex) (options ex) (ws_broad ex)
             (rateLimit ex) (ws_url ex) (orderbooks ex)
             (trades ex) (tickers ex) (clients ex) (delayed ex) (spawned ex) x.

(** Modelled from the spec: [Exchange.market(symbol)] of the base class,
    section 1: the market metadata loaded for a unified symbol; an unknown
    symbol is an error. *)
Definition market (ex : Exchange) (symbol : option string) : Res Market :=
  match symbol with
  | Some s =>
      match markets ex !! s with
      | Some m => Ok m
      | None => Raise (mkExn BadSymbol (PStr (id ex +:+ " does not have market symbol " +:+ s)))
      end
  | None => Raise (mkExn BadSymbol (PStr (id ex +:+ " does not have market symbol None")))
  end.

(** A handler runs with [self] and the [client] it was handed. *)
Record World : Type := mkWorld { self : Exchange; client : Client }.

(** From [w] to [w'] waiters were resolved only under keys that satisfy
    [P]. *)
Definition resolves_within (P : string -> Prop) (w w' : World) : Prop :=
  resolved_within P (client w) (client w').

(** A write to [self] that is not to the scheduled calls or the clients. *)
Definition leaves_schedule (f : Exchange -> Exchange) : Prop :=
  forall ex, delayed (f ex) = delayed ex /\ clients (f ex) = clients ex.

(** From [w] to [w'] nothing was subscribed, unsubscribed or scheduled, and
    no connection was opened or dropped. *)
Definition same_subscriptions (w w' : World) : Prop :=
  delayed (self w') = delayed (self w)
  /\ clients (self w') = clients (self w)
  /\ subscriptions (client w') = subscriptions (client w).

Definition on_self {A} (c : M Exchange A) : M World A :=
  zoom self (fun ex w => mkWorld ex (client w)) c.
Definition on_client {A} (c : M Client A) : M World A :=
  zoom client (fun cl w => mkWorld (self w) cl) c.

(** [w], with the book under [symbol] now [ob]. *)
Definition put_book (symbol : string) (ob : OrderBook) (w : World) : World :=
  mkWorld (set_orderbooks (<[symbol := ob]> (orderbooks (self w))) (self w)) (client w).

(** Run [c] on the order book object stored under [symbol]; the object is
    shared with [self.orderbooks], so what [c] writes is seen there, also
    when [c] raises. *)
Definition on_orderbook {A} (symbol : string) (c : M OrderBook A) : M World A :=
  fun w =>
    match orderbooks (self w) !! symbol with
    | Some ob =>
        let '(r, ob') := c ob in (r, put_book symbol ob' w)
    | None => (Raise (mkExn KeyError (PStr symbol)), w)
    end.

(** What a handler returns: the frame, an order book, or nothing. *)
Inductive Returned : Type :=
| RetMessage (message : PyVal)
| RetOrderBook (orderbook : OrderBook)
| RetNone.

(** The client for a url, as [self.client(url)] gives it. *)
Definition client_at (u : string) (ex : Exchange) : Client :=
  default (new_client u) (clients ex !! u).

(** [client = self.client(url)]: the connection for the url, opened on first
    use; [c] runs with it in hand. *)
Definition with_client {A} (u : string) (c : M World A) : M Exchange A :=
  fun ex =>
    let cl := default (new_client u) (clients ex !! u) in
    let '(r, w) := c (mkWorld ex cl) in
    (r, set_clients (<[u := client w]> (clients (self w))) (self w)).

(** Modelled from the spec: [Exchange.watch(url, messageHash, message,
    subscribeHash, subscription)] of the base class, section 4.4: registers
    the waiter under the routing key; the subscription is entered, and the
    subscribe request sent, only if the key is not subscribed yet. *)
Definition watch (message : option PyVal) (messageHash subscribeHash : string)
    (subscription : option PyVal) : M Client unit :=
  modify (future messageHash) ;;;
  cl <- get ;;
  if dict_mem (subscriptions cl) subscribeHash then ret tt
  else
    modify (set_subscriptions
              (dict_set (subscriptions cl) subscribeHash
                        (or_default subscription (PBool true)))) ;;;
    match message with
    | Some m => modify (send m)
    | None => ret tt
    end.

(** ** What a handler leaves alone *)

(** From [w] to [w'] the part of [self] that [f] reads is as it was. *)
Definition self_keeps {T} (f : Exchange -> T) (w w' : World) : Prop :=
  f (self w') = f (self w).

(** From [w] to [w'] the part of the client that [g] reads is as it was. *)
Definition client_keeps {T} (g : Client -> T) (w w' : World) : Prop :=
  g (client w') = g (client w).

(** What the instance was configured with and loaded: its id, markets,
    options, error table, rate limit and websocket url. *)
Definition configuration (ex : Exchange)
    : string * gmap string Market * gmap string Market * PyVal * pydict ExnClass
      * Z * string :=
  (id ex, markets ex, markets_by_id ex, options ex, ws_broad ex, rateLimit ex, ws_url ex).

(** [orderbook['asks']] or [orderbook['bids']]. *)
Definition book_side (k : SideKind) (ob : OrderBook) : OrderBookSide :=
  match k with
  | AsksSide => ob_asks ob
  | BidsSide => ob_bids ob
  end.

Definition put_side (k : SideKind) (x : OrderBookSide) (ob : OrderBook) : OrderBook :=
  match k with
  | AsksSide => set_asks x ob
  | BidsSide => set_bids x ob
  end.

(** From [ob] to [ob'] nothing but the buffer changed, and the buffer only
    grew. *)
Definition only_buffered (ob ob' : OrderBook) : Prop :=
  set_cache [] ob' = set_cache [] ob
  /\ exists more, ob_cache ob' = ob_cache ob ++ more.

(** From [w] to [w'] no order book was created or dropped, and none changed
    but by buffering. *)
Definition books_only_buffer (w w' : World) : Prop :=
  forall symbol,
    match orderbooks (self w) !! symbol, orderbooks (self w') !! symbol with
    | Some ob, Some ob' => only_buffered ob ob'
    | None, None => True
    | _, _ => False
    end.

End Base.

(* ===================================================================== *)
(** * class ripio (python/ccxt/pro/ripio.py)                              *)
(* ===================================================================== *)

Module Ripio.
Import Py Base.

(** The collaborators the handlers call: the payload decoder
    [json.loads(self.base64_to_string(payload))], the ISO-8601 conversions,
    and the REST parsers of [ccxt.async_support.ripio]. *)
Class Collaborators : Type := {
  loads_base64 : string -> Res PyVal;
  parse8601 : option string -> option Z;
  iso8601 : option Z -> option string;
  parse_trade : PyVal -> Market -> PyVal;
  parse_ticker : PyVal -> PyVal
}.

Section Methods.
Context {collab : Collaborators}.

(** ** [handle_delta], [handle_deltas] (lines 243-250) *)

Definition handle_delta (delta : PyVal) : M OrderBookSide unit :=
  price <- lift (safe_float delta (KStr "price")) ;;
  amount <- lift (safe_float delta (KStr "amount")) ;;
  bookside <- get ;;
  bookside' <- lift (store price amount None bookside) ;;
  put bookside'.

(** [for i in range(0, len(deltas)): self.handle_delta(bookside, deltas[i])] *)
Definition handle_deltas (deltas : PyVal) : M OrderBookSide unit :=
  items <- lift (py_items deltas) ;;
  for_each items handle_delta.

(** An argument at a call of [handle_deltas]: one side of the order book in
    hand (the object, not a copy), or a value. *)
Inductive Arg : Type :=
| ArgBookSide (k : SideKind)
| ArgVal (v : PyVal).

(** The parameters of [def handle_deltas(self, bookside, deltas)] after
    [self]. *)
Definition handle_deltas_params : list string := ["bookside"; "deltas"].

(** A call [self.handle_deltas(a, b, ...)] with the arguments [args]. *)
Definition call_handle_deltas (args : list Arg) : M OrderBook unit :=
  match bind_positional "handle_deltas" handle_deltas_params args with
  | Raise e => raise e
  | Ok [(_, ArgBookSide k); (_, ArgVal deltas)] => on_side k (handle_deltas deltas)
  | Ok _ => raise (type_error "handle_deltas(): a book side and its deltas are expected")
  end.

Definition nonce_value (n : option Z) : PyVal :=
  match n with Some z => PInt z | None => PNone end.

(** ** [handle_order_book_message] (lines 207-241) *)

Definition handle_order_book_message (message : PyVal) : M OrderBook Returned :=
  match safe_string message (KStr "payload") with
  | None => ret (RetMessage message)
  | Some payload =>
      data <- lift (loads_base64 payload) ;;
      let nonce := safe_integer data (KStr "updated_id") in
      orderbook <- get ;;
      newer <- lift (py_gt nonce (ob_nonce orderbook)) ;;
      (if newer : bool then
         let asks := or_default (safe_value data (KStr "sell")) (PList []) in
         let bids := or_default (safe_value data (KStr "buy")) (PList []) in
         call_handle_deltas
           [ArgBookSide AsksSide; ArgVal asks; ArgVal (nonce_value (ob_nonce orderbook))] ;;;
         orderbook <- get ;;
         call_handle_deltas
           [ArgBookSide BidsSide; ArgVal bids; ArgVal (nonce_value (ob_nonce orderbook))] ;;;
         modify (set_nonce nonce) ;;;
         let timestamp := parse8601 (safe_string message (KStr "publishTime")) in
         modify (set_timestamp timestamp) ;;;
         modify (set_datetime (iso8601 timestamp))
       else ret tt) ;;;
      orderbook <- get ;;
      ret (RetOrderBook orderbook)
  end.

(** The frame decodes to a delta that reports the sequence number [z]. *)
Definition carries (message : PyVal) (z : Z) : Prop :=
  exists payload data,
    safe_string message (KStr "payload") = Some payload
    /\ loads_base64 payload = Ok data
    /\ safe_integer data (KStr "updated_id") = Some z.

(** [self.safe_value(self.orderbooks, symbol)] for the symbol of a
    subscription: the book, with the symbol it is stored under. *)
Definition book_of (subscription : PyVal) (w : World) : option (string * OrderBook) :=
  safe_string subscription (KStr "symbol")
    ≫= (fun s => (fun ob => (s, ob)) <$> orderbooks (self w) !! s).

(** ** [handle_order_book] (lines 194-205) *)

Definition handle_order_book (message subscription : PyVal) : M World Returned :=
  let messageHash := safe_string subscription (KStr "messageHash") in
  let symbol := safe_string subscription (KStr "symbol") in
  w <- get ;;
  match book_of subscription w with
  | None => ret (RetMessage message)
  | Some (symbol, orderbook) =>
      match ob_nonce orderbook with
      | None =>
          on_orderbook symbol
            (modify (fun ob => set_cache (ob_cache ob ++ [message]) ob)) ;;;
          ret (RetMessage message)
      | Some _ =>
          on_orderbook symbol (handle_order_book_message message) ;;;
          orderbook <- on_orderbook symbol get ;;
          on_client (modify (resolve (VBook orderbook) messageHash)) ;;;
          ret (RetMessage message)
      end
  end.

(** The state once the connection has handed [messages], one by one in
    this order, to [handle_order_book]; a frame whose handling raises leaves
    what it wrote and the next one is handed over all the same. *)
Definition deliver_all (messages : list PyVal) (subscription : PyVal) (w : World) : World :=
  fold_left (fun w message => (handle_order_book message subscription w).2) messages w.

(** The exception that stops a replay of [messages] on the book [ob], if
    one does. *)
Fixpoint first_raise (messages : list PyVal) (ob : OrderBook) : option Exn :=
  match messages with
  | [] => None
  | message :: rest =>
      match handle_order_book_message message ob with
      | (Raise e, _) => Some e
      | (Ok _, ob') => first_raise rest ob'
      end
  end.

(** The book a replay of [messages] on the book [ob] ends with: the frames
    go through [handle_order_book_message] one after the other, each on the
    book the one before left, until one raises. *)
Fixpoint replayed (messages : list PyVal) (ob : OrderBook) : OrderBook :=
  match messages with
  | [] => ob
  | message :: rest =>
      match handle_order_book_message message ob with
      | (Raise _, ob') => ob'
      | (Ok _, ob') => replayed rest ob'
      end
  end.

(** ** [fetch_order_book_snapshot] (lines 176-192)

    [fetched] is what [await self.fetch_order_book(symbol)] comes back with;
    the rest of the body runs without yielding, on the state found then. *)

Definition fetch_order_book_snapshot (fetched : Res Snapshot) (subscription : PyVal)
    : M World unit :=
  let symbol := safe_string subscription (KStr "symbol") in
  let messageHash := safe_string subscription (KStr "messageHash") in
  try_except
    (snapshot <- lift fetched ;;
     w <- get ;;
     match book_of subscription w with
     | None => raise (mkExn KeyError (or_default (PStr <$> symbol) PNone))
     | Some (symbol, orderbook) =>
         let messages := ob_cache orderbook in
         on_orderbook symbol (modify (reset snapshot)) ;;;
         (* unroll the accumulated deltas *)
         for_each messages
           (fun message =>
              on_orderbook symbol (handle_order_book_message message) ;;; ret tt) ;;;
         orderbook <- on_orderbook symbol get ;;
         on_client (modify (resolve (VBook orderbook) messageHash))
     end)
    (fun e => on_client (modify (reject e messageHash))).

(** ** [watch_order_book] (lines 145-174) *)

(** [market['id'].lower()] *)
Definition lower_char (c : ascii) : ascii :=
  let n := N_of_ascii c in
  if ((65 <=? n) && (n <=? 90))%N then ascii_of_N (n + 32) else c.

Fixpoint lower (s : string) : string :=
  match s with
  | EmptyString => EmptyString
  | String c s' => String (lower_char c) (lower s')
  end.

Definition order_book_message_hash (m : Market) : string :=
  "orderbook" +:+ "_" +:+ lower (market_id m).

(** [self.urls['api']['ws'] + messageHash + '/' + self.options['uuid']] *)
Definition order_book_url (ex : Exchange) (m : Market) : Res string :=
  match py_getitem (options ex) (KStr "uuid") with
  | Some (PStr uuid) => Ok (ws_url ex +:+ order_book_message_hash m +:+ "/" +:+ uuid)
  | Some _ => Raise (type_error "can only concatenate str to str")
  | None => Raise (mkExn KeyError (PStr "uuid"))
  end.

Definition order_book_subscription (m : Market) : PyVal :=
  PDict [("name", PStr "orderbook");
         ("symbol", PStr (market_symbol m));
         ("messageHash", PStr (order_book_message_hash m));
         ("method", PMethod handle_order_book_method)].

(** The body up to the point where the caller is parked on
    [await self.watch(...)]; [loaded] is what [await self.load_markets()]
    came back with.  The routing key awaited is returned. *)
Definition watch_order_book (loaded : Res unit) (symbol : string) : M Exchange string :=
  lift loaded ;;;
  ex <- get ;;
  market <- lift (market ex (Some symbol)) ;;
  let symbol := market_symbol market in
  let messageHash := order_book_message_hash market in
  url <- lift (order_book_url ex market) ;;
  let subscription := order_book_subscription market in
  with_client url
    (w <- get ;;
     (if negb (dict_mem (subscriptions (client w)) messageHash) then
        on_self (modify (fun ex =>
                   set_orderbooks (<[symbol := order_book None]> (orderbooks ex)) ex)) ;;;
        on_client (modify (fun cl =>
                   set_subscriptions (dict_set (subscriptions cl) messageHash subscription) cl)) ;;;
        let options := or_default (safe_value (options (self w)) (KStr "fetchOrderBookSnapshot"))
                                  (PDict []) in
        let delay := or_default (safe_integer options (KStr "delay")) (rateLimit (self w)) in
        (* fetch the snapshot in a separate async call after a warmup delay *)
        on_self (modify (fun ex =>
                   set_delayed (delayed ex ++ [mkDelayed delay url subscription]) ex))
      else ret tt) ;;;
     on_client (watch None messageHash messageHash (Some subscription))) ;;;
  ret messageHash.

(** The warm-up delay [watch_order_book] schedules the fetch with. *)
Definition snapshot_delay (ex : Exchange) : Z :=
  or_default
    (safe_integer
       (or_default (safe_value (options ex) (KStr "fetchOrderBookSnapshot")) (PDict []))
       (KStr "delay"))
    (rateLimit ex).

(** How many snapshot fetches were ever scheduled for the routing key [key]
    on the client for [u]. *)
Definition scheduled (ex : Exchange) (u key : string) : nat :=
  length
    (List.filter
       (fun d => String.eqb (dc_client d) u
                 && bool_decide (safe_string (dc_subscription d) (KStr "messageHash")
                                 = Some key))
       (delayed ex)).

(** Every fetch scheduled so far belongs to a subscription its client still
    holds. *)
Definition scheduled_are_subscribed (ex : Exchange) : Prop :=
  forall d, In d (delayed ex) ->
    exists key,
      safe_string (dc_subscription d) (KStr "messageHash") = Some key
      /\ dict_mem (subscriptions (client_at (dc_client d) ex)) key = true.

(** The two facts the count of scheduled fetches rests on. *)
Definition at_most_one_fetch (ex : Exchange) : Prop :=
  scheduled_are_subscribed ex
  /\ forall u key, (scheduled ex u key <= 1)%nat.

(** What the caller gets once the waiter is resolved: [orderbook.limit()]. *)
Definition watch_order_book_result (orderbook : OrderBook) : list Level * list Level :=
  limit None orderbook.

(** ** [handle_trade] (lines 51-88) and [handle_ticker] (lines 111-143) *)

Definition handle_trade (message subscription : PyVal) : M World Returned :=
  match safe_string message (KStr "payload") with
  | None => ret (RetMessage message)
  | Some payload =>
      data <- lift (loads_base64 payload) ;;
      let symbol := safe_string subscription (KStr "symbol") in
      let messageHash := safe_string subscription (KStr "messageHash") in
      w <- get ;;
      market <- lift (market (self w) symbol) ;;
      let trade := parse_trade data market in
      match symbol with
      | None => raise (mkExn KeyError PNone)
      | Some symbol =>
          let tradesArray :=
            match trades (self w) !! symbol with
            | Some tradesArray => tradesArray
            | None =>
                let limit :=
                  or_default (safe_integer (options (self w)) (KStr "tradesLimit")) 1000 in
                mkArrayCache limit []
            end in
          let tradesArray := array_cache_append trade tradesArray in
          on_self (modify (fun ex =>
                     set_trades (<[symbol := tradesArray]> (trades ex)) ex)) ;;;
          on_client (modify (resolve (VTrades (cache_items tradesArray)) messageHash)) ;;;
          ret RetNone
      end
  end.

Definition handle_ticker (message subscription : PyVal) : M World Returned :=
  match safe_string message (KStr "payload") with
  | None => ret (RetMessage message)
  | Some payload =>
      data <- lift (loads_base64 payload) ;;
      match parse_ticker data with
      | PDict ticker =>
          let timestamp := parse8601 (safe_string message (KStr "publishTime")) in
          let ticker := dict_set ticker "timestamp" (nonce_value timestamp) in
          let ticker := dict_set ticker "datetime"
                          (or_default (PStr <$> iso8601 timestamp) PNone) in
          match dict_get ticker "symbol" with
          | None => raise (mkExn KeyError (PStr "symbol"))
          | Some symbol =>
              on_self (modify (fun ex =>
                         set_tickers (<[py_str symbol := PDict ticker]> (tickers ex)) ex)) ;;;
              let messageHash := safe_string subscription (KStr "messageHash") in
              match messageHash with
              | Some _ => on_client (modify (resolve (VPy (PDict ticker)) messageHash))
              | None => ret tt
              end ;;;
              ret (RetMessage message)
          end
      | _ => raise (type_error "object does not support item assignment")
      end
  end.

(** ** [ack] (lines 252-254) and [handle_message] (lines 256-275) *)

Definition ack (messageId : string) : M Client unit :=
  modify (send (PDict [("messageId", PStr messageId)])).

(** The method a subscription stores, called as
    [method(client, message, subscription)]. *)
Definition call_method (method : Method) (message subscription : PyVal)
    : M World Returned :=
  match method with
  | handle_trade_method => handle_trade message subscription
  | handle_ticker_method => handle_ticker message subscription
  | handle_order_book_method => handle_order_book message subscription
  end.

(** The subscription [handle_message] falls back to: the one registered
    first ([{}] when there is none). *)
Definition fallback (subs : pydict PyVal) : PyVal :=
  match subs with
  | [] | (_, PNone) :: _ => PDict []
  | (_, subscription) :: _ => subscription
  end.

(** The state once [handle_message] has spawned the acknowledgment of a
    frame that carries a [messageId]. *)
Definition acknowledged (message : PyVal) (w : World) : World :=
  match safe_string message (KStr "messageId") with
  | Some messageId =>
      mkWorld (set_spawned (spawned (self w) ++ [mkAck (url (client w)) messageId])
                           (self w))
              (client w)
  | None => w
  end.

Definition handle_message (message : PyVal) : M World Returned :=
  let messageId := safe_string message (KStr "messageId") in
  match messageId with
  | Some messageId =>
      (* the exchange requires acknowledging each received message *)
      w <- get ;;
      on_self (modify (fun ex =>
                 set_spawned (spawned ex ++ [mkAck (url (client w)) messageId]) ex))
  | None => ret tt
  end ;;;
  w <- get ;;
  let keys := PList (map PStr (dict_keys (subscriptions (client w)))) in
  let firstKey := safe_string keys (KInt 0) in
  let subscription :=
    or_default (firstKey ≫= (fun k => safe_value (PDict (subscriptions (client w))) (KStr k)))
               (PDict []) in
  let method := safe_value subscription (KStr "method") in
  match method with
  | Some (PMethod method) => call_method method message subscription
  | Some _ => raise (type_error "object is not callable")
  | None => ret (RetMessage message)
  end.

(** ** What happens on the event loop *)

Inductive Event : Type :=
| Watch (loaded : Res unit) (symbol : string)
    (* a caller enters watch_order_book *)
| Frame (u : string) (message : PyVal)
    (* a frame arrives on the connection for [u] *)
| Fetched (u : string) (subscription : PyVal) (fetched : Res Snapshot)
    (* a delayed fetch_order_book_snapshot gets its answer *)
| Acknowledge (u : string) (messageId : string).
    (* a spawned ack runs *)

(** Run a handler with the client for [u], if that connection exists. *)
Definition with_open_client {A} (u : string) (c : M World A) (ex : Exchange) : Exchange :=
  match clients ex !! u with
  | Some _ => (with_client u c ex).2
  | None => ex
  end.

Definition run_event (ex : Exchange) (ev : Event) : Exchange :=
  match ev with
  | Watch loaded symbol => (watch_order_book loaded symbol ex).2
  | Frame u message => with_open_client u (handle_message message) ex
  | Fetched u subscription fetched =>
      with_open_client u (fetch_order_book_snapshot fetched subscription) ex
  | Acknowledge u messageId => with_open_client u (on_client (ack messageId)) ex
  end.

Definition run (events : list Event) (ex : Exchange) : Exchange :=
  fold_left run_event events ex.

(** No answer to a snapshot fetch is among [events]. *)
Definition no_fetch_answered (events : list Event) : Prop :=
  Forall (fun ev => match ev with Fetched _ _ _ => False | _ => True end) events.

(** The connection for [u] is open, and the subscription registered first
    on it, the one [handle_message] hands its frames to, is [subscription]
    under [key]. *)
Definition first_subscription (ex : Exchange) (u key : string) (subscription : PyVal)
    : Prop :=
  exists cl others,
    clients ex !! u = Some cl /\ subscriptions cl = (key, subscription) :: others.

(** The order book of [symbol] is there and its nonce is unset: it waits for
    its snapshot. *)
Definition buffering (ex : Exchange) (symbol : string) : Prop :=
  exists ob, orderbooks ex !! symbol = Some ob /\ ob_nonce ob = None.

(** ** [watch_trades] (lines 33-49) and [watch_ticker] (lines 90-109) *)

(** [self.urls['api']['ws'] + messageHash + '/' + self.options['uuid']] *)
Definition stream_url (ex : Exchange) (messageHash : string) : Res string :=
  match py_getitem (options ex) (KStr "uuid") with
  | Some (PStr uuid) => Ok (ws_url ex +:+ messageHash +:+ "/" +:+ uuid)
  | Some _ => Raise (type_error "can only concatenate str to str")
  | None => Raise (mkExn KeyError (PStr "uuid"))
  end.

(** The body up to the point where the caller is parked on
    [await self.watch(...)]; the routing key awaited is returned.  The
    symbol defaults to [None]. *)
Definition watch_trades (loaded : Res unit) (symbol : option string) : M Exchange string :=
  lift loaded ;;;
  ex <- get ;;
  market <- lift (market ex symbol) ;;
  let symbol := market_symbol market in
  let name := "trades" in
  let messageHash := name +:+ "_" +:+ lower (market_id market) in
  url <- lift (stream_url ex messageHash) ;;
  let subscription :=
    PDict [("name", PStr name);
           ("symbol", PStr symbol);
           ("messageHash", PStr messageHash);
           ("method", PMethod handle_trade_method)] in
  with_client url
    (on_client (watch None messageHash messageHash (Some subscription))) ;;;
  ret messageHash.

Definition watch_ticker (loaded : Res unit) (symbol : string) : M Exchange string :=
  lift loaded ;;;
  ex <- get ;;
  market <- lift (market ex (Some symbol)) ;;
  let symbol := market_symbol market in
  let name := "rate" in
  let messageHash := name +:+ "_" +:+ lower (market_id market) in
  url <- lift (stream_url ex messageHash) ;;
  let subscription :=
    PDict [("name", PStr name);
           ("symbol", PStr symbol);
           ("messageHash", PStr messageHash);
           ("method", PMethod handle_ticker_method)] in
  with_client url
    (on_client (watch None messageHash messageHash (Some subscription))) ;;;
  ret messageHash.

(** What happens on the event loop once the three streams are in use. *)
Inductive Activity : Type :=
| OrderBookEvent (ev : Event)
| WatchTrades (loaded : Res unit) (symbol : option string)
| WatchTicker (loaded : Res unit) (symbol : string).

Definition run_activity (ex : Exchange) (a : Activity) : Exchange :=
  match a with
  | OrderBookEvent ev => run_event ex ev
  | WatchTrades loaded symbol => (watch_trades loaded symbol ex).2
  | WatchTicker loaded symbol => (watch_ticker loaded symbol ex).2
  end.

Definition run_all (activities : list Activity) (ex : Exchange) : Exchange :=
  fold_left run_activity activities ex.

(** Every connection carries at most one subscription, and it is the
    stream its url names. *)
Definition one_stream_per_connection (ex : Exchange) : Prop :=
  forall u cl, clients ex !! u = Some cl ->
    subscriptions cl = []
    \/ exists key subscription,
         subscriptions cl = [(key, subscription)] /\ stream_url ex key = Ok u.

(** The state once the connection has handed [messages], one by one in this
    order, to [handle_message]; a frame whose handling raises leaves what it
    wrote and the next one is handed over all the same. *)
Definition receive_all (messages : list PyVal) (w : World) : World :=
  fold_left (fun w message => (handle_message message w).2) messages w.

(** The acknowledgments [handle_message] spawns for [messages] on the
    connection for [u]: one per frame that carries a [messageId]. *)
Definition acks_of (u : string) (messages : list PyVal) : list AckTask :=
  flat_map
    (fun message =>
       match safe_string message (KStr "messageId") with
       | Some messageId => [mkAck u messageId]
       | None => []
       end)
    messages.

(** The trade a frame carries for the market [m], as [handle_trade] reads
    it. *)
Definition trade_of (m : Market) (message : PyVal) : option PyVal :=
  safe_string message (KStr "payload") ≫= fun payload =>
    match loads_base64 payload with
    | Ok data => Some (parse_trade data m)
    | Raise _ => None
    end.

(** The newest [limit] of [items], as an [ArrayCache] keeps them. *)
Definition newest (limit : Z) (items : list PyVal) : list PyVal :=
  skipn (length items - Z.to_nat limit) items.

(** The state once [messages] have gone, one by one, through
    [handle_trade]. *)
Definition trade_all (messages : list PyVal) (subscription : PyVal) (w : World) : World :=
  fold_left (fun w message => (handle_trade message subscription w).2) messages w.

End Methods.
End Ripio.

(* ===================================================================== *)
(** * class bitmex (python/ccxtpro/bitmex.py)                             *)
(* ===================================================================== *)

Module Bitmex.
Import Py Base.

(** ** Names

    What a bare name in the file denotes.  The module binds the names of its
    imports (lines 6-9); any other name is looked up among the builtins,
    where [NotImplemented] is the constant that binary methods return, not a
    class. *)
Inductive Global : Type :=
| GModule
| GExceptionClass (c : ExnClass)
| GNotImplemented.

Definition module_globals : pydict Global :=
  [("ccxtpro", GModule);
   ("ccxt", GModule);
   ("ExchangeError", GExceptionClass ExchangeError);
   ("RateLimitExceeded", GExceptionClass RateLimitExceeded)].

Definition builtins : pydict Global :=
  [("NotImplemented", GNotImplemented);
   ("TypeError", GExceptionClass TypeError);
   ("ValueError", GExceptionClass ValueError);
   ("KeyError", GExceptionClass KeyError);
   ("AttributeError", GExceptionClass AttributeError);
   ("IndexError", GExceptionClass IndexError)].

Definition lookup_name (name : string) : Res Global :=
  match dict_get module_globals name with
  | Some g => Ok g
  | None =>
      match dict_get builtins name with
      | Some g => Ok g
      | None => Raise (type_error ("name " +:+ repr_str name +:+ " is not defined"))
      end
  end.

(** [name(arg)]: calling a class builds an instance; the other two are not
    callable. *)
Definition call_name (name : string) (arg : PyVal) : Res Exn :=
  match lookup_name name with
  | Raise e => Raise e
  | Ok (GExceptionClass c) => Ok (mkExn c arg)
  | Ok GModule => Raise (type_error "'module' object is not callable")
  | Ok GNotImplemented => Raise (type_error "'NotImplementedType' object is not callable")
  end.

(** [raise name(arg)] *)
Definition raise_new {S A} (name : string) (arg : PyVal) : M S A :=
  e <- lift (call_name name arg) ;;
  raise e.

(** ** [describe] (lines 14-42) *)

Definition describe_options : PyVal :=
  PDict [("subscriptionStatusByChannelId", PDict []);
         ("watchOrderBookLevel", PStr "orderBookL2")].

Definition describe_ws_broad : pydict ExnClass :=
  [("Rate limit exceeded", RateLimitExceeded)].

Definition describe_ws_url : string := "wss://www.bitmex.com/realtime".

(** ** [watch_balance] (lines 105-107)

    [loaded] is what [await self.load_markets()] came back with. *)
Definition watch_balance (loaded : Res unit) : M Exchange Returned :=
  ex <- get ;;
  lift loaded ;;;
  raise_new "NotImplemented" (PStr (id ex +:+ " watchBalance() not implemented yet")).

(** ** [watch_order_book] (lines 194-215), with the default [params = {}]

    The body up to the point where the caller is parked on the future; the
    routing key awaited is returned. *)
Definition watch_order_book (loaded : Res unit) (symbol : string) (limit : option Z)
    : M Exchange string :=
  ex <- get ;;
  name <-
    match limit with
    | None =>
        ret (or_default (safe_string (options ex) (KStr "watchOrderBookLevel"))
                        "orderBookL2")
    | Some 25 => ret "orderBookL2_25"
    | Some 10 => ret "orderBookL10"
    | Some _ =>
        raise_new "ExchangeError"
          (PStr (id ex +:+ " watchOrderBook limit argument must be None(L2), 25(L2) or 10(L3)"))
    end ;;
  lift loaded ;;;
  market <- lift (market ex (Some symbol)) ;;
  let messageHash := name +:+ ":" +:+ market_id market in
  let url := ws_url ex in
  let request := PDict [("op", PStr "subscribe"); ("args", PList [PStr messageHash])] in
  with_client url
    (on_client (watch (Some request) messageHash messageHash None)) ;;;
  ret messageHash.

(** [limit_order_book], run on the book the waiter is resolved with. *)
Definition limit_order_book (orderbook : OrderBook) (limit : option Z)
    : list Level * list Level :=
  Base.limit limit orderbook.

(** ** [handle_order_book] (lines 277-373) *)

(** [marketId in self.markets_by_id], with the market found. *)
Definition in_markets_by_id (ex : Exchange) (marketId : option PyVal)
    : Res (option (string * Market)) :=
  match marketId with
  | Some (PStr s) => Ok ((fun m => (s, m)) <$> markets_by_id ex !! s)
  | Some (PList _) => Raise (type_error "unhashable type: 'list'")
  | Some (PDict _) => Raise (type_error "unhashable type: 'dict'")
  | _ => Ok None
  end.

(** ['bids' if (side == 'Buy') else 'asks'] *)
Definition side_of (side : option string) : SideKind :=
  match side with
  | Some s => if String.eqb s "Buy" then BidsSide else AsksSide
  | None => AsksSide
  end.

(** [table + ':' + marketId] *)
Definition table_key (table : option string) (marketId : string) : Res string :=
  match table with
  | Some t => Ok (t +:+ ":" +:+ marketId)
  | None => Raise (type_error "unsupported operand type(s) for +: 'NoneType' and 'str'")
  end.

(** One row of [data], stored with [store] ([insert] and the snapshot) or
    with [restore] (the other actions); [size_default] is the default the
    row's size is read with. *)
Definition apply_row (use_store : bool) (size_default : option Q) (row : PyVal)
    : M OrderBook unit :=
  price <- lift (safe_float row (KStr "price")) ;;
  size <- lift (safe_float row (KStr "size")) ;;
  let size := match size with Some q => Some q | None => size_default end in
  let id := safe_string row (KStr "id") in
  let side := side_of (safe_string row (KStr "side")) in
  on_side side
    (bookside <- get ;;
     bookside' <- lift ((if use_store then store else restore) price size id bookside) ;;
     put bookside').

Definition handle_order_book (message : PyVal) : M World Returned :=
  let action := safe_string message (KStr "action") in
  let table := safe_string message (KStr "table") in
  let data := or_default (safe_value message (KStr "data")) (PList []) in
  (* if it's an initial snapshot *)
  if decide (action = Some "partial") then
    let filter := or_default (safe_value message (KStr "filter")) (PDict []) in
    let marketId := safe_value filter (KStr "symbol") in
    w <- get ;;
    found <- lift (in_markets_by_id (self w) marketId) ;;
    match found with
    | Some (marketId, market) =>
        let symbol := market_symbol market in
        let fresh depth :=
          on_self (modify (fun ex =>
            set_orderbooks (<[symbol := indexed_order_book depth]> (orderbooks ex)) ex)) in
        (if decide (table = Some "orderBookL2") then fresh None
         else if decide (table = Some "orderBookL2_25") then fresh (Some 25)
         else if decide (table = Some "orderBook10") then fresh (Some 10)
         else ret tt) ;;;
        on_orderbook symbol (ret tt) ;;;
        rows <- lift (py_items data) ;;
        for_each rows (fun row => on_orderbook symbol (apply_row true None row)) ;;;
        messageHash <- lift (table_key table marketId) ;;
        (* the .limit() operation will be moved to the watchOrderBook *)
        orderbook <- on_orderbook symbol get ;;
        on_client (modify (resolve (VBook orderbook) (Some messageHash))) ;;;
        ret RetNone
    | None => ret RetNone
    end
  else
    rows <- lift (py_items data) ;;
    numUpdatesByMarketId <-
      fold_each rows ([] : pydict Z)
        (fun numUpdatesByMarketId row =>
           let marketId := safe_value row (KStr "symbol") in
           w <- get ;;
           found <- lift (in_markets_by_id (self w) marketId) ;;
           match found with
           | Some (marketId, market) =>
               let n := or_default (dict_get numUpdatesByMarketId marketId) 0 in
               let numUpdatesByMarketId := dict_set numUpdatesByMarketId marketId (n + 1) in
               let symbol := market_symbol market in
               on_orderbook symbol
                 (apply_row (bool_decide (action = Some "insert")) (Some 0%Q) row) ;;;
               ret numUpdatesByMarketId
           | None => ret numUpdatesByMarketId
           end) ;;
    let marketIds := dict_keys numUpdatesByMarketId in
    for_each marketIds
      (fun marketId =>
         messageHash <- lift (table_key table marketId) ;;
         w <- get ;;
         match markets_by_id (self w) !! marketId with
         | None => raise (mkExn KeyError (PStr marketId))
         | Some market =>
             let symbol := market_symbol market in
             orderbook <- on_orderbook symbol get ;;
             (* the .limit() operation will be moved to the watchOrderBook *)
             on_client (modify (resolve (VBook orderbook) (Some messageHash)))
         end) ;;;
    ret RetNone.

(** ** [handle_system_status], [handle_subscription_status] (lines 375-408) *)

Definition handle_system_status (message : PyVal) : M World Returned :=
  ret (RetMessage message).

Definition handle_subscription_status (message : PyVal) : M World Returned :=
  ret (RetMessage message).

(** ** [handle_error_message] (lines 410-444) *)

(** A value used as the key of a waiter. *)
Definition routing_key (v : PyVal) : option string :=
  match v with
  | PStr s => Some s
  | _ => None
  end.

Definition handle_error_message (message : PyVal) : M World bool :=
  let error := safe_value message (KStr "error") in
  match error with
  | Some error =>
      let request := or_default (safe_value message (KStr "request")) (PDict []) in
      let args := or_default (PStr <$> safe_string request (KStr "args")) (PList []) in
      numArgs <- lift (py_len args) ;;
      if (0 <? numArgs)%Z then
        messageHash <- lift (py_index args 0) ;;
        w <- get ;;
        let broad := ws_broad (self w) in
        broadKey <- lift (find_broadly_matched_key broad error) ;;
        exception <-
          match broadKey ≫= dict_get broad with
          | None => lift (call_name "ExchangeError" error)
          | Some cls => ret (mkExn cls error)
          end ;;
        on_client (modify (reject exception (routing_key messageHash))) ;;;
        ret false
      else ret true
  | None => ret true
  end.

(** ** [handle_message] (lines 446-493) *)

(** [print(message)] *)
Definition print (v : PyVal) : M World unit :=
  on_self (modify (fun ex => set_printed (printed ex ++ [v]) ex)).

Definition methods : pydict (PyVal -> M World Returned) :=
  [("orderBookL2", handle_order_book);
   ("orderBookL2_25", handle_order_book);
   ("orderBook10", handle_order_book)].

Definition handle_message (message : PyVal) : M World Returned :=
  ok <- handle_error_message message ;;
  if ok : bool then
    let table := safe_string message (KStr "table") in
    let method := table ≫= dict_get methods in
    match method with
    | None => print message ;;; ret (RetMessage message)
    | Some method => method message
    end
  else ret RetNone.

(** A key ['<table>:<marketId>'] for the table [t]. *)
Definition key_of_table (t : string) (key : string) : Prop :=
  exists marketId, key = t +:+ ":" +:+ marketId.

(** A key ['<table>:<marketId>'] for one of the tables [handle_message]
    dispatches. *)
Definition order_book_key (key : string) : Prop :=
  exists table marketId,
    In table (dict_keys methods) /\ key = table +:+ ":" +:+ marketId.

(** The table [watch_order_book] subscribes to for a limit, when it accepts
    the limit (lines 195-203). *)
Definition level_name (ex : Exchange) (limit : option Z) : option string :=
  match limit with
  | None =>
      Some (or_default (safe_string (options ex) (KStr "watchOrderBookLevel"))
                       "orderBookL2")
  | Some 25 => Some "orderBookL2_25"
  | Some 10 => Some "orderBookL10"
  | Some _ => None
  end.

(** The request [watch_order_book] sends to subscribe to a key. *)
Definition subscribe_request (key : string) : PyVal :=
  PDict [("op", PStr "subscribe"); ("args", PList [PStr key])].

(** The depth [handle_order_book] creates the book of a table with (lines
    326-331). *)
Definition depth_of_table : pydict (option Z) :=
  [("orderBookL2", None); ("orderBookL2_25", Some 25); ("orderBook10", Some 10)].

(** The state [handle_order_book] leaves, and what it returns, once the
    rows of a frame have run on the market's book and given [r] and the book
    [ob]: the waiter is resolved only if no row raised. *)
Definition after_rows (symbol : string) (key : string) (r : Res unit) (ob : OrderBook)
    (w : World) : Res Returned * World :=
  match r with
  | Ok _ =>
      (Ok RetNone,
       mkWorld (self (put_book symbol ob w))
               (resolve (VBook ob) (Some key) (client w)))
  | Raise e => (Raise e, put_book symbol ob w)
  end.

(** The body of the loop over the rows of an update (lines 346-364), and of
    the loop over the markets it touched (lines 366-373), as
    [handle_order_book] has them. *)
Definition update_row (action : option string) (numUpdatesByMarketId : pydict Z)
    (row : PyVal) : M World (pydict Z) :=
  let marketId := safe_value row (KStr "symbol") in
  w <- get ;;
  found <- lift (in_markets_by_id (self w) marketId) ;;
  match found with
  | Some (marketId, market) =>
      let n := or_default (dict_get numUpdatesByMarketId marketId) 0 in
      let numUpdatesByMarketId := dict_set numUpdatesByMarketId marketId (n + 1) in
      let symbol := market_symbol market in
      on_orderbook symbol
        (apply_row (bool_decide (action = Some "insert")) (Some 0%Q) row) ;;;
      ret numUpdatesByMarketId
  | None => ret numUpdatesByMarketId
  end.

Definition resolve_market (table : option string) (marketId : string) : M World unit :=
  messageHash <- lift (table_key table marketId) ;;
  w <- get ;;
  match markets_by_id (self w) !! marketId with
  | None => raise (mkExn KeyError (PStr marketId))
  | Some market =>
      let symbol := market_symbol market in
      orderbook <- on_orderbook symbol get ;;
      on_client (modify (resolve (VBook orderbook) (Some messageHash)))
  end.

(** The frame reads as an [action] on a [table] with the rows [rows]. *)
Definition frame_of (message : PyVal) (action table : string) (rows : list PyVal) : Prop :=
  safe_string message (KStr "action") = Some action
  /\ safe_string message (KStr "table") = Some table
  /\ py_items (or_default (safe_value message (KStr "data")) (PList [])) = Ok rows.

(** The row reads as: the market id, the level's id, the side, and the
    price and size if it carries them. *)
Definition reads_row (row : PyVal) (marketId i : string) (k : SideKind)
    (p s : option Q) : Prop :=
  safe_value row (KStr "symbol") = Some (PStr marketId)
  /\ safe_string row (KStr "id") = Some i
  /\ side_of (safe_string row (KStr "side")) = k
  /\ safe_float row (KStr "price") = Ok p
  /\ safe_float row (KStr "size") = Ok s.

(** ** [watch_ohlcv] (lines 220-228), [sign_message] (lines 236-238) *)

Definition watch_ohlcv (symbol timeframe : string) (since limit : option Z)
    : M Exchange Returned :=
  ex <- get ;;
  raise_new "NotImplemented" (PStr (id ex +:+ " watchOHLCV() not implemented yet(wip)")).

Definition sign_message (messageHash : string) (message : PyVal) : M World Returned :=
  ret (RetMessage message).

(** ** [handle_trades] (lines 109-150) *)

(** [v[key]] for a str key, as in [market['symbol']]. *)
Definition py_item (v : PyVal) (key : string) : Res PyVal :=
  match v with
  | PDict d =>
      match dict_get d key with
      | Some x => Ok x
      | None => Raise (mkExn KeyError (PStr key))
      end
  | PList _ => Raise (type_error "list indices must be integers or slices, not str")
  | PStr _ => Raise (type_error "string indices must be integers")
  | _ => Raise (type_error "object is not subscriptable")
  end.

(** [self.safe_value(container, key)] for a key read from a frame: a str or
    an int names an entry, [None] names none, a list or a dict is not
    hashable. *)
Definition safe_value_at (container key : PyVal) : Res (option PyVal) :=
  match key with
  | PStr s => Ok (safe_value container (KStr s))
  | PInt i => Ok (safe_value container (KInt i))
  | PBool b => Ok (safe_value container (KInt (if b then 1 else 0)))
  | PList _ | PDict _ =>
      match container with
      | PDict _ => Raise (type_error "unhashable type")
      | _ => Ok None
      end
  | _ => Ok None
  end.

Section Unfinished.

(** The builtin [int] and the base class's [iso8601]. *)
Variable int : PyVal -> Res Z.
Variable iso8601 : Z -> Res PyVal.

Definition handle_trades (message : PyVal) : M World Returned :=
  wsName <- lift (py_index message 3) ;;
  w <- get ;;
  marketsByWsName <- lift (py_item (options (self w)) "marketsByWsName") ;;
  market <- lift (safe_value_at marketsByWsName wsName) ;;
  symbol <- lift (py_item (or_default market PNone) "symbol") ;;
  third <- lift (py_index message 2) ;;
  timestamp <- lift (int third) ;;
  datetime <- lift (iso8601 timestamp) ;;
  let result :=
    PDict [("id", PNone);
           ("order", PNone);
           ("info", message);
           ("timestamp", PInt timestamp);
           ("datetime", datetime);
           ("symbol", symbol);
           ("takerOrMaker", PNone)] in
  raise_new "NotImplemented"
    (PStr (id (self w) +:+ " handleTrades() not implemented yet(wip)")).

End Unfinished.

End Bitmex.

(* ===================================================================== *)
(** * A reference implementation of the collaborators                     *)
(* ===================================================================== *)

Module Codec.
Import Py Base.


(** ** base64 *)

Definition b64_value (c : ascii) : option N :=
  let n := N_of_ascii c in
  if ((65 <=? n) && (n <=? 90))%N then Some (n - 65)%N
  else if ((97 <=? n) && (n <=? 122))%N then Some (n - 71)%N
  else if ((48 <=? n) && (n <=? 57))%N then Some (n + 4)%N
  else if (n =? 43)%N then Some 62%N
  else if (n =? 47)%N then Some 63%N
  else None.

Definition pad : ascii := "="%char.

(** Four characters give three bytes; [=] pads the last group. *)
Fixpoint b64_groups (fuel : nat) (cs : list ascii) : option (list ascii) :=
  match fuel, cs with
  | _, [] => Some []
  | S fuel', a :: b :: c :: d :: rest =>
      match b64_value a, b64_value b with
      | Some x, Some y =>
          let b1 := ascii_of_N (x * 4 + y / 16) in
          if Ascii.eqb c pad && Ascii.eqb d pad then
            match rest with [] => Some [b1] | _ => None end
          else
            match b64_value c with
            | Some z =>
                let b2 := ascii_of_N ((y mod 16) * 16 + z / 4) in
                if Ascii.eqb d pad then
                  match rest with [] => Some [b1; b2] | _ => None end
                else
                  match b64_value d with
                  | Some w =>
                      let b3 := ascii_of_N ((z mod 4) * 64 + w) in
                      (fun tl => b1 :: b2 :: b3 :: tl) <$> b64_groups fuel' rest
                  | None => None
                  end
            | None => None
            end
      | _, _ => None
      end
  | _, _ => None
  end.

Definition base64_to_string (s : string) : option string :=
  let cs := list_ascii_of_string s in
  string_of_list_ascii <$> b64_groups (length cs) cs.

(** ** JSON *)

Definition is_space (c : ascii) : bool :=
  let n := N_of_ascii c in
  ((n =? 32) || (n =? 9) || (n =? 10) || (n =? 13))%N.

Fixpoint skip_space (cs : list ascii) : list ascii :=
  match cs with
  | c :: cs' => if is_space c then skip_space cs' else cs
  | [] => []
  end.

(** The text of a string literal, after its opening quote. *)
Fixpoint json_string (cs : list ascii) (acc : list ascii) : option (string * list ascii) :=
  match cs with
  | [] => None
  | c :: cs' =>
      if Ascii.eqb c dquote then Some (string_of_list_ascii (rev acc), cs')
      else if Ascii.eqb c "\"%char then
        match cs' with
        | e :: cs'' =>
            let n := N_of_ascii e in
            let plain x := json_string cs'' (x :: acc) in
            if Ascii.eqb e dquote || Ascii.eqb e "\"%char || Ascii.eqb e "/"%char then plain e
            else if Ascii.eqb e "n"%char then plain (ascii_of_N 10)
            else if Ascii.eqb e "t"%char then plain (ascii_of_N 9)
            else if Ascii.eqb e "r"%char then plain (ascii_of_N 13)
            else if Ascii.eqb e "b"%char then plain (ascii_of_N 8)
            else if Ascii.eqb e "f"%char then plain (ascii_of_N 12)
            else None
        | [] => None
        end
      else json_string cs' (c :: acc)
  end.

Definition is_number_char (c : ascii) : bool :=
  match digit_of c with
  | Some _ => true
  | None => Ascii.eqb c "-"%char || Ascii.eqb c "+"%char || Ascii.eqb c "."%char
            || Ascii.eqb c "e"%char || Ascii.eqb c "E"%char
  end.

Fixpoint span_number (cs : list ascii) (acc : list ascii) : list ascii * list ascii :=
  match cs with
  | c :: cs' => if is_number_char c then span_number cs' (c :: acc) else (rev acc, cs)
  | [] => (rev acc, [])
  end.

(** An integer literal is an int, any other number a float. *)
Definition json_number (cs : list ascii) : option (PyVal * list ascii) :=
  let '(lit, rest) := span_number cs [] in
  let text := string_of_list_ascii lit in
  let '(neg, digits) := take_sign text in
  match take_digits digits 0 0 with
  | (z, S _, EmptyString) =>
      if is_prefix "+" text then None else Some (PInt (if neg then - z else z), rest)
  | _ =>
      match parse_decimal text with
      | Some _ => if is_prefix "+" text then None else Some (PFloat text, rest)
      | None => None
      end
  end.

Fixpoint strip_prefix (p : list ascii) (cs : list ascii) : option (list ascii) :=
  match p, cs with
  | [], _ => Some cs
  | a :: p', b :: cs' => if Ascii.eqb a b then strip_prefix p' cs' else None
  | _ :: _, [] => None
  end.

Section Containers.
Variable value : list ascii -> option (PyVal * list ascii).

(** The elements of an array, after its opening bracket. *)
Fixpoint json_elements (fuel : nat) (cs : list ascii) (acc : list PyVal)
    : option (PyVal * list ascii) :=
  match fuel with
  | O => None
  | S fuel' =>
      match value cs with
      | Some (v, rest) =>
          match skip_space rest with
          | c :: rest' =>
              if Ascii.eqb c ","%char then json_elements fuel' rest' (v :: acc)
              else if Ascii.eqb c "]"%char then Some (PList (rev (v :: acc)), rest')
              else None
          | [] => None
          end
      | None => None
      end
  end.

(** The members of an object, after its opening brace; a key given twice
    keeps its last value. *)
Fixpoint json_members (fuel : nat) (cs : list ascii) (acc : pydict PyVal)
    : option (PyVal * list ascii) :=
  match fuel with
  | O => None
  | S fuel' =>
      match skip_space cs with
      | q :: rest =>
          if Ascii.eqb q dquote then
            match json_string rest [] with
            | Some (key, rest1) =>
                match skip_space rest1 with
                | c :: rest2 =>
                    if Ascii.eqb c ":"%char then
                      match value rest2 with
                      | Some (v, rest3) =>
                          let acc' := dict_set acc key v in
                          match skip_space rest3 with
                          | d :: rest4 =>
                              if Ascii.eqb d ","%char then json_members fuel' rest4 acc'
                              else if Ascii.eqb d "}"%char then Some (PDict acc', rest4)
                              else None
                          | [] => None
                          end
                      | None => None
                      end
                    else None
                | [] => None
                end
            | None => None
            end
          else None
      | [] => None
      end
  end.

End Containers.

Fixpoint json_value (fuel : nat) (cs : list ascii) : option (PyVal * list ascii) :=
  match fuel with
  | O => None
  | S fuel' =>
      match skip_space cs with
      | [] => None
      | c :: rest =>
          if Ascii.eqb c "{"%char then
            match skip_space rest with
            | d :: rest' =>
                if Ascii.eqb d "}"%char then Some (PDict [], rest')
                else json_members (json_value fuel') fuel' rest []
            | [] => None
            end
          else if Ascii.eqb c "["%char then
            match skip_space rest with
            | d :: rest' =>
                if Ascii.eqb d "]"%char then Some (PList [], rest')
                else json_elements (json_value fuel') fuel' rest []
            | [] => None
            end
          else if Ascii.eqb c dquote then
            match json_string rest [] with
            | Some (s, rest') => Some (PStr s, rest')
            | None => None
            end
          else
            match strip_prefix (list_ascii_of_string "true") (c :: rest) with
            | Some rest' => Some (PBool true, rest')
            | None =>
            match strip_prefix (list_ascii_of_string "false") (c :: rest) with
            | Some rest' => Some (PBool false, rest')
            | None =>
            match strip_prefix (list_ascii_of_string "null") (c :: rest) with
            | Some rest' => Some (PNone, rest')
            | None => json_number (c :: rest)
            end end end
      end
  end.

(** [json.loads(text)] for ASCII text without [\u] escapes. *)
Definition json_loads (text : string) : Res PyVal :=
  let cs := list_ascii_of_string text in
  match json_value (S (length cs)) cs with
  | Some (v, rest) =>
      match skip_space rest with
      | [] => Ok v
      | _ => Raise (value_error "Extra data")
      end
  | None => Raise (value_error "Expecting value")
  end.

(** [json.loads(self.base64_to_string(payload))] *)
Definition loads (payload : string) : Res PyVal :=
  match base64_to_string payload with
  | Some text => json_loads text
  | None => Raise (value_error "Incorrect padding")
  end.


(** ** ISO 8601 *)

Local Open Scope Z_scope.

Definition days_from_civil (y m d : Z) : Z :=
  let y' := if m <=? 2 then y - 1 else y in
  let era := y' / 400 in
  let yoe := y' - era * 400 in
  let mp := (m + 9) mod 12 in
  let doy := (153 * mp + 2) / 5 + d - 1 in
  let doe := yoe * 365 + yoe / 4 - yoe / 100 + doy in
  era * 146097 + doe - 719468.

Definition civil_from_days (days : Z) : Z * Z * Z :=
  let z := days + 719468 in
  let era := z / 146097 in
  let doe := z - era * 146097 in
  let yoe := (doe - doe / 1460 + doe / 36524 - doe / 146096) / 365 in
  let doy := doe - (365 * yoe + yoe / 4 - yoe / 100) in
  let mp := (5 * doy + 2) / 153 in
  let d := doy - (153 * mp + 2) / 5 + 1 in
  let m := if mp <? 10 then mp + 3 else mp - 9 in
  let y := yoe + era * 400 + (if m <=? 2 then 1 else 0) in
  (y, m, d).

(** Exactly [n] digits, as a number. *)
Definition fixed_digits (n : nat) (cs : string) : option (Z * string) :=
  match take_digits (substring 0 n cs) 0 0 with
  | (z, k, EmptyString) =>
      if (k =? n)%nat then Some (z, substring n (String.length cs - n) cs) else None
  | _ => None
  end.

Definition expect (c : ascii) (cs : string) : option string :=
  match cs with
  | String c' cs' => if Ascii.eqb c c' then Some cs' else None
  | EmptyString => None
  end.

(** [parse8601] on [YYYY-MM-DDTHH:MM:SS.mmmZ], in milliseconds. *)
Definition parse8601 (text : option string) : option Z :=
  cs ← text;
  '(y, cs) ← fixed_digits 4 cs; cs ← expect "-" cs;
  '(mo, cs) ← fixed_digits 2 cs; cs ← expect "-" cs;
  '(d, cs) ← fixed_digits 2 cs; cs ← expect "T" cs;
  '(h, cs) ← fixed_digits 2 cs; cs ← expect ":" cs;
  '(mi, cs) ← fixed_digits 2 cs; cs ← expect ":" cs;
  '(sec, cs) ← fixed_digits 2 cs; cs ← expect "." cs;
  '(ms, cs) ← fixed_digits 3 cs; cs ← expect "Z" cs;
  if String.eqb cs "" then
    Some ((((days_from_civil y mo d * 24 + h) * 60 + mi) * 60 + sec) * 1000 + ms)
  else None.

Definition zero_padded (n : nat) (z : Z) : string :=
  let text := pretty z in
  string_of_list_ascii (repeat "0"%char (n - String.length text)) +:+ text.

(** [iso8601] of a time in milliseconds. *)
Definition iso8601 (timestamp : option Z) : option string :=
  ms ← timestamp;
  if ms <? 0 then None
  else
    let secs := ms / 1000 in
    let '(y, m, d) := civil_from_days (secs / 86400) in
    let rest := secs mod 86400 in
    Some (zero_padded 4 y +:+ "-" +:+ zero_padded 2 m +:+ "-" +:+ zero_padded 2 d
            +:+ "T" +:+ zero_padded 2 (rest / 3600) +:+ ":"
            +:+ zero_padded 2 (rest mod 3600 / 60) +:+ ":"
            +:+ zero_padded 2 (rest mod 60) +:+ "." +:+ zero_padded 3 (ms mod 1000)
            +:+ "Z").

(** ** The REST parsers, reduced to the fields the handlers read *)

Definition parse_trade (data : PyVal) (m : Market) : PyVal :=
  PDict [("info", data);
         ("symbol", PStr (market_symbol m));
         ("timestamp",
          match safe_integer data (KStr "created_at") with
          | Some t => PInt (t * 1000)
          | None => PNone
          end);
         ("side", or_default (PStr <$> safe_string data (KStr "side")) PNone);
         ("price", or_default (safe_value data (KStr "price")) PNone);
         ("amount", or_default (safe_value data (KStr "amount")) PNone)].

Fixpoint unified (pair : string) : string :=
  match pair with
  | EmptyString => EmptyString
  | String c rest => String (if Ascii.eqb c "_"%char then "/"%char else c) (unified rest)
  end.

Definition parse_ticker (data : PyVal) : PyVal :=
  PDict [("symbol", or_default (PStr <$> (unified <$> safe_string data (KStr "pair"))) PNone);
         ("last", or_default (safe_value data (KStr "last_price")) PNone);
         ("info", data)].

(** The collaborators, as run on the frames quoted in the sources. *)
#[export] Instance reference : Ripio.Collaborators := {
  Ripio.loads_base64 := loads;
  Ripio.parse8601 := parse8601;
  Ripio.iso8601 := iso8601;
  Ripio.parse_trade := parse_trade;
  Ripio.parse_ticker := parse_ticker
}.

End Codec.

(* ===================================================================== *)
(** * Frames and states to run the methods on                             *)
(* ===================================================================== *)

Module Frames.
Import Py Base.

(** The frame quoted above [handle_message] in ripio.py (line 258); its
    payload decodes to a delta with [updated_id] 99740. *)
Definition delta_99740 : PyVal :=
  PDict [("messageId", PStr "CAAQAA==");
         ("payload", PStr "eyJidXkiOiBbeyJhbW91bnQiOiAiMC4wNTAwMCIsICJ0b3RhbCI6ICI1MzIuNzciLCAicHJpY2UiOiAiMTA2NTUuNDEifV0sICJzZWxsIjogW3siYW1vdW50IjogIjAuMDAwMDAiLCAidG90YWwiOiAiMC4wMCIsICJwcmljZSI6ICIxMDY1NS40MSJ9XSwgInVwZGF0ZWRfaWQiOiA5OTc0MH0=");
         ("properties", PDict []);
         ("publishTime", PStr "2020-09-30T17:35:27.851Z")].

(** The same delta, one sequence number earlier. *)
Definition delta_99739 : PyVal :=
  PDict [("messageId", PStr "CAAQAQ==");
         ("payload", PStr "eyJidXkiOiBbeyJhbW91bnQiOiAiMC4wNTAwMCIsICJ0b3RhbCI6ICI1MzIuNzciLCAicHJpY2UiOiAiMTA2NTUuNDEifV0sICJzZWxsIjogW3siYW1vdW50IjogIjAuMDAwMDAiLCAidG90YWwiOiAiMC4wMCIsICJwcmljZSI6ICIxMDY1NS40MSJ9XSwgInVwZGF0ZWRfaWQiOiA5OTczOX0=");
         ("properties", PDict []);
         ("publishTime", PStr "2020-09-30T17:35:27.127Z")].

(** The delta of the scenario in section 8 of the spec:
    [{buy: [{price: 100, amount: 0}], sell: [], updated_id: 11}]. *)
Definition delta_11 : PyVal :=
  PDict [("messageId", PStr "CAAQAg==");
         ("payload", PStr "eyJidXkiOiBbeyJhbW91bnQiOiAiMC4wMDAwMCIsICJ0b3RhbCI6ICIwLjAwIiwgInByaWNlIjogIjEwMCJ9XSwgInNlbGwiOiBbXSwgInVwZGF0ZWRfaWQiOiAxMX0=");
         ("properties", PDict []);
         ("publishTime", PStr "2020-09-30T17:35:28.000Z")].

(** A frame whose payload is not JSON (the base64 of [not json]). *)
Definition garbled : PyVal :=
  PDict [("messageId", PStr "CAAQAw==");
         ("payload", PStr "bm90IGpzb24=");
         ("properties", PDict []);
         ("publishTime", PStr "2020-09-30T17:35:29.000Z")].

(** The snapshot of that scenario:
    [{bids: [[100, 1]], asks: [[101, 2]], nonce: 10}]. *)
Definition snapshot_10 : Snapshot :=
  mkSnapshot [(100 # 1, 1 # 1)] [(101 # 1, 2 # 1)] (Some 10) None None
             (Some "BTC/USDC").

Definition snapshot_99740 : Snapshot :=
  mkSnapshot [(100 # 1, 1 # 1)] [(101 # 1, 2 # 1)] (Some 99740) None None
             (Some "BTC/USDC").

Definition btc_usdc : Market := mkMarket "BTC_USDC" "BTC/USDC".

(** A ripio instance with one market loaded and nothing subscribed. *)
Definition ripio_fresh : Exchange :=
  mkExchange "ripio"
    {["BTC/USDC" := btc_usdc]} {["BTC_USDC" := btc_usdc]}
    (PDict [("tradesLimit", PInt 1000); ("uuid", PStr "a8f5f167")])
    [] 50
    "wss://api.exchange.ripio.com/ws/v2/consumer/non-persistent/public/default/"
    ∅ ∅ ∅ ∅ [] [] [].

Definition ripio_url : string :=
  "wss://api.exchange.ripio.com/ws/v2/consumer/non-persistent/public/default/orderbook_btc_usdc/a8f5f167".

(** The state after the first [watch_order_book('BTC/USDC')]: the book is
    there with its nonce unset, the caller waits. *)
Definition ripio_buffering : World :=
  let ex := (Ripio.watch_order_book (Ok tt) "BTC/USDC" ripio_fresh).2 in
  mkWorld ex (default (new_client ripio_url) (clients ex !! ripio_url)).

Definition ripio_subscription : PyVal := Ripio.order_book_subscription btc_usdc.

(** That state after a delta with [updated_id] 99739 has arrived and been
    buffered. *)
Definition ripio_buffered : World :=
  (@Ripio.handle_order_book Codec.reference delta_99739 ripio_subscription
     ripio_buffering).2.

(** The same, with the garbled frame buffered instead. *)
Definition ripio_buffered_garbled : World :=
  (@Ripio.handle_order_book Codec.reference garbled ripio_subscription
     ripio_buffering).2.

(** A book whose snapshot had nonce 99740. *)
Definition book_99740 : OrderBook := reset snapshot_99740 (order_book None).

(** A book whose snapshot had nonce 10. *)
Definition book_10 : OrderBook := reset snapshot_10 (order_book None).

(** The frame quoted in [handle_trade] of ripio.py (line 53). *)
Definition trade_frame : PyVal :=
  PDict [("messageId", PStr "CAAQAA==");
         ("payload", PStr "eyJjcmVhdGVkX2F0IjogMTYwMTczNjI0NywgImFtb3VudCI6ICIwLjAwMjAwIiwgInByaWNlIjogIjEwNTkzLjk5MDAwMCIsICJzaWRlIjogIkJVWSIsICJwYWlyIjogIkJUQ19VU0RDIiwgInRha2VyX2ZlZSI6ICIwIiwgInRha2VyX3NpZGUiOiAiQlVZIiwgIm1ha2VyX2ZlZSI6ICIwIiwgInRha2VyIjogMjYxODU2NCwgIm1ha2VyIjogMjYxODU1N30=");
         ("properties", PDict []);
         ("publishTime", PStr "2020-10-03T14:44:09.881Z")].

(** The state after [watch_trades('BTC/USDC')], and the subscription it
    entered. *)
Definition ripio_trades_url : string :=
  "wss://api.exchange.ripio.com/ws/v2/consumer/non-persistent/public/default/trades_btc_usdc/a8f5f167".

Definition ripio_watching_trades : World :=
  let ex := (Ripio.watch_trades (Ok tt) (Some "BTC/USDC") ripio_fresh).2 in
  mkWorld ex (default (new_client ripio_trades_url) (clients ex !! ripio_trades_url)).

Definition trades_subscription : PyVal :=
  PDict [("name", PStr "trades");
         ("symbol", PStr "BTC/USDC");
         ("messageHash", PStr "trades_btc_usdc");
         ("method", PMethod handle_trade_method)].

(** A ticker frame: its payload is the base64 of the ticker quoted in
    [handle_ticker] of ripio.py (line 125),
    [{"pair": "BTC_BRL", "last_price": "68558.59", ...}]. *)
Definition ticker_payload : string :=
  "eyJwYWlyIjogIkJUQ19CUkwiLCAibGFzdF9wcmljZSI6ICI2ODU1OC41OSIsICJsb3ciOiAiNTQ3MzYuMTEiLCAiaGlnaCI6ICI3MDAzNC42OCIsICJ2YXJpYXRpb24iOiAiOC43NSIsICJ2b2x1bWUiOiAiMTAuMTA1MzcifQ==".

Definition ticker_data : PyVal :=
  PDict [("pair", PStr "BTC_BRL");
         ("last_price", PStr "68558.59");
         ("low", PStr "54736.11");
         ("high", PStr "70034.68");
         ("variation", PStr "8.75");
         ("volume", PStr "10.10537")].

Definition ticker_frame : PyVal :=
  PDict [("messageId", PStr "CAAQAA==");
         ("payload", PStr ticker_payload);
         ("properties", PDict []);
         ("publishTime", PStr "2020-10-03T10:05:09.445Z")].

Definition ticker_subscription : PyVal :=
  PDict [("name", PStr "rate");
         ("symbol", PStr "BTC/BRL");
         ("messageHash", PStr "rate_btc_brl");
         ("method", PMethod handle_ticker_method)].

(** *** bitmex *)

Definition xbtusd : Market := mkMarket "XBTUSD" "BTC/USD".

(** A bitmex instance as [describe] configures it, with one market loaded
    and nothing subscribed. *)
Definition bitmex_fresh : Exchange :=
  mkExchange "bitmex"
    {["BTC/USD" := xbtusd]} {["XBTUSD" := xbtusd]}
    Bitmex.describe_options Bitmex.describe_ws_broad 2000 Bitmex.describe_ws_url
    ∅ ∅ ∅ ∅ [] [] [].

(** The state after [watch_order_book('BTC/USD')]: the subscribe request is
    out and the caller waits under ['orderBookL2:XBTUSD']. *)
Definition bitmex_waiting : World :=
  let ex := (Bitmex.watch_order_book (Ok tt) "BTC/USD" None bitmex_fresh).2 in
  mkWorld ex (default (new_client Bitmex.describe_ws_url)
                      (clients ex !! Bitmex.describe_ws_url)).

(** The state after [watch_order_book('BTC/USD', 10)]: the caller waits under
    ['orderBookL10:XBTUSD']. *)
Definition bitmex_waiting_10 : World :=
  let ex := (Bitmex.watch_order_book (Ok tt) "BTC/USD" (Some 10) bitmex_fresh).2 in
  mkWorld ex (default (new_client Bitmex.describe_ws_url)
                      (clients ex !! Bitmex.describe_ws_url)).

(** The rate-limit error of the comment in [handle_error_message] (line
    418), echoing the subscribe request that [watch_order_book] sent. *)
Definition rate_limit_error : PyVal :=
  PDict [("status", PInt 429);
         ("error", PStr "Rate limit exceeded, retry in 1 seconds.");
         ("meta", PDict [("retryAfter", PInt 1)]);
         ("request", PDict [("op", PStr "subscribe");
                            ("args", PList [PStr "orderBookL2:XBTUSD"])])].

(** The first rows of the snapshot quoted in [handle_order_book] (line 281),
    for the table [table]. *)
Definition partial_frame (table : string) : PyVal :=
  PDict [("table", PStr table);
         ("action", PStr "partial");
         ("keys", PList [PStr "symbol"; PStr "id"; PStr "side"]);
         ("filter", PDict [("symbol", PStr "XBTUSD")]);
         ("data",
          PList [PDict [("symbol", PStr "XBTUSD"); ("id", PInt 8700000100);
                        ("side", PStr "Sell"); ("size", PInt 1); ("price", PInt 999999)];
                 PDict [("symbol", PStr "XBTUSD"); ("id", PInt 8700000200);
                        ("side", PStr "Sell"); ("size", PInt 3); ("price", PInt 999998)];
                 PDict [("symbol", PStr "XBTUSD"); ("id", PInt 8716991250);
                        ("side", PStr "Sell"); ("size", PInt 26);
                        ("price", PFloat "830087.5")]])].

(** An update for a market the instance has not loaded. *)
Definition row_ethusd : PyVal :=
  PDict [("symbol", PStr "ETHUSD"); ("id", PInt 29699996000);
         ("side", PStr "Sell"); ("size", PInt 5)].

Definition update_ethusd : PyVal :=
  PDict [("table", PStr "orderBookL2");
         ("action", PStr "update");
         ("data", PList [row_ethusd])].

(** An update, in the form quoted in [handle_order_book] (line 305), of the
    size of the first level of the snapshot. *)
Definition row_sell : PyVal :=
  PDict [("symbol", PStr "XBTUSD"); ("id", PInt 8700000100);
         ("side", PStr "Sell"); ("size", PInt 70590)].

Definition update_xbtusd : PyVal :=
  PDict [("table", PStr "orderBookL2");
         ("action", PStr "update");
         ("data", PList [row_sell])].

(** An insert of a new level, and its deletion. *)
Definition row_inserted : PyVal :=
  PDict [("symbol", PStr "XBTUSD"); ("id", PInt 8799285100);
         ("side", PStr "Sell"); ("size", PInt 70590); ("price", PFloat "7149.5")].

Definition row_deleted : PyVal :=
  PDict [("symbol", PStr "XBTUSD"); ("id", PInt 8799285100); ("side", PStr "Sell")].

Definition insert_xbtusd : PyVal :=
  PDict [("table", PStr "orderBookL2");
         ("action", PStr "insert");
         ("data", PList [row_inserted])].

Definition delete_xbtusd : PyVal :=
  PDict [("table", PStr "orderBookL2");
         ("action", PStr "delete");
         ("data", PList [row_deleted])].

(** The state once the snapshot quoted in [handle_order_book] has arrived
    as table 'orderBookL2'. *)
Definition bitmex_synced : World :=
  (Bitmex.handle_message (partial_frame "orderBookL2") bitmex_waiting).2.

End Frames.

(* ===================================================================== *)
(** * Properties                                                          *)
(* ===================================================================== *)

Import Py Base.

(** ** Running the monad *)

Lemma bind_ok {S A B} (c : M S A) (k : A -> M S B) s a s' :
  c s = (Ok a, s') -> bind c k s = k a s'.
Proof. intros H. unfold bind. now rewrite H. Qed.

(** Reduce the monad's plumbing, and nothing of what it carries. *)
Ltac run_monad :=
  cbv beta iota zeta
      delta [bind ret raise lift get put modify zoom try_except
             on_self on_client with_client negb];
  cbn [self client fst snd].

(** ** What a method keeps

    [keeps R m] for a preorder [R] goes through the body of a method: it
    holds of every primitive that [R] tolerates, and binds, loops and
    handlers preserve it. *)

Section Keeps.
Context {S : Type} (R : S -> S -> Prop) `{!PreOrder R}.

Lemma keeps_ret {A} (a : A) : keeps R (ret a).
Proof. intros s. reflexivity. Qed.

Lemma keeps_raise {A} (e : Exn) : keeps R (@raise S A e).
Proof. intros s. reflexivity. Qed.

Lemma keeps_lift {A} (r : Res A) : keeps R (lift r).
Proof. intros s. reflexivity. Qed.

Lemma keeps_get : keeps R get.
Proof. intros s. reflexivity. Qed.

Lemma keeps_bind {A B} (c : M S A) (k : A -> M S B) :
  keeps R c -> (forall a, keeps R (k a)) -> keeps R (bind c k).
Proof.
  intros Hc Hk s. unfold bind. specialize (Hc s).
  destruct (c s) as [[a|e] s1]; cbn [snd] in Hc; [|exact Hc].
  etransitivity; [exact Hc|apply Hk].
Qed.

(** A bind after a pure step knows what the step returned. *)
Lemma keeps_bind_lift {A B} (r : Res A) (k : A -> M S B) :
  (forall a, r = Ok a -> keeps R (k a)) -> keeps R (bind (lift r) k).
Proof.
  intros Hk s. unfold bind, lift. destruct r as [a|e]; [|reflexivity]. now apply Hk.
Qed.

Lemma keeps_try_except {A} (c : M S A) (h : Exn -> M S A) :
  keeps R c -> (forall e, keeps R (h e)) -> keeps R (try_except c h).
Proof.
  intros Hc Hh s. unfold try_except. specialize (Hc s).
  destruct (c s) as [[a|e] s1]; cbn [snd] in Hc; [exact Hc|].
  etransitivity; [exact Hc|apply Hh].
Qed.

Lemma keeps_for_each {A} (xs : list A) (body : A -> M S unit) :
  (forall x, keeps R (body x)) -> keeps R (for_each xs body).
Proof.
  intros Hb. induction xs as [|x xs IH]; simpl.
  - apply keeps_ret.
  - apply keeps_bind; [apply Hb|intros _; exact IH].
Qed.

Lemma keeps_fold_each {A B} (xs : list A) (acc : B) (body : B -> A -> M S B) :
  (forall b x, keeps R (body b x)) -> keeps R (fold_each xs acc body).
Proof.
  intros Hb. revert acc. induction xs as [|x xs IH]; intros acc; simpl.
  - apply keeps_ret.
  - apply keeps_bind; [apply Hb|intros acc'; apply IH].
Qed.

End Keeps.

Create HintDb keeps discriminated.
#[export] Hint Extern 1 (keeps _ (ret _)) => (apply keeps_ret; typeclasses eauto) : keeps.
#[export] Hint Extern 1 (keeps _ (raise _)) => (apply keeps_raise; typeclasses eauto) : keeps.
#[export] Hint Extern 1 (keeps _ (lift _)) => (apply keeps_lift; typeclasses eauto) : keeps.
#[export] Hint Extern 1 (keeps _ get) => (apply keeps_get; typeclasses eauto) : keeps.

(** Walk down a method body: binds, loops, handlers and branches; the
    primitives are left to the hints. *)
Ltac keeps_step :=
  match goal with
  | |- keeps _ (bind (lift _) _) => apply keeps_bind_lift; [typeclasses eauto|intros ? ?]
  | |- keeps _ (bind _ _) => apply keeps_bind; [typeclasses eauto| |intros ?]
  | |- keeps _ (try_except _ _) => apply keeps_try_except; [typeclasses eauto| |intros ?]
  | |- keeps _ (for_each _ _) => apply keeps_for_each; [typeclasses eauto|intros ?]
  | |- keeps _ (fold_each _ _ _) => apply keeps_fold_each; [typeclasses eauto|intros ? ?]
  | |- keeps _ (match ?x with _ => _ end) => destruct x
  | |- keeps _ (let _ := _ in _) => cbv zeta
  | |- keeps _ _ => solve [auto with keeps]
  end.

(** ** Dicts *)

Lemma dict_mem_dict_set {V} (d : pydict V) (k k' : string) (v : V) :
  dict_mem (dict_set d k v) k' = String.eqb k k' || dict_mem d k'.
Proof.
  unfold dict_mem. induction d as [|[k0 v0] d IH]; simpl.
  - now destruct (String.eqb k k').
  - destruct (String.eqb k0 k) eqn:E; simpl.
    + apply String.eqb_eq in E. subst k0.
      destruct (String.eqb k k'); reflexivity.
    + destruct (String.eqb k0 k') eqn:E'; simpl.
      * now rewrite orb_true_r.
      * exact IH.
Qed.

Lemma dict_mem_dict_set_same {V} (d : pydict V) (k : string) (v : V) :
  dict_mem (dict_set d k v) k = true.
Proof. rewrite dict_mem_dict_set. now rewrite String.eqb_refl. Qed.

Lemma dict_get_dict_set_same {V} (d : pydict V) (k : string) (v : V) :
  dict_get (dict_set d k v) k = Some v.
Proof.
  induction d as [|[k0 v0] d IH]; simpl.
  - now rewrite String.eqb_refl.
  - destruct (String.eqb k0 k) eqn:E; simpl.
    + now rewrite String.eqb_refl.
    + now rewrite E.
Qed.

(** ** The waiters of a client *)

Lemma pending_drop_key_same (key : string) (ks : list string) :
  existsb (String.eqb key) (drop_key key ks) = false.
Proof.
  unfold drop_key. induction ks as [|k ks IH]; simpl; [reflexivity|].
  destruct (String.eqb key k) eqn:E; simpl; [assumption|]. now rewrite E.
Qed.

Lemma pending_drop_key_other (key other : string) (ks : list string) :
  other <> key ->
  existsb (String.eqb other) (drop_key key ks) = existsb (String.eqb other) ks.
Proof.
  intros Hne. unfold drop_key. induction ks as [|k ks IH]; simpl; [reflexivity|].
  destruct (String.eqb key k) eqn:E; simpl.
  - apply String.eqb_eq in E. subst k.
    destruct (String.eqb other key) eqn:E'; [|assumption].
    apply String.eqb_eq in E'. contradiction.
  - now rewrite IH.
Qed.

Lemma settle_pending (key : string) (o : Outcome) (c : Client) :
  pending c key = true ->
  settled (settle key o c) = settled c ++ [(key, o)]
  /\ pending (settle key o c) key = false.
Proof.
  intros H. unfold settle. rewrite H. simpl. split; [reflexivity|].
  apply pending_drop_key_same.
Qed.

Lemma settle_not_pending (key : string) (o : Outcome) (c : Client) :
  pending c key = false -> settle key o c = c.
Proof. intros H. unfold settle. now rewrite H. Qed.

Lemma settle_other (key other : string) (o : Outcome) (c : Client) :
  other <> key -> pending (settle key o c) other = pending c other.
Proof.
  intros Hne. unfold settle. destruct (pending c key); [|reflexivity].
  unfold pending. simpl. now apply pending_drop_key_other.
Qed.

Lemma settle_keeps (key : string) (o : Outcome) (c : Client) :
  subscriptions (settle key o c) = subscriptions c
  /\ sent (settle key o c) = sent c
  /\ url (settle key o c) = url c.
Proof. unfold settle. now destruct (pending c key). Qed.

Lemma reject_keyed (e : Exn) (key : string) (c : Client) :
  key <> "" -> reject e (Some key) c = settle key (Rejected e) c.
Proof. intros H. destruct key; [contradiction|reflexivity]. Qed.

Lemma subscriptions_resolve (v : Value) (key : option string) (c : Client) :
  subscriptions (resolve v key c) = subscriptions c.
Proof. destruct key; [apply settle_keeps|reflexivity]. Qed.

Lemma subscriptions_reject (e : Exn) (key : option string) (c : Client) :
  subscriptions (reject e key c) = subscriptions c.
Proof.
  assert (Hall : forall ks c0,
            subscriptions (fold_left (fun c' k => settle k (Rejected e) c') ks c0)
            = subscriptions c0).
  { induction ks as [|k ks IH]; intros c0; simpl; [reflexivity|].
    rewrite IH. apply settle_keeps. }
  destruct key as [[|a k]|]; simpl; try apply Hall. apply settle_keeps.
Qed.

Lemma pending_future (key : string) (cl : Client) : pending (future key cl) key = true.
Proof.
  unfold future. destruct (pending cl key) eqn:E; [assumption|].
  unfold pending. simpl. rewrite existsb_app. simpl.
  now rewrite String.eqb_refl, orb_true_r.
Qed.

Lemma subscriptions_future (key : string) (cl : Client) :
  subscriptions (future key cl) = subscriptions cl.
Proof. unfold future. now destruct (pending cl key). Qed.

(** On a key already subscribed, [watch] registers the waiter and sends
    nothing. *)
Lemma watch_subscribed (message sub : option PyVal) (key sh : string) (cl : Client) :
  dict_mem (subscriptions cl) sh = true ->
  watch message key sh sub cl = (Ok tt, future key cl).
Proof.
  intros H. unfold watch. run_monad. rewrite subscriptions_future. now rewrite H.
Qed.

(** *** Which waiters are resolved *)

Lemma resolved_within_refl (P : string -> Prop) (c : Client) : resolved_within P c c.
Proof. exists []. split; [now rewrite app_nil_r|]. intros ? ? []. Qed.

Lemma resolved_within_trans (P : string -> Prop) (a b c : Client) :
  resolved_within P a b -> resolved_within P b c -> resolved_within P a c.
Proof.
  intros (l1 & H1 & P1) (l2 & H2 & P2). exists (l1 ++ l2). split.
  - now rewrite H2, H1, app_assoc.
  - intros key v Hin. apply in_app_or in Hin. destruct Hin; eauto.
Qed.

Lemma resolved_within_weaken (P Q : string -> Prop) (c c' : Client) :
  (forall key, P key -> Q key) -> resolved_within P c c' -> resolved_within Q c c'.
Proof. intros HPQ (new & Hs & HP). exists new. split; [assumption|]. eauto. Qed.

Lemma resolved_within_settle (P : string -> Prop) (key : string) (o : Outcome) (c : Client) :
  (forall v, o = Resolved v -> P key) ->
  resolved_within P c (settle key o c).
Proof.
  intros HP. unfold settle. destruct (pending c key); [|apply resolved_within_refl].
  exists [(key, o)]. split; [reflexivity|].
  intros k v [Heq|[]]. injection Heq as Hk Ho. subst k. eauto.
Qed.

Lemma resolved_within_reject (P : string -> Prop) (e : Exn) (key : option string)
    (c : Client) :
  resolved_within P c (reject e key c).
Proof.
  assert (Hall : forall ks c0, resolved_within P c0
            (fold_left (fun c' k => settle k (Rejected e) c') ks c0)).
  { induction ks as [|k ks IH]; intros c0; simpl; [apply resolved_within_refl|].
    eapply resolved_within_trans; [|apply IH].
    apply resolved_within_settle. discriminate. }
  destruct key as [[|a k]|]; simpl; try apply Hall.
  apply resolved_within_settle. discriminate.
Qed.

#[export] Instance resolves_within_preorder (P : string -> Prop) :
  PreOrder (resolves_within P).
Proof.
  split.
  - intros w. apply resolved_within_refl.
  - intros a b c. apply resolved_within_trans.
Qed.

#[export] Instance same_subscriptions_preorder : PreOrder same_subscriptions.
Proof.
  split.
  - intros w. now repeat split.
  - intros a b c (H1 & H2 & H3) (H4 & H5 & H6). repeat split; congruence.
Qed.

Section ResolvesWithin.
Variable P : string -> Prop.

Lemma resolves_on_self {A} (c : M Exchange A) : keeps (resolves_within P) (on_self c).
Proof.
  intros w. unfold on_self, zoom. destruct (c (self w)) as [r ex]. apply resolved_within_refl.
Qed.

Lemma resolves_on_orderbook {A} (symbol : string) (c : M OrderBook A) :
  keeps (resolves_within P) (on_orderbook symbol c).
Proof.
  intros w. unfold on_orderbook.
  destruct (orderbooks (self w) !! symbol) as [ob|]; [|apply resolved_within_refl].
  destruct (c ob) as [r ob']. apply resolved_within_refl.
Qed.

Lemma resolves_resolve (v : Value) (key : string) :
  P key -> keeps (resolves_within P) (on_client (modify (resolve v (Some key)))).
Proof. intros HP w. now apply resolved_within_settle. Qed.

Lemma resolves_reject (e : Exn) (key : option string) :
  keeps (resolves_within P) (on_client (modify (reject e key))).
Proof. intros w. apply resolved_within_reject. Qed.

End ResolvesWithin.

#[export] Hint Resolve resolves_on_self resolves_on_orderbook resolves_reject : keeps.

(** *** What leaves the subscriptions alone *)

Lemma same_on_self_modify (f : Exchange -> Exchange) :
  leaves_schedule f -> keeps same_subscriptions (on_self (modify f)).
Proof. intros Hf w. destruct (Hf (self w)). now repeat split. Qed.

Lemma same_on_orderbook {A} (symbol : string) (c : M OrderBook A) :
  keeps same_subscriptions (on_orderbook symbol c).
Proof.
  intros w. unfold on_orderbook.
  destruct (orderbooks (self w) !! symbol) as [ob|]; [|now repeat split].
  destruct (c ob) as [r ob']. now repeat split.
Qed.

Lemma same_resolve (v : Value) (key : option string) :
  keeps same_subscriptions (on_client (modify (resolve v key))).
Proof. intros w. repeat split. apply subscriptions_resolve. Qed.

Lemma same_reject (e : Exn) (key : option string) :
  keeps same_subscriptions (on_client (modify (reject e key))).
Proof. intros w. repeat split. apply subscriptions_reject. Qed.

Lemma same_send (payload : PyVal) :
  keeps same_subscriptions (on_client (modify (send payload))).
Proof. intros w. now repeat split. Qed.

#[export] Hint Resolve same_on_self_modify same_on_orderbook same_resolve same_reject
  same_send : keeps.
#[export] Hint Extern 1 (leaves_schedule _) => (intros ?; split; reflexivity) : keeps.

(** ** Ripio: applying a delta *)

Section RipioDeltas.
Context {collab : Ripio.Collaborators}.

(** A call of [handle_deltas] with three arguments does not bind: the
    method takes two. *)
Lemma call_handle_deltas_three (a b c : Ripio.Arg) (ob : OrderBook) :
  exists e, Ripio.call_handle_deltas [a; b; c] ob = (Raise e, ob)
            /\ exn_class e = TypeError.
Proof. eexists. split; reflexivity. Qed.

(** Whatever the frame, [handle_order_book_message] hands back the book it
    was given: the only writes are behind the calls of [handle_deltas]. *)
Lemma handle_order_book_message_book (message : PyVal) (ob : OrderBook) :
  (Ripio.handle_order_book_message message ob).2 = ob.
Proof.
  unfold Ripio.handle_order_book_message.
  destruct (safe_string message (KStr "payload")) as [payload|]; [|reflexivity].
  unfold bind at 1, lift at 1.
  destruct (Ripio.loads_base64 payload) as [data|e]; [|reflexivity].
  unfold bind at 1, get at 1. unfold bind at 1, lift at 1.
  destruct (py_gt _ _) as [[|]|e]; reflexivity.
Qed.

Lemma handle_order_book_message_stale (message : PyVal) (ob : OrderBook) (z n : Z) :
  Ripio.carries message z -> ob_nonce ob = Some n -> z <= n ->
  Ripio.handle_order_book_message message ob = (Ok (RetOrderBook ob), ob).
Proof.
  intros (payload & data & Hp & Hd & Hz) Hn Hle.
  unfold Ripio.handle_order_book_message. rewrite Hp.
  unfold bind at 1, lift at 1. rewrite Hd.
  unfold bind at 1, get at 1. unfold bind at 1, lift at 1.
  rewrite Hz, Hn. simpl.
  destruct (Z.ltb_spec n z) as [?|_]; [lia|]. reflexivity.
Qed.

Lemma handle_order_book_message_newer (message : PyVal) (ob : OrderBook) (z n : Z) :
  Ripio.carries message z -> ob_nonce ob = Some n -> n < z ->
  exists e, Ripio.handle_order_book_message message ob = (Raise e, ob)
            /\ exn_class e = TypeError.
Proof.
  intros (payload & data & Hp & Hd & Hz) Hn Hlt.
  unfold Ripio.handle_order_book_message. rewrite Hp.
  unfold bind at 1, lift at 1. rewrite Hd.
  unfold bind at 1, get at 1. unfold bind at 1, lift at 1.
  rewrite Hz, Hn. simpl.
  destruct (Z.ltb_spec n z) as [_|?]; [|lia].
  eexists. split; reflexivity.
Qed.

End RipioDeltas.

(** ** Ripio: the claims on [handle_order_book_message] *)

Section RipioDeltaClaims.
Context {collab : Ripio.Collaborators}.

(** C9.  For every order-book delta whose decoded [updated_id] is strictly
    greater than the book's current (set) nonce, [handle_order_book_message]
    calls [handle_deltas] with three arguments (bookside, deltas, nonce)
    while [handle_deltas] takes two besides [self]; the call raises a
    TypeError, and the book comes back as it was: no price level, nonce or
    timestamp is written. *)
Theorem newer_delta_raises_type_error
    (message : PyVal) (ob : OrderBook) (z n : Z) :
  Ripio.carries message z -> ob_nonce ob = Some n -> n < z ->
  length Ripio.handle_deltas_params = 2%nat
  /\ (forall bookside deltas nonce ob',
        exists e, Ripio.call_handle_deltas [bookside; deltas; nonce] ob' = (Raise e, ob')
                  /\ exn_class e = TypeError)
  /\ exists e,
       Ripio.handle_order_book_message message ob = (Raise e, ob)
       /\ exn_class e = TypeError.
Proof.
  intros Hc Hn Hlt. split; [reflexivity|]. split.
  - intros. apply call_handle_deltas_three.
  - eapply handle_order_book_message_newer; eauto.
Qed.

(** C1 (the code departs from it in the out-of-order scenario).  On a book
    whose nonce is set below 99740, a delta with [updated_id] 99740 is not
    applied: [handle_order_book_message] raises the TypeError of the call of
    [handle_deltas] before the nonce is written, so the nonce is what it was
    and not 99740.  A delta with [updated_id] 99739 that follows leaves the
    nonce there too, and when the nonce is below 99739 it is not ignored
    either: it raises the same TypeError. *)
Theorem out_of_order_deltas_never_reach_99740
    (first later : PyVal) (ob : OrderBook) (n : Z) :
  Ripio.carries first 99740 -> Ripio.carries later 99739 ->
  ob_nonce ob = Some n -> n < 99740 ->
  let after_first := (Ripio.handle_order_book_message first ob).2 in
  let after_later := (Ripio.handle_order_book_message later after_first).2 in
  (exists e, Ripio.handle_order_book_message first ob = (Raise e, ob)
             /\ exn_class e = TypeError)
  /\ ob_nonce after_first = Some n
  /\ ob_nonce after_later = Some n
  /\ ob_nonce after_later <> Some 99740
  /\ (n < 99739 ->
      exists e, Ripio.handle_order_book_message later after_first = (Raise e, after_first)
                /\ exn_class e = TypeError).
Proof.
  intros H1 H2 Hn Hlt after_first after_later. subst after_first after_later.
  rewrite !handle_order_book_message_book.
  split; [eapply handle_order_book_message_newer; eauto|].
  split; [exact Hn|]. split; [exact Hn|]. split.
  - rewrite Hn. intros [= ->]. lia.
  - intros Hlt'. eapply handle_order_book_message_newer; eauto.
Qed.

(** X22.  For every order book whose nonce is set and every delta whose
    [updated_id] is at most the nonce, [handle_order_book_message] returns
    the book and leaves it unchanged (bids, asks, nonce, timestamp and all);
    and whatever the frame, the nonce of the book after it is at least the
    nonce before. *)
Theorem stale_delta_is_ignored
    (message : PyVal) (ob : OrderBook) (z n : Z) :
  Ripio.carries message z -> ob_nonce ob = Some n -> z <= n ->
  Ripio.handle_order_book_message message ob = (Ok (RetOrderBook ob), ob)
  /\ (forall any, exists n',
        ob_nonce (Ripio.handle_order_book_message any ob).2 = Some n' /\ n <= n').
Proof.
  intros Hc Hn Hle. split.
  - eapply handle_order_book_message_stale; eauto.
  - intros any. exists n. rewrite handle_order_book_message_book. split; [assumption|lia].
Qed.

End RipioDeltaClaims.

Lemma newer_delta_raises_type_error_witness :
  @Ripio.carries Codec.reference Frames.delta_11 11
  /\ ob_nonce Frames.book_10 = Some 10
  /\ 10 < 11
  /\ exists e,
       @Ripio.handle_order_book_message Codec.reference Frames.delta_11 Frames.book_10
         = (Raise e, Frames.book_10)
       /\ exn_class e = TypeError.
Proof.
  assert (Hc : @Ripio.carries Codec.reference Frames.delta_11 11).
  { eexists _, _. repeat split; vm_compute; reflexivity. }
  assert (Hn : ob_nonce Frames.book_10 = Some 10) by reflexivity.
  assert (Hlt : 10 < 11) by lia.
  split; [exact Hc|]. split; [exact Hn|]. split; [exact Hlt|].
  exact (proj2 (proj2 (@newer_delta_raises_type_error Codec.reference
                         Frames.delta_11 Frames.book_10 11 10 Hc Hn Hlt))).
Defined.

Lemma out_of_order_deltas_never_reach_99740_witness :
  let first := @Ripio.handle_order_book_message Codec.reference Frames.delta_99740
                 Frames.book_10 in
  let later := @Ripio.handle_order_book_message Codec.reference Frames.delta_99739
                 first.2 in
  @Ripio.carries Codec.reference Frames.delta_99740 99740
  /\ @Ripio.carries Codec.reference Frames.delta_99739 99739
  /\ ob_nonce Frames.book_10 = Some 10
  /\ 10 < 99740
  /\ first = (Raise (type_error
                       "handle_deltas() takes 3 positional arguments but 4 were given"),
              Frames.book_10)
  /\ later = (Raise (type_error
                       "handle_deltas() takes 3 positional arguments but 4 were given"),
              Frames.book_10)
  /\ ob_nonce later.2 <> Some 99740.
Proof.
  cbv zeta.
  assert (H1 : @Ripio.carries Codec.reference Frames.delta_99740 99740).
  { eexists _, _. repeat split; vm_compute; reflexivity. }
  assert (H2 : @Ripio.carries Codec.reference Frames.delta_99739 99739).
  { eexists _, _. repeat split; vm_compute; reflexivity. }
  assert (Hn : ob_nonce Frames.book_10 = Some 10) by reflexivity.
  assert (Hlt : 10 < 99740) by lia.
  split; [exact H1|]. split; [exact H2|]. split; [exact Hn|]. split; [exact Hlt|].
  split; [vm_compute; reflexivity|]. split; [vm_compute; reflexivity|].
  exact (proj1 (proj2 (proj2 (proj2
           (@out_of_order_deltas_never_reach_99740 Codec.reference
              Frames.delta_99740 Frames.delta_99739 Frames.book_10 10 H1 H2 Hn Hlt))))).
Defined.

Lemma stale_delta_is_ignored_witness :
  @Ripio.carries Codec.reference Frames.delta_99739 99739
  /\ ob_nonce Frames.book_99740 = Some 99740
  /\ 99739 <= 99740
  /\ @Ripio.handle_order_book_message Codec.reference Frames.delta_99739 Frames.book_99740
       = (Ok (RetOrderBook Frames.book_99740), Frames.book_99740).
Proof.
  assert (Hc : @Ripio.carries Codec.reference Frames.delta_99739 99739).
  { eexists _, _. repeat split; vm_compute; reflexivity. }
  assert (Hn : ob_nonce Frames.book_99740 = Some 99740) by reflexivity.
  assert (Hle : 99739 <= 99740) by lia.
  split; [exact Hc|]. split; [exact Hn|]. split; [exact Hle|].
  exact (proj1 (@stale_delta_is_ignored Codec.reference
                  Frames.delta_99739 Frames.book_99740 99739 99740 Hc Hn Hle)).
Defined.

(** ** Ripio: the order book in the store *)

Lemma set_orderbooks_same (ex : Exchange) : set_orderbooks (orderbooks ex) ex = ex.
Proof. now destruct ex. Qed.

Lemma put_book_same (symbol : string) (ob : OrderBook) (w : World) :
  orderbooks (self w) !! symbol = Some ob -> put_book symbol ob w = w.
Proof.
  intros H. destruct w as [ex cl]. unfold put_book. simpl in *.
  rewrite insert_id by assumption. now rewrite set_orderbooks_same.
Qed.

Lemma lookup_put_book (symbol : string) (ob : OrderBook) (w : World) :
  orderbooks (self (put_book symbol ob w)) !! symbol = Some ob.
Proof. unfold put_book. simpl. apply lookup_insert_eq. Qed.

Lemma lookup_put_book_ne (symbol other : string) (ob : OrderBook) (w : World) :
  symbol <> other ->
  orderbooks (self (put_book symbol ob w)) !! other = orderbooks (self w) !! other.
Proof. intros H. unfold put_book. simpl. now apply lookup_insert_ne. Qed.

Lemma put_book_twice (symbol : string) (ob ob' : OrderBook) (w : World) :
  put_book symbol ob' (put_book symbol ob w) = put_book symbol ob' w.
Proof.
  destruct w as [ex cl]. unfold put_book. simpl. now rewrite insert_insert_eq.
Qed.

Lemma on_orderbook_run {A} (symbol : string) (c : M OrderBook A) (w : World) ob :
  orderbooks (self w) !! symbol = Some ob ->
  on_orderbook symbol c w = (let '(r, ob') := c ob in (r, put_book symbol ob' w)).
Proof. intros H. unfold on_orderbook. now rewrite H. Qed.

Section RipioHandleOrderBook.
Context {collab : Ripio.Collaborators}.

Lemma book_of_some subscription w symbol ob :
  safe_string subscription (KStr "symbol") = Some symbol ->
  orderbooks (self w) !! symbol = Some ob ->
  Ripio.book_of subscription w = Some (symbol, ob).
Proof. intros Hs Hb. unfold Ripio.book_of. rewrite Hs. simpl. now rewrite Hb. Qed.

Lemma book_of_inv subscription w symbol ob :
  Ripio.book_of subscription w = Some (symbol, ob) ->
  safe_string subscription (KStr "symbol") = Some symbol
  /\ orderbooks (self w) !! symbol = Some ob.
Proof.
  unfold Ripio.book_of. destruct (safe_string _ _) as [s|]; [|discriminate]. simpl.
  destruct (orderbooks (self w) !! s) as [b|] eqn:Hb; [|discriminate].
  simpl. intros [= <- <-]. auto.
Qed.

Lemma handle_order_book_unknown message subscription w :
  Ripio.book_of subscription w = None ->
  Ripio.handle_order_book message subscription w = (Ok (RetMessage message), w).
Proof.
  intros H. unfold Ripio.handle_order_book, bind, get.
  now rewrite H.
Qed.

Lemma handle_order_book_buffering message subscription w symbol ob :
  Ripio.book_of subscription w = Some (symbol, ob) ->
  ob_nonce ob = None ->
  Ripio.handle_order_book message subscription w
  = (Ok (RetMessage message),
     put_book symbol (set_cache (ob_cache ob ++ [message]) ob) w).
Proof.
  intros H Hn. destruct (book_of_inv _ _ _ _ H) as [_ Hb].
  unfold Ripio.handle_order_book. unfold bind at 1, get at 1.
  rewrite H, Hn.
  unfold bind. rewrite (on_orderbook_run _ _ _ _ Hb). reflexivity.
Qed.

Lemma handle_order_book_synced message subscription w symbol ob n :
  Ripio.book_of subscription w = Some (symbol, ob) ->
  ob_nonce ob = Some n ->
  Ripio.handle_order_book message subscription w
  = match Ripio.handle_order_book_message message ob with
    | (Ok _, _) =>
        (Ok (RetMessage message),
         mkWorld (self w)
                 (resolve (VBook ob) (safe_string subscription (KStr "messageHash"))
                          (client w)))
    | (Raise e, _) => (Raise e, w)
    end.
Proof.
  intros H Hn. destruct (book_of_inv _ _ _ _ H) as [_ Hb].
  unfold Ripio.handle_order_book. unfold bind at 1, get at 1.
  rewrite H, Hn.
  unfold bind at 1. rewrite (on_orderbook_run _ _ _ _ Hb).
  pose proof (handle_order_book_message_book message ob) as Hsame.
  destruct (Ripio.handle_order_book_message message ob) as [[r|e] ob']; simpl in Hsame;
    subst ob'; rewrite (put_book_same _ _ _ Hb); [|reflexivity].
  unfold bind at 1. rewrite (on_orderbook_run _ _ _ _ Hb). unfold get at 1.
  rewrite (put_book_same _ _ _ Hb). reflexivity.
Qed.

(** C3.  For every frame that arrives for a symbol whose order book exists
    with its nonce still unset, [handle_order_book] appends the raw frame to
    the book's buffer and writes neither bids, asks, nonce nor timestamp, and
    leaves the client (hence every waiter) as it was; and whenever
    [handle_order_book] does touch the client, the book's nonce was set, the
    frame went through [handle_order_book_message], and what happened to the
    client is the waiter's resolution with that book. *)
Theorem buffering_frame_is_only_appended
    (message subscription : PyVal) (w : World) (symbol : string) (ob : OrderBook) :
  safe_string subscription (KStr "symbol") = Some symbol ->
  orderbooks (self w) !! symbol = Some ob ->
  ob_nonce ob = None ->
  let w' := (Ripio.handle_order_book message subscription w).2 in
  Ripio.handle_order_book message subscription w
    = (Ok (RetMessage message),
       put_book symbol (set_cache (ob_cache ob ++ [message]) ob) w)
  /\ (exists ob',
        orderbooks (self w') !! symbol = Some ob'
        /\ ob_cache ob' = ob_cache ob ++ [message]
        /\ ob_bids ob' = ob_bids ob /\ ob_asks ob' = ob_asks ob
        /\ ob_nonce ob' = None /\ ob_timestamp ob' = ob_timestamp ob)
  /\ client w' = client w
  /\ (forall frame sub v,
        client (Ripio.handle_order_book frame sub v).2 <> client v ->
        exists s b n r,
          safe_string sub (KStr "symbol") = Some s
          /\ orderbooks (self v) !! s = Some b
          /\ ob_nonce b = Some n
          /\ Ripio.handle_order_book_message frame b = (Ok r, b)
          /\ client (Ripio.handle_order_book frame sub v).2
             = resolve (VBook b) (safe_string sub (KStr "messageHash")) (client v)).
Proof.
  intros Hs Hb Hn w'.
  pose proof (handle_order_book_buffering message _ _ _ _ (book_of_some _ _ _ _ Hs Hb) Hn)
    as Hrun.
  subst w'. rewrite Hrun. simpl. split; [reflexivity|]. split; [|split].
  - eexists. split; [apply lookup_insert_eq|]. now repeat split.
  - reflexivity.
  - intros frame sub v Hchg.
    destruct (Ripio.book_of sub v) as [[s b]|] eqn:Hbook.
    + destruct (book_of_inv _ _ _ _ Hbook) as [Hs' Hb'].
      destruct (ob_nonce b) as [k|] eqn:Hk.
      * rewrite (handle_order_book_synced frame _ _ _ _ _ Hbook Hk) in Hchg |- *.
        pose proof (handle_order_book_message_book frame b) as Hsame.
        destruct (Ripio.handle_order_book_message frame b) as [[r|e] b'] eqn:Hm;
          simpl in Hsame; subst b'; simpl in Hchg |- *.
        -- exists s, b, k, r. now repeat split.
        -- now contradiction Hchg.
      * rewrite (handle_order_book_buffering frame _ _ _ _ Hbook Hk) in Hchg.
        now contradiction Hchg.
    + rewrite (handle_order_book_unknown frame _ _ Hbook) in Hchg.
      now contradiction Hchg.
Qed.

End RipioHandleOrderBook.

Lemma buffering_frame_is_only_appended_witness :
  safe_string Frames.ripio_subscription (KStr "symbol") = Some "BTC/USDC"
  /\ orderbooks (self Frames.ripio_buffering) !! "BTC/USDC" = Some (order_book None)
  /\ ob_nonce (order_book None) = None
  /\ @Ripio.handle_order_book Codec.reference Frames.delta_99740
       Frames.ripio_subscription Frames.ripio_buffering
     = (Ok (RetMessage Frames.delta_99740),
        put_book "BTC/USDC"
          (set_cache (ob_cache (order_book None) ++ [Frames.delta_99740]) (order_book None))
          Frames.ripio_buffering).
Proof.
  assert (Hs : safe_string Frames.ripio_subscription (KStr "symbol") = Some "BTC/USDC")
    by reflexivity.
  assert (Hb : orderbooks (self Frames.ripio_buffering) !! "BTC/USDC"
               = Some (order_book None)) by (vm_compute; reflexivity).
  assert (Hn : ob_nonce (order_book None) = None) by reflexivity.
  split; [exact Hs|]. split; [exact Hb|]. split; [exact Hn|].
  exact (proj1 (@buffering_frame_is_only_appended Codec.reference Frames.delta_99740
                  Frames.ripio_subscription Frames.ripio_buffering "BTC/USDC"
                  (order_book None) Hs Hb Hn)).
Defined.

(** ** Ripio: installing the snapshot *)

Section RipioSnapshot.
Context {collab : Ripio.Collaborators}.

Lemma first_raise_none_iff (messages : list PyVal) (ob : OrderBook) :
  Ripio.first_raise messages ob = None <->
  Forall (fun m => exists r, Ripio.handle_order_book_message m ob = (Ok r, ob)) messages.
Proof.
  induction messages as [|m ms IH]; simpl.
  - split; [constructor|reflexivity].
  - pose proof (handle_order_book_message_book m ob) as Hsame.
    destruct (Ripio.handle_order_book_message m ob) as [[r|e] ob'] eqn:Hm;
      simpl in Hsame; subst ob'.
    + rewrite IH. split.
      * intros H. constructor; [now exists r|assumption].
      * now inversion 1.
    + split; [discriminate|]. inversion 1 as [|? ? [r Hr] _]. congruence.
Qed.

Lemma first_raise_first (before after : list PyVal) (m : PyVal) (e : Exn)
    (ob : OrderBook) :
  Forall (fun m => exists r, Ripio.handle_order_book_message m ob = (Ok r, ob)) before ->
  Ripio.handle_order_book_message m ob = (Raise e, ob) ->
  Ripio.first_raise (before ++ m :: after) ob = Some e.
Proof.
  intros Hbefore Hm. induction Hbefore as [|x xs [r Hx] _ IH]; simpl.
  - now rewrite Hm.
  - now rewrite Hx.
Qed.

Lemma replayed_same (messages : list PyVal) (ob : OrderBook) :
  Ripio.replayed messages ob = ob.
Proof.
  induction messages as [|m ms IH]; simpl; [reflexivity|].
  pose proof (handle_order_book_message_book m ob) as Hsame.
  destruct (Ripio.handle_order_book_message m ob) as [[r|e] ob'];
    simpl in Hsame; subst ob'; [exact IH|reflexivity].
Qed.

(** The replay loop: the frames go through [handle_order_book_message] one
    after the other until one raises. *)
Lemma replay_run (symbol : string) (ob : OrderBook) (messages : list PyVal) (w : World) :
  orderbooks (self w) !! symbol = Some ob ->
  for_each messages
    (fun message =>
       on_orderbook symbol (Ripio.handle_order_book_message message) ;;; ret tt) w
  = (match Ripio.first_raise messages ob with
     | None => Ok tt
     | Some e => Raise e
     end, w).
Proof.
  intros Hb. induction messages as [|m ms IH]; simpl; [reflexivity|].
  unfold bind at 1. unfold bind at 1. rewrite (on_orderbook_run _ _ _ _ Hb).
  pose proof (handle_order_book_message_book m ob) as Hsame.
  destruct (Ripio.handle_order_book_message m ob) as [[r|e] ob']; simpl in Hsame; subst ob';
    rewrite (put_book_same _ _ _ Hb); [|reflexivity].
  unfold ret at 1. exact IH.
Qed.

Lemma fetch_failed (e : Exn) (subscription : PyVal) (w : World) :
  Ripio.fetch_order_book_snapshot (Raise e) subscription w
  = (Ok tt,
     mkWorld (self w)
             (reject e (safe_string subscription (KStr "messageHash")) (client w))).
Proof. reflexivity. Qed.

Lemma fetch_without_book (snapshot : Snapshot) (subscription : PyVal) (w : World) :
  Ripio.book_of subscription w = None ->
  Ripio.fetch_order_book_snapshot (Ok snapshot) subscription w
  = (Ok tt,
     mkWorld (self w)
       (reject (mkExn KeyError
                  (or_default (PStr <$> safe_string subscription (KStr "symbol")) PNone))
               (safe_string subscription (KStr "messageHash")) (client w))).
Proof.
  intros H. unfold Ripio.fetch_order_book_snapshot, try_except.
  unfold bind at 1, lift at 1. unfold bind at 1, get at 1. now rewrite H.
Qed.

Lemma fetch_with_book (snapshot : Snapshot) (subscription : PyVal) (w : World)
    (symbol : string) (ob : OrderBook) :
  Ripio.book_of subscription w = Some (symbol, ob) ->
  let installed := reset snapshot ob in
  let key := safe_string subscription (KStr "messageHash") in
  Ripio.fetch_order_book_snapshot (Ok snapshot) subscription w
  = (Ok tt,
     mkWorld (self (put_book symbol installed w))
       (match Ripio.first_raise (ob_cache ob) installed with
        | None => resolve (VBook installed) key (client w)
        | Some e => reject e key (client w)
        end)).
Proof.
  intros H installed key. destruct (book_of_inv _ _ _ _ H) as [_ Hb].
  unfold Ripio.fetch_order_book_snapshot, try_except.
  unfold bind at 1, lift at 1. unfold bind at 1, get at 1. rewrite H.
  unfold bind at 1. rewrite (on_orderbook_run _ _ _ _ Hb).
  unfold modify at 1. fold installed.
  pose proof (lookup_put_book symbol installed w) as Hb1.
  unfold bind at 1. rewrite (replay_run _ _ _ _ Hb1).
  destruct (Ripio.first_raise (ob_cache ob) installed) as [e|]; [reflexivity|].
  unfold bind at 1. rewrite (on_orderbook_run _ _ _ _ Hb1). unfold get at 1.
  rewrite put_book_twice. reflexivity.
Qed.

End RipioSnapshot.

(** ** Ripio: the claims on [fetch_order_book_snapshot] *)

Section RipioSnapshotClaims.
Context {collab : Ripio.Collaborators}.

Lemma deliver_all_synced (messages : list PyVal) (subscription : PyVal) (w : World)
    (symbol : string) (ob : OrderBook) (n : Z) :
  Ripio.book_of subscription w = Some (symbol, ob) ->
  ob_nonce ob = Some n ->
  self (Ripio.deliver_all messages subscription w) = self w.
Proof.
  revert w. induction messages as [|m ms IH]; intros w Hb Hn; simpl; [reflexivity|].
  rewrite (handle_order_book_synced m _ _ _ _ _ Hb Hn).
  destruct (Ripio.handle_order_book_message m ob) as [[r|e] ob'].
  - simpl. rewrite IH; [reflexivity| |assumption]. exact Hb.
  - simpl. now apply IH.
Qed.

(** C2, as amended.  When the snapshot fetch resolves for a symbol whose
    book exists, [fetch_order_book_snapshot] installs the snapshot's bids,
    asks and nonce and then passes the buffered frames, in arrival order, to
    [handle_order_book_message], each on the book the one before left, until
    one raises; the buffer is read, not cleared.  When no frame raises the
    waiter under the subscription's routing key is resolved with the book;
    when one does, the waiter is rejected with the exception of the first
    such frame, and the frames after it are not replayed.  And when no
    replayed frame raises, the book's bids, asks, nonce, timestamp and
    datetime are those that result from handing the same frames, one by one,
    to [handle_order_book] in SYNCED state after the snapshot. *)
Theorem snapshot_is_installed_and_buffer_replayed
    (snapshot : Snapshot) (subscription : PyVal) (w : World)
    (symbol : string) (ob : OrderBook) (n0 : Z) :
  safe_string subscription (KStr "symbol") = Some symbol ->
  orderbooks (self w) !! symbol = Some ob ->
  snap_nonce snapshot = Some n0 ->
  let installed := reset snapshot ob in
  let final := Ripio.replayed (ob_cache ob) installed in
  let key := safe_string subscription (KStr "messageHash") in
  let run := Ripio.fetch_order_book_snapshot (Ok snapshot) subscription w in
  let ignored := fun m => exists r,
                   Ripio.handle_order_book_message m installed = (Ok r, installed) in
  let synced := put_book symbol (reset snapshot (set_cache [] ob)) w in
  let direct := Ripio.deliver_all (ob_cache ob) subscription synced in
  (ob_bids installed
     = store_all (snap_bids snapshot) (empty_side BidsSide (depth (ob_bids ob)))
   /\ ob_asks installed
     = store_all (snap_asks snapshot) (empty_side AsksSide (depth (ob_asks ob)))
   /\ ob_nonce installed = Some n0)
  /\ run
     = (Ok tt,
        mkWorld (self (put_book symbol final w))
                (match Ripio.first_raise (ob_cache ob) installed with
                 | None => resolve (VBook final) key (client w)
                 | Some e => reject e key (client w)
                 end))
  /\ ob_cache final = ob_cache ob
  /\ (Forall ignored (ob_cache ob) ->
      run = (Ok tt,
             mkWorld (self (put_book symbol installed w))
                     (resolve (VBook installed) key (client w))))
  /\ (forall before m after e,
        ob_cache ob = before ++ m :: after ->
        Forall ignored before ->
        Ripio.handle_order_book_message m installed = (Raise e, installed) ->
        run = (Ok tt,
               mkWorld (self (put_book symbol installed w))
                       (reject e key (client w))))
  /\ (Ripio.first_raise (ob_cache ob) installed = None ->
      exists d,
        orderbooks (self direct) !! symbol = Some d
        /\ ob_bids final = ob_bids d /\ ob_asks final = ob_asks d
        /\ ob_nonce final = ob_nonce d
        /\ ob_timestamp final = ob_timestamp d
        /\ ob_datetime final = ob_datetime d).
Proof.
  intros Hs Hb Hn installed final key run ignored synced direct.
  pose proof (book_of_some _ _ _ _ Hs Hb) as Hbook.
  pose proof (fetch_with_book snapshot _ _ _ _ Hbook) as Hrun. cbv zeta in Hrun.
  fold installed key run in Hrun.
  assert (Hfinal : final = installed) by apply replayed_same.
  split; [|split; [|split; [|split; [|split]]]].
  - repeat split; try reflexivity. exact Hn.
  - now rewrite Hfinal.
  - now rewrite Hfinal.
  - intros Hall. apply first_raise_none_iff in Hall. now rewrite Hall in Hrun.
  - intros before m after e Hcache Hbefore Hm.
    rewrite Hcache, (first_raise_first _ _ _ _ _ Hbefore Hm) in Hrun. exact Hrun.
  - intros _. exists (reset snapshot (set_cache [] ob)).
    assert (Hsync : Ripio.book_of subscription synced
                    = Some (symbol, reset snapshot (set_cache [] ob))).
    { apply book_of_some; [exact Hs|]. apply lookup_put_book. }
    subst direct. rewrite (deliver_all_synced _ _ _ _ _ n0 Hsync Hn).
    split; [apply lookup_put_book|]. rewrite Hfinal. now repeat split.
Qed.

End RipioSnapshotClaims.

Lemma snapshot_is_installed_and_buffer_replayed_witness :
  safe_string Frames.ripio_subscription (KStr "symbol") = Some "BTC/USDC"
  /\ orderbooks (self Frames.ripio_buffered) !! "BTC/USDC"
     = Some (set_cache [Frames.delta_99739] (order_book None))
  /\ snap_nonce Frames.snapshot_99740 = Some 99740
  /\ @Ripio.fetch_order_book_snapshot Codec.reference (Ok Frames.snapshot_99740)
       Frames.ripio_subscription Frames.ripio_buffered
     = (Ok tt,
        mkWorld
          (self (put_book "BTC/USDC"
                   (reset Frames.snapshot_99740
                      (set_cache [Frames.delta_99739] (order_book None)))
                   Frames.ripio_buffered))
          (resolve
             (VBook (reset Frames.snapshot_99740
                       (set_cache [Frames.delta_99739] (order_book None))))
             (Some "orderbook_btc_usdc") (client Frames.ripio_buffered))).
Proof.
  assert (Hs : safe_string Frames.ripio_subscription (KStr "symbol") = Some "BTC/USDC")
    by reflexivity.
  assert (Hb : orderbooks (self Frames.ripio_buffered) !! "BTC/USDC"
               = Some (set_cache [Frames.delta_99739] (order_book None)))
    by (vm_compute; reflexivity).
  assert (Hn : snap_nonce Frames.snapshot_99740 = Some 99740) by reflexivity.
  assert (Hall : Forall
            (fun m => exists r,
               @Ripio.handle_order_book_message Codec.reference m
                 (reset Frames.snapshot_99740
                    (set_cache [Frames.delta_99739] (order_book None)))
               = (Ok r, reset Frames.snapshot_99740
                          (set_cache [Frames.delta_99739] (order_book None))))
            (ob_cache (set_cache [Frames.delta_99739] (order_book None)))).
  { constructor; [|constructor]. eexists. vm_compute. reflexivity. }
  split; [exact Hs|]. split; [exact Hb|]. split; [exact Hn|].
  exact (proj1 (proj2 (proj2 (proj2
           (@snapshot_is_installed_and_buffer_replayed Codec.reference
              Frames.snapshot_99740 Frames.ripio_subscription
              Frames.ripio_buffered "BTC/USDC"
              (set_cache [Frames.delta_99739] (order_book None)) 99740
              Hs Hb Hn)))) Hall).
Defined.

(** C2 as stated fails.  The delta 99739 is buffered, then the snapshot with
    nonce 99740 is installed: the waiter is resolved, yet the buffer still
    holds the frame, and the book differs from the one obtained by applying
    the delta after the snapshot in SYNCED state, whose buffer is empty.
    And when the frame buffered is one whose payload does not decode, the
    snapshot is installed but the waiter is rejected, not resolved. *)
Lemma snapshot_leaves_the_buffer_in_place :
  let w' := (@Ripio.fetch_order_book_snapshot Codec.reference (Ok Frames.snapshot_99740)
               Frames.ripio_subscription Frames.ripio_buffered).2 in
  let synced := put_book "BTC/USDC" (reset Frames.snapshot_99740 (order_book None))
                  Frames.ripio_buffering in
  let direct := @Ripio.deliver_all Codec.reference [Frames.delta_99739]
                  Frames.ripio_subscription synced in
  let v' := (@Ripio.fetch_order_book_snapshot Codec.reference (Ok Frames.snapshot_99740)
               Frames.ripio_subscription Frames.ripio_buffered_garbled).2 in
  (ob_cache <$> orderbooks (self w') !! "BTC/USDC" = Some [Frames.delta_99739]
   /\ ob_cache <$> orderbooks (self direct) !! "BTC/USDC" = Some []
   /\ orderbooks (self w') !! "BTC/USDC" <> orderbooks (self direct) !! "BTC/USDC")
  /\ (ob_nonce <$> orderbooks (self v') !! "BTC/USDC" = Some (Some 99740)
      /\ settled (client v')
         = [("orderbook_btc_usdc", Rejected (value_error "Expecting value"))]).
Proof.
  cbv zeta. split.
  - split; [vm_compute; reflexivity|]. split; [vm_compute; reflexivity|].
    intros H. apply (f_equal (fmap ob_cache)) in H. vm_compute in H. discriminate.
  - split; vm_compute; reflexivity.
Qed.

(** ** Ripio: subscribing *)

Lemma client_at_insert (u u' : string) (c : Client) (ex ex0 : Exchange) :
  client_at u' (set_clients (<[u := c]> (clients ex)) ex0)
  = if decide (u = u') then c else client_at u' ex.
Proof.
  unfold client_at. simpl. destruct (decide (u = u')) as [->|Hne].
  - now rewrite lookup_insert_eq.
  - now rewrite lookup_insert_ne.
Qed.

Lemma scheduled_app (ex : Exchange) (ds : list DelayedCall) (u key : string) (x : Exchange) :
  delayed x = delayed ex ++ ds ->
  Ripio.scheduled x u key
  = (Ripio.scheduled ex u key
     + length (List.filter
                 (fun d => String.eqb (dc_client d) u
                           && bool_decide (safe_string (dc_subscription d) (KStr "messageHash")
                                           = Some key)) ds))%nat.
Proof.
  intros H. unfold Ripio.scheduled. rewrite H, List.filter_app. apply List.length_app.
Qed.

Lemma scheduled_same (ex x : Exchange) (u key : string) :
  delayed x = delayed ex -> Ripio.scheduled x u key = Ripio.scheduled ex u key.
Proof. intros H. unfold Ripio.scheduled. now rewrite H. Qed.

Lemma scheduled_none (ex : Exchange) (u key : string) :
  Ripio.scheduled_are_subscribed ex ->
  dict_mem (subscriptions (client_at u ex)) key = false ->
  Ripio.scheduled ex u key = 0%nat.
Proof.
  intros Hinv Hmem. unfold Ripio.scheduled.
  assert (Hall : forall d, In d (delayed ex) ->
            String.eqb (dc_client d) u
            && bool_decide (safe_string (dc_subscription d) (KStr "messageHash") = Some key)
            = false).
  { intros d Hd. destruct (Hinv d Hd) as (k & Hk & Hsub).
    destruct (String.eqb (dc_client d) u) eqn:E; [|reflexivity]. simpl.
    apply String.eqb_eq in E. subst u.
    apply bool_decide_eq_false. intros Heq. congruence. }
  induction (delayed ex) as [|d ds IH]; simpl; [reflexivity|].
  rewrite Hall by now left. apply IH. intros d' Hd'. apply Hall. now right.
Qed.

(** [watch_order_book], run: a key already subscribed gets a waiter and
    nothing else; a new key also gets an empty book, its subscription and
    the delayed fetch. *)
Lemma watch_order_book_run (ex : Exchange) (symbol : string) (m : Market) (u : string) :
  markets ex !! symbol = Some m ->
  Ripio.order_book_url ex m = Ok u ->
  let key := Ripio.order_book_message_hash m in
  let sub := Ripio.order_book_subscription m in
  let cl := client_at u ex in
  Ripio.watch_order_book (Ok tt) symbol ex
  = (Ok key,
     if dict_mem (subscriptions cl) key then
       set_clients (<[u := future key cl]> (clients ex)) ex
     else
       set_clients
         (<[u := future key (set_subscriptions (dict_set (subscriptions cl) key sub) cl)]>
            (clients ex))
         (set_delayed (delayed ex ++ [mkDelayed (Ripio.snapshot_delay ex) u sub])
            (set_orderbooks (<[market_symbol m := order_book None]> (orderbooks ex)) ex))).
Proof.
  intros Hm Hu key sub cl.
  unfold Ripio.watch_order_book. run_monad. unfold market. rewrite Hm. run_monad.
  rewrite Hu. run_monad. fold (client_at u ex). fold cl. fold key. fold sub.
  fold (Ripio.snapshot_delay ex).
  destruct (dict_mem (subscriptions cl) key) eqn:Hmem; run_monad.
  - rewrite (watch_subscribed _ _ _ _ _ Hmem). reflexivity.
  - rewrite watch_subscribed by apply dict_mem_dict_set_same. reflexivity.
Qed.

Lemma watch_order_book_cases (loaded : Res unit) (symbol : string) (ex : Exchange) :
  (Ripio.watch_order_book loaded symbol ex).2 = ex
  \/ exists m u,
       loaded = Ok tt /\ markets ex !! symbol = Some m /\ Ripio.order_book_url ex m = Ok u.
Proof.
  destruct loaded as [[]|e]; [|now left].
  destruct (markets ex !! symbol) as [m|] eqn:Hm.
  - destruct (Ripio.order_book_url ex m) as [u|e] eqn:Hu.
    + right. now exists m, u.
    + left. unfold Ripio.watch_order_book. run_monad. unfold market. rewrite Hm.
      run_monad. now rewrite Hu.
  - left. unfold Ripio.watch_order_book. run_monad. unfold market. now rewrite Hm.
Qed.

(** A call of [watch_order_book] keeps them. *)
Lemma watch_order_book_keeps (loaded : Res unit) (symbol : string) (ex : Exchange) :
  Ripio.at_most_one_fetch ex ->
  Ripio.at_most_one_fetch (Ripio.watch_order_book loaded symbol ex).2.
Proof.
  intros [Hinv Hone].
  destruct (watch_order_book_cases loaded symbol ex) as [->|(m & u & -> & Hm & Hu)];
    [now split|].
  rewrite (watch_order_book_run _ _ _ _ Hm Hu). cbn [snd].
  set (key := Ripio.order_book_message_hash m).
  set (sub := Ripio.order_book_subscription m).
  set (cl := client_at u ex).
  destruct (dict_mem (subscriptions cl) key) eqn:Hmem.
  - split.
    + intros d Hd. destruct (Hinv d Hd) as (k & Hk & Hsub). exists k. split; [assumption|].
      rewrite client_at_insert. destruct (decide (u = dc_client d)) as [Heq|_]; [|assumption].
      rewrite <- Heq in Hsub. now rewrite subscriptions_future.
    + intros u' k'. exact (Hone u' k').
  - split.
    + intros d Hd. cbn [delayed set_clients set_delayed set_orderbooks] in Hd.
      apply in_app_or in Hd. destruct Hd as [Hd|[<-|[]]].
      * destruct (Hinv d Hd) as (k & Hk & Hsub). exists k. split; [assumption|].
        rewrite client_at_insert. destruct (decide (u = dc_client d)) as [Heq|_].
        -- rewrite <- Heq in Hsub. rewrite subscriptions_future.
           cbn [subscriptions set_subscriptions].
           rewrite dict_mem_dict_set. fold cl in Hsub. rewrite Hsub. apply orb_true_r.
        -- exact Hsub.
      * exists key. split; [reflexivity|]. cbn [dc_client].
        rewrite client_at_insert. destruct (decide (u = u)) as [_|Hne]; [|contradiction].
        rewrite subscriptions_future. cbn [subscriptions set_subscriptions].
        apply dict_mem_dict_set_same.
    + intros u' k'.
      erewrite scheduled_app by reflexivity. simpl.
      destruct (String.eqb u u') eqn:E; simpl.
      * apply String.eqb_eq in E. subst u'.
        case_bool_decide as Hk; simpl.
        -- assert (Hkey : safe_string sub (KStr "messageHash") = Some key) by reflexivity.
           rewrite Hkey in Hk. injection Hk as <-.
           rewrite (scheduled_none _ _ _ Hinv Hmem). lia.
        -- specialize (Hone u k'). lia.
      * specialize (Hone u' k'). lia.
Qed.

(** So does whatever a connection's handler does, as long as it leaves the
    subscriptions alone. *)
Lemma with_open_client_keeps {A} (u : string) (c : M World A) (ex : Exchange) :
  keeps same_subscriptions c ->
  Ripio.at_most_one_fetch ex ->
  Ripio.at_most_one_fetch (Ripio.with_open_client u c ex).
Proof.
  intros Hc [Hinv Hone]. unfold Ripio.with_open_client.
  destruct (clients ex !! u) as [cl|] eqn:Hcl; [|now split].
  unfold with_client. rewrite Hcl. change (default (new_client u) (Some cl)) with cl.
  specialize (Hc (mkWorld ex cl)).
  destruct (c (mkWorld ex cl)) as [r w']. cbn [snd] in Hc |- *.
  destruct Hc as (Hd & Hcs & Hsub). cbn [self client] in Hd, Hcs, Hsub.
  split.
  - intros d Hin. cbn [delayed set_clients] in Hin. rewrite Hd in Hin.
    destruct (Hinv d Hin) as (k & Hk & Hmem). exists k. split; [assumption|].
    rewrite Hcs, client_at_insert.
    destruct (decide (u = dc_client d)) as [Heq|_]; [|assumption].
    rewrite Hsub. rewrite <- Heq in Hmem. unfold client_at in Hmem.
    now rewrite Hcl in Hmem.
  - intros u' k'. rewrite (scheduled_same ex); [apply Hone|]. exact Hd.
Qed.

Section RipioSubscribeClaims.
Context {collab : Ripio.Collaborators}.

Lemma handle_order_book_same (message subscription : PyVal) :
  keeps same_subscriptions (Ripio.handle_order_book message subscription).
Proof. unfold Ripio.handle_order_book. repeat keeps_step. Qed.

Lemma handle_trade_same (message subscription : PyVal) :
  keeps same_subscriptions (Ripio.handle_trade message subscription).
Proof. unfold Ripio.handle_trade. repeat keeps_step. Qed.

Lemma handle_ticker_same (message subscription : PyVal) :
  keeps same_subscriptions (Ripio.handle_ticker message subscription).
Proof. unfold Ripio.handle_ticker. repeat keeps_step. Qed.

Lemma handle_message_same (message : PyVal) :
  keeps same_subscriptions (Ripio.handle_message message).
Proof.
  unfold Ripio.handle_message. repeat keeps_step.
  unfold Ripio.call_method.
  destruct m; [apply handle_trade_same|apply handle_ticker_same|apply handle_order_book_same].
Qed.

Lemma fetch_order_book_snapshot_same (fetched : Res Snapshot) (subscription : PyVal) :
  keeps same_subscriptions (Ripio.fetch_order_book_snapshot fetched subscription).
Proof. unfold Ripio.fetch_order_book_snapshot. repeat keeps_step. Qed.

Lemma ack_same (messageId : string) :
  keeps same_subscriptions (on_client (Ripio.ack messageId)).
Proof. unfold Ripio.ack. auto with keeps. Qed.

Lemma run_keeps (events : list Ripio.Event) (ex : Exchange) :
  Ripio.at_most_one_fetch ex -> Ripio.at_most_one_fetch (Ripio.run events ex).
Proof.
  revert ex. induction events as [|ev events IH]; intros ex H; [exact H|].
  simpl. apply IH. destruct ev as [loaded symbol|u message|u sub fetched|u messageId]; simpl.
  - now apply watch_order_book_keeps.
  - apply with_open_client_keeps; [apply handle_message_same|assumption].
  - apply with_open_client_keeps; [apply fetch_order_book_snapshot_same|assumption].
  - apply with_open_client_keeps; [apply ack_same|assumption].
Qed.

(** C4.  A [watch_order_book] call returns the routing key it waits on.  If
    the key is already among the client's subscriptions, the call attaches:
    the order books and the list of scheduled fetches are as before, the
    subscription is the existing one, and the caller's waiter is registered.
    Only when the key is new does the call create the (empty) book, enter the
    subscription and schedule the delayed fetch, once.  Hence, however calls
    of [watch_order_book], arriving frames, answers to the fetches and
    acknowledgments follow one another from a state with no fetch scheduled,
    at most one snapshot fetch is ever scheduled per client and routing
    key. *)
Theorem one_snapshot_fetch_per_subscription
    (ex : Exchange) (symbol : string) (m : Market) (u : string) :
  markets ex !! symbol = Some m ->
  Ripio.order_book_url ex m = Ok u ->
  let key := Ripio.order_book_message_hash m in
  let sub := Ripio.order_book_subscription m in
  let cl := client_at u ex in
  let ex' := (Ripio.watch_order_book (Ok tt) symbol ex).2 in
  (Ripio.watch_order_book (Ok tt) symbol ex).1 = Ok key
  /\ (dict_mem (subscriptions cl) key = true ->
      orderbooks ex' = orderbooks ex
      /\ delayed ex' = delayed ex
      /\ subscriptions (client_at u ex') = subscriptions cl
      /\ pending (client_at u ex') key = true)
  /\ (dict_mem (subscriptions cl) key = false ->
      orderbooks ex' = <[market_symbol m := order_book None]> (orderbooks ex)
      /\ delayed ex' = delayed ex ++ [mkDelayed (Ripio.snapshot_delay ex) u sub]
      /\ dict_get (subscriptions (client_at u ex')) key = Some sub
      /\ pending (client_at u ex') key = true)
  /\ (forall events start u' key',
      delayed start = [] ->
      (Ripio.scheduled (Ripio.run events start) u' key' <= 1)%nat).
Proof.
  intros Hm Hu key sub cl ex'. subst ex'.
  rewrite (watch_order_book_run _ _ _ _ Hm Hu). cbn [fst snd].
  fold key. fold sub. fold cl.
  split; [reflexivity|]. split; [|split].
  - intros Hmem. rewrite Hmem. rewrite client_at_insert.
    destruct (decide (u = u)) as [_|Hne]; [|contradiction].
    repeat split; [apply subscriptions_future|apply pending_future].
  - intros Hmem. rewrite Hmem. rewrite client_at_insert.
    destruct (decide (u = u)) as [_|Hne]; [|contradiction].
    repeat split.
    + rewrite subscriptions_future. apply dict_get_dict_set_same.
    + apply pending_future.
  - intros events start u' key' Hstart.
    apply run_keeps. split.
    + intros d Hd. rewrite Hstart in Hd. destruct Hd.
    + intros u0 k0. unfold Ripio.scheduled. rewrite Hstart. simpl. lia.
Qed.

End RipioSubscribeClaims.

Lemma one_snapshot_fetch_per_subscription_witness :
  markets Frames.ripio_fresh !! "BTC/USDC" = Some Frames.btc_usdc
  /\ Ripio.order_book_url Frames.ripio_fresh Frames.btc_usdc = Ok Frames.ripio_url
  /\ (Ripio.watch_order_book (Ok tt) "BTC/USDC" Frames.ripio_fresh).1
     = Ok "orderbook_btc_usdc".
Proof.
  assert (Hm : markets Frames.ripio_fresh !! "BTC/USDC" = Some Frames.btc_usdc)
    by (vm_compute; reflexivity).
  assert (Hu : Ripio.order_book_url Frames.ripio_fresh Frames.btc_usdc = Ok Frames.ripio_url)
    by (vm_compute; reflexivity).
  split; [exact Hm|]. split; [exact Hu|].
  exact (proj1 (@one_snapshot_fetch_per_subscription Codec.reference
                  Frames.ripio_fresh "BTC/USDC" Frames.btc_usdc Frames.ripio_url Hm Hu)).
Defined.

(** ** Ripio: routing a frame *)

Section RipioRouting.
Context {collab : Ripio.Collaborators}.

Lemma fallback_found (subs : pydict PyVal) :
  or_default
    (safe_string (PList (map PStr (dict_keys subs))) (KInt 0)
       ≫= (fun k => safe_value (PDict subs) (KStr k)))
    (PDict [])
  = Ripio.fallback subs.
Proof.
  destruct subs as [|[key subscription] others]; [reflexivity|].
  change (safe_string (PList (map PStr (dict_keys ((key, subscription) :: others))))
            (KInt 0)) with (Some key).
  cbn [mbind option_bind]. unfold safe_value, key_exists. simpl.
  rewrite String.eqb_refl. now destruct subscription.
Qed.

Lemma handle_message_run (message : PyVal) (w : World) :
  Ripio.handle_message message w
  = let w1 := Ripio.acknowledged message w in
    let subscription := Ripio.fallback (subscriptions (client w)) in
    match safe_value subscription (KStr "method") with
    | Some (PMethod method) => Ripio.call_method method message subscription w1
    | Some _ => (Raise (type_error "object is not callable"), w1)
    | None => (Ok (RetMessage message), w1)
    end.
Proof.
  assert (Hcl : client (Ripio.acknowledged message w) = client w).
  { unfold Ripio.acknowledged. now destruct (safe_string _ _). }
  unfold Ripio.handle_message.
  erewrite bind_ok; cycle 1.
  { instantiate (1 := Ripio.acknowledged message w). instantiate (1 := tt).
    unfold Ripio.acknowledged. now destruct (safe_string message (KStr "messageId")). }
  unfold bind at 1, get at 1. cbv zeta. rewrite Hcl, fallback_found.
  destruct (safe_value (Ripio.fallback (subscriptions (client w))) (KStr "method")) as [[]|];
    reflexivity.
Qed.

(** C7.  Whatever the frame holds, [handle_message] (after spawning the
    acknowledgment when the frame has a [messageId]) hands it to the method
    stored in the subscription registered first on the client, with that
    subscription; when no subscription is registered, or the first one
    stores no method, it returns the frame and does not raise. *)
Theorem frame_goes_to_first_subscription (message : PyVal) (w : World) :
  let w1 := Ripio.acknowledged message w in
  match subscriptions (client w) with
  | [] => Ripio.handle_message message w = (Ok (RetMessage message), w1)
  | (key, subscription) :: others =>
      match safe_value subscription (KStr "method") with
      | Some (PMethod method) =>
          Ripio.handle_message message w
          = Ripio.call_method method message subscription w1
      | None => Ripio.handle_message message w = (Ok (RetMessage message), w1)
      | Some _ =>
          exists e, Ripio.handle_message message w = (Raise e, w1)
                    /\ exn_class e = TypeError
      end
  end.
Proof.
  intros w1. subst w1. rewrite handle_message_run. cbv zeta.
  destruct (subscriptions (client w)) as [|[key subscription] others]; [reflexivity|].
  destruct subscription; cbn [Ripio.fallback]; try reflexivity.
  destruct (safe_value (PDict d) (KStr "method")) as [[]|];
    try reflexivity; eexists; split; reflexivity.
Qed.

End RipioRouting.

(** ** Bitmex: [watch_balance] *)

(** C8 (the code departs from it).  [watch_balance] never returns a value:
    it raises as soon as [load_markets] is back.  But what it raises is not a
    NotImplemented error: [NotImplemented] is not among the names the module
    imports, so it is the builtin constant, and calling it is a TypeError. *)
Theorem watch_balance_raises_type_error (loaded : Res unit) (ex : Exchange) :
  Bitmex.lookup_name "NotImplemented" = Ok Bitmex.GNotImplemented
  /\ exists e,
       Bitmex.watch_balance loaded ex = (Raise e, ex)
       /\ (loaded = Ok tt ->
           e = type_error "'NotImplementedType' object is not callable"
           /\ exn_class e <> NotImplementedError)
       /\ (forall e0, loaded = Raise e0 -> e = e0).
Proof.
  split; [reflexivity|]. destruct loaded as [[]|e0].
  - eexists. split; [reflexivity|]. split.
    + intros _. split; [reflexivity|discriminate].
    + discriminate.
  - exists e0. split; [reflexivity|]. split; [discriminate|]. now intros ? [= <-].
Qed.

(** ** Bitmex: error frames *)

(** What [handle_error_message] takes for the routing key: the first
    character of [str(args)]. *)
Lemma handle_error_message_run (message : PyVal) (w : World) :
  Bitmex.handle_error_message message w
  = match safe_value message (KStr "error") with
    | None => (Ok true, w)
    | Some error =>
        let request := or_default (safe_value message (KStr "request")) (PDict []) in
        match safe_string request (KStr "args") with
        | None | Some EmptyString => (Ok true, w)
        | Some (String c _) =>
            match find_broadly_matched_key (ws_broad (self w)) error with
            | Raise e => (Raise e, w)
            | Ok broadKey =>
                (Ok false,
                 mkWorld (self w)
                   (reject
                      (mkExn (or_default (broadKey ≫= dict_get (ws_broad (self w)))
                                         ExchangeError) error)
                      (Some (String c "")) (client w)))
            end
        end
    end.
Proof.
  unfold Bitmex.handle_error_message.
  destruct (safe_value message (KStr "error")) as [error|]; [|reflexivity].
  cbv zeta.
  destruct (safe_string _ (KStr "args")) as [[|c rest]|]; try reflexivity.
  assert (Hpos : (0 <? Z.of_nat (String.length (String c rest)))%Z = true)
    by (apply Z.ltb_lt; simpl; lia).
  run_monad. cbn [or_default fmap option_fmap option_map py_len]. rewrite Hpos.
  cbn [py_index String.get Bitmex.routing_key].
  destruct (find_broadly_matched_key (ws_broad (self w)) error) as [broadKey|e];
    [|reflexivity].
  destruct (broadKey ≫= dict_get (ws_broad (self w))) as [cls|]; reflexivity.
Qed.

(** An error frame whose echoed request lists its args: the waiter rejected
    is the one under ["["], the first character of the list once [str] has
    been applied to it. *)
Lemma error_with_listed_args (message error request : PyVal) (l : list PyVal)
    (broadKey : option string) (w : World) :
  safe_value message (KStr "error") = Some error ->
  safe_value message (KStr "request") = Some request ->
  py_getitem request (KStr "args") = Some (PList l) ->
  find_broadly_matched_key (ws_broad (self w)) error = Ok broadKey ->
  Bitmex.handle_error_message message w
  = (Ok false,
     mkWorld (self w)
       (reject (mkExn (or_default (broadKey ≫= dict_get (ws_broad (self w))) ExchangeError)
                      error)
               (Some "[") (client w))).
Proof.
  intros He Hr Ha Hb. rewrite handle_error_message_run, He, Hr. cbv zeta.
  cbn [or_default]. unfold safe_string, safe_value, key_exists. rewrite Ha.
  cbn [fmap option_fmap option_map py_str py_repr]. simpl String.append.
  now rewrite Hb.
Qed.

(** So the waiter of the routing key the request names is left pending,
    whatever that key is. *)
Lemma error_with_listed_args_misses (message error request : PyVal) (l : list PyVal)
    (broadKey : option string) (w : World) (key : string) :
  safe_value message (KStr "error") = Some error ->
  safe_value message (KStr "request") = Some request ->
  py_getitem request (KStr "args") = Some (PList l) ->
  find_broadly_matched_key (ws_broad (self w)) error = Ok broadKey ->
  key <> "[" ->
  pending (client (Bitmex.handle_error_message message w).2) key
  = pending (client w) key.
Proof.
  intros He Hr Ha Hb Hk.
  rewrite (error_with_listed_args _ _ _ _ _ _ He Hr Ha Hb). cbn [snd client].
  rewrite reject_keyed by discriminate. now apply settle_other.
Qed.

(** C6 (the code departs from it).  The rate-limit error that echoes the
    request [{op: 'subscribe', args: ['orderBookL2:XBTUSD']}] arrives while
    the caller of [watch_order_book] waits under ['orderBookL2:XBTUSD'].
    [handle_error_message] returns [False], so the frame goes no further,
    but the waiter it rejects is the one under ["["]: the caller's waiter is
    still pending and nothing has been handed to anyone. *)
Theorem rate_limit_error_misses_the_waiter :
  let w := Frames.bitmex_waiting in
  let w' := (Bitmex.handle_error_message Frames.rate_limit_error w).2 in
  pending (client w) "orderBookL2:XBTUSD" = true
  /\ safe_string (PDict [("op", PStr "subscribe");
                         ("args", PList [PStr "orderBookL2:XBTUSD"])]) (KStr "args")
     = Some "['orderBookL2:XBTUSD']"
  /\ Bitmex.handle_error_message Frames.rate_limit_error w
     = (Ok false,
        mkWorld (self w)
          (reject (mkExn RateLimitExceeded
                         (PStr "Rate limit exceeded, retry in 1 seconds."))
                  (Some "[") (client w)))
  /\ pending (client w') "orderBookL2:XBTUSD" = true
  /\ settled (client w') = []
  /\ Bitmex.handle_message Frames.rate_limit_error w = (Ok RetNone, w).
Proof. cbv zeta. repeat split; vm_compute; reflexivity. Qed.

(** ** Bitmex: the keys of the order-book waiters *)

Lemma handle_order_book_resolves (message : PyVal) (t : string) :
  safe_string message (KStr "table") = Some t ->
  keeps (resolves_within (Bitmex.key_of_table t)) (Bitmex.handle_order_book message).
Proof.
  intros Ht. unfold Bitmex.handle_order_book. rewrite Ht. cbv zeta.
  destruct (decide (safe_string message (KStr "action") = Some "partial")).
  - repeat keeps_step.
    match goal with H : Bitmex.table_key _ _ = Ok _ |- _ => injection H as <- end.
    apply resolves_resolve. eexists. reflexivity.
  - repeat keeps_step.
    match goal with H : Bitmex.table_key _ _ = Ok _ |- _ => injection H as <- end.
    apply resolves_resolve. eexists. reflexivity.
Qed.

Lemma handle_error_message_resolves (P : string -> Prop) (message : PyVal) :
  keeps (resolves_within P) (Bitmex.handle_error_message message).
Proof. unfold Bitmex.handle_error_message. repeat keeps_step. Qed.

Lemma handle_message_resolves (message : PyVal) :
  keeps (resolves_within Bitmex.order_book_key) (Bitmex.handle_message message).
Proof.
  unfold Bitmex.handle_message.
  apply keeps_bind; [typeclasses eauto|apply handle_error_message_resolves|].
  intros [|]; [|auto with keeps]. cbv zeta.
  destruct (safe_string message (KStr "table")) as [t|] eqn:Ht;
    [|cbn [mbind option_bind]; unfold Bitmex.print; repeat keeps_step].
  cbn [mbind option_bind]. unfold Bitmex.methods. cbn [dict_get].
  assert (Hin : forall t', String.eqb t' t = true -> In t' (dict_keys Bitmex.methods) ->
            keeps (resolves_within Bitmex.order_book_key)
                  (Bitmex.handle_order_book message)).
  { intros t' Heq Hin w. apply String.eqb_eq in Heq. subst t'.
    eapply resolved_within_weaken; [|apply (handle_order_book_resolves message t Ht)].
    intros key [marketId ->]. now exists t, marketId. }
  destruct (String.eqb "orderBookL2" t) eqn:E1; [apply (Hin _ E1); simpl; tauto|].
  destruct (String.eqb "orderBookL2_25" t) eqn:E2; [apply (Hin _ E2); simpl; tauto|].
  destruct (String.eqb "orderBook10" t) eqn:E3; [apply (Hin _ E3); simpl; tauto|].
  unfold Bitmex.print. repeat keeps_step.
Qed.

Lemma watch_order_book_key (ex : Exchange) (symbol : string) (m : Market) (name : string)
    (limit : option Z) :
  markets ex !! symbol = Some m ->
  match limit with
  | None => or_default (safe_string (options ex) (KStr "watchOrderBookLevel")) "orderBookL2"
            = name
  | Some 25 => name = "orderBookL2_25"
  | Some 10 => name = "orderBookL10"
  | Some _ => False
  end ->
  (Bitmex.watch_order_book (Ok tt) symbol limit ex).1 = Ok (name +:+ ":" +:+ market_id m).
Proof.
  intros Hm Hname. unfold Bitmex.watch_order_book.
  unfold bind at 1, get at 1. unfold bind at 1.
  assert (Hn : (match limit with
                | None =>
                    ret (or_default (safe_string (options ex) (KStr "watchOrderBookLevel"))
                                    "orderBookL2")
                | Some 25 => ret "orderBookL2_25"
                | Some 10 => ret "orderBookL10"
                | Some _ =>
                    Bitmex.raise_new "ExchangeError"
                      (PStr (id ex +:+ " watchOrderBook limit argument must be None(L2), 25(L2) or 10(L3)"))
                end) ex = (Ok name, ex)).
  { destruct limit as [z|]; [|now rewrite <- Hname].
    destruct z as [|p|p]; try contradiction.
    repeat (destruct p as [p|p|]; try contradiction); now subst name. }
  rewrite Hn. run_monad. unfold market. rewrite Hm. run_monad.
  destruct (watch _ _ _ _ _) as [[[]|e] cl] eqn:Hw; [reflexivity|].
  exfalso. revert Hw. unfold watch. run_monad.
  destruct (dict_mem _ _); discriminate.
Qed.

Lemma pending_watch (message sub : option PyVal) (key sh : string) (cl : Client) :
  pending (watch message key sh sub cl).2 key = true.
Proof.
  unfold watch. run_monad. rewrite subscriptions_future.
  destruct (dict_mem (subscriptions cl) sh); [apply pending_future|].
  destruct message; apply pending_future.
Qed.

Lemma watch_order_book_pending (ex : Exchange) (symbol : string) (m : Market) (name : string)
    (limit : option Z) :
  markets ex !! symbol = Some m ->
  match limit with
  | None => or_default (safe_string (options ex) (KStr "watchOrderBookLevel")) "orderBookL2"
            = name
  | Some 25 => name = "orderBookL2_25"
  | Some 10 => name = "orderBookL10"
  | Some _ => False
  end ->
  pending (client_at (ws_url ex) (Bitmex.watch_order_book (Ok tt) symbol limit ex).2)
          (name +:+ ":" +:+ market_id m) = true.
Proof.
  intros Hm Hname. unfold Bitmex.watch_order_book.
  unfold bind at 1, get at 1. unfold bind at 1.
  assert (Hn : (match limit with
                | None =>
                    ret (or_default (safe_string (options ex) (KStr "watchOrderBookLevel"))
                                    "orderBookL2")
                | Some 25 => ret "orderBookL2_25"
                | Some 10 => ret "orderBookL10"
                | Some _ =>
                    Bitmex.raise_new "ExchangeError"
                      (PStr (id ex +:+ " watchOrderBook limit argument must be None(L2), 25(L2) or 10(L3)"))
                end) ex = (Ok name, ex)).
  { destruct limit as [z|]; [|now rewrite <- Hname].
    destruct z as [|p|p]; try contradiction.
    repeat (destruct p as [p|p|]; try contradiction); now subst name. }
  rewrite Hn. run_monad. unfold market. rewrite Hm. run_monad.
  fold (client_at (ws_url ex) ex).
  pose proof (pending_watch
                (Some (PDict [("op", PStr "subscribe");
                              ("args", PList [PStr (name +:+ ":" +:+ market_id m)])]))
                None (name +:+ ":" +:+ market_id m) (name +:+ ":" +:+ market_id m)
                (client_at (ws_url ex) ex)) as Hp.
  destruct (watch _ _ _ _ _) as [[[]|e] cl]; cbn [snd] in Hp |- *.
  - unfold client_at. cbn [clients set_clients]. now rewrite lookup_insert_eq.
  - unfold client_at. cbn [clients set_clients]. now rewrite lookup_insert_eq.
Qed.

(** C10.  [watch_order_book] with [limit=10] waits under
    ['orderBookL10:<marketId>'], with [limit=25] under
    ['orderBookL2_25:<marketId>'], and with no limit (and the level option as
    [describe] sets it, or absent) under ['orderBookL2:<marketId>'].
    [handle_message] dispatches order-book frames for the tables
    'orderBookL2', 'orderBookL2_25' and 'orderBook10' only;
    [handle_order_book] resolves waiters under ['<table>:<marketId>'] only,
    so whatever the frame, every waiter [handle_message] resolves is under
    such a key for one of these tables.  The key awaited for
    [limit=10] is none of those keys, while the keys awaited for [limit=25]
    and for no limit are. *)
Theorem order_book_l10_key_is_never_resolved :
  (forall ex symbol m,
     markets ex !! symbol = Some m ->
     (Bitmex.watch_order_book (Ok tt) symbol (Some 10) ex).1
       = Ok ("orderBookL10" +:+ ":" +:+ market_id m)
     /\ pending (client_at (ws_url ex)
                   (Bitmex.watch_order_book (Ok tt) symbol (Some 10) ex).2)
                ("orderBookL10" +:+ ":" +:+ market_id m) = true
     /\ (Bitmex.watch_order_book (Ok tt) symbol (Some 25) ex).1
       = Ok ("orderBookL2_25" +:+ ":" +:+ market_id m)
     /\ (or_default (safe_string (options ex) (KStr "watchOrderBookLevel")) "orderBookL2"
         = "orderBookL2" ->
         (Bitmex.watch_order_book (Ok tt) symbol None ex).1
         = Ok ("orderBookL2" +:+ ":" +:+ market_id m)))
  /\ dict_keys Bitmex.methods = ["orderBookL2"; "orderBookL2_25"; "orderBook10"]
  /\ (forall message table w,
        safe_string message (KStr "table") = Some table ->
        resolved_within (Bitmex.key_of_table table)
          (client w) (client (Bitmex.handle_order_book message w).2))
  /\ (forall message w,
        resolved_within Bitmex.order_book_key
          (client w) (client (Bitmex.handle_message message w).2))
  /\ (forall marketId, ~ Bitmex.order_book_key ("orderBookL10" +:+ ":" +:+ marketId))
  /\ (forall marketId,
        Bitmex.order_book_key ("orderBookL2_25" +:+ ":" +:+ marketId)
        /\ Bitmex.order_book_key ("orderBookL2" +:+ ":" +:+ marketId)).
Proof.
  split; [|split; [reflexivity|split; [|split; [|split]]]].
  - intros ex symbol m Hm. repeat split.
    + now apply (watch_order_book_key ex symbol m "orderBookL10" (Some 10)).
    + now apply (watch_order_book_pending ex symbol m "orderBookL10" (Some 10)).
    + now apply (watch_order_book_key ex symbol m "orderBookL2_25" (Some 25)).
    + intros Hopt. now apply (watch_order_book_key ex symbol m "orderBookL2" None).
  - intros message table w Ht. now apply handle_order_book_resolves.
  - intros message w. apply handle_message_resolves.
  - intros marketId (table & m' & Hin & Heq). simpl in Hin.
    destruct Hin as [<-|[<-|[<-|[]]]]; simpl in Heq; discriminate.
  - intros marketId. split.
    + exists "orderBookL2_25", marketId. simpl. tauto.
    + exists "orderBookL2", marketId. simpl. tauto.
Qed.

(** ** Runs on the frames of the sources *)

(** The scenario of section 8 of the spec, on the code: the book is synced
    at nonce 10 with bids [[100, 1]]; the delta
    [{buy: [{price: 100, amount: 0}], sell: [], updated_id: 11}] makes
    [handle_order_book] raise a TypeError, and the bid and the nonce stay. *)
Lemma delta_11_on_a_book_synced_at_10 :
  let w := put_book "BTC/USDC" Frames.book_10 Frames.ripio_buffering in
  let run := @Ripio.handle_order_book Codec.reference Frames.delta_11
               Frames.ripio_subscription w in
  run.1 = Raise (type_error "handle_deltas() takes 3 positional arguments but 4 were given")
  /\ orderbooks (self run.2) !! "BTC/USDC" = Some Frames.book_10
  /\ levels (ob_bids Frames.book_10) = [mkLevel (100 # 1) (1 # 1) None]
  /\ ob_nonce Frames.book_10 = Some 10
  /\ pending (client run.2) "orderbook_btc_usdc" = true.
Proof. cbv zeta. repeat split; vm_compute; reflexivity. Qed.

(** The snapshot quoted in [handle_order_book] of bitmex.py, as table
    'orderBookL2': the caller of [watch_order_book('BTC/USD')] is resolved
    with the book of its three asks. *)
Lemma partial_frame_resolves_the_l2_waiter :
  let run := Bitmex.handle_message (Frames.partial_frame "orderBookL2")
               Frames.bitmex_waiting in
  run.1 = Ok RetNone
  /\ pending (client Frames.bitmex_waiting) "orderBookL2:XBTUSD" = true
  /\ pending (client run.2) "orderBookL2:XBTUSD" = false
  /\ (exists ob,
        settled (client run.2) = [("orderBookL2:XBTUSD", Resolved (VBook ob))]
        /\ map level_id (levels (ob_asks ob))
           = [Some "8716991250"; Some "8700000200"; Some "8700000100"]
        /\ levels (ob_bids ob) = []).
Proof.
  cbv zeta. split; [vm_compute; reflexivity|]. split; [vm_compute; reflexivity|].
  split; [vm_compute; reflexivity|]. eexists. split; [vm_compute; reflexivity|].
  split; vm_compute; reflexivity.
Qed.

(** The same snapshot as table 'orderBook10', while a caller of
    [watch_order_book('BTC/USD', 10)] waits: the book is built, the caller
    still waits. *)
Lemma partial_frame_misses_the_l10_waiter :
  let run := Bitmex.handle_message (Frames.partial_frame "orderBook10")
               Frames.bitmex_waiting_10 in
  run.1 = Ok RetNone
  /\ pending (client Frames.bitmex_waiting_10) "orderBookL10:XBTUSD" = true
  /\ pending (client run.2) "orderBookL10:XBTUSD" = true
  /\ settled (client run.2) = []
  /\ (depth <$> (ob_asks <$> orderbooks (self run.2) !! "BTC/USD")) = Some (Some 10).
Proof. cbv zeta. repeat split; vm_compute; reflexivity. Qed.

(** The frames quoted in ripio.py decode to what their comments show. *)
Lemma quoted_frame_decodes :
  (safe_string Frames.delta_99740 (KStr "payload") ≫= fun payload =>
     match Codec.loads payload with
     | Ok data => Some (safe_integer data (KStr "updated_id"),
                        safe_value data (KStr "buy"))
     | Raise _ => None
     end)
  = Some (Some 99740,
          Some (PList [PDict [("amount", PStr "0.05000"); ("total", PStr "532.77");
                              ("price", PStr "10655.41")]]))
  /\ Codec.parse8601 (safe_string Frames.delta_99740 (KStr "publishTime"))
     = Some 1601487327851
  /\ Codec.iso8601 (Some 1601487327851) = Some "2020-09-30T17:35:27.851Z".
Proof. repeat split; vm_compute; reflexivity. Qed.

(* ===================================================================== *)
(** * Further properties of the two classes                               *)
(* ===================================================================== *)

(** ** What a handler leaves alone *)

#[export] Instance self_keeps_preorder {T} (f : Exchange -> T) : PreOrder (self_keeps f).
Proof.
  split.
  - intros w. reflexivity.
  - intros a b c H1 H2. unfold self_keeps in *. congruence.
Qed.

#[export] Instance client_keeps_preorder {T} (g : Client -> T) : PreOrder (client_keeps g).
Proof.
  split.
  - intros w. reflexivity.
  - intros a b c H1 H2. unfold client_keeps in *. congruence.
Qed.

Lemma self_keeps_on_self_modify {T} (f : Exchange -> T) (h : Exchange -> Exchange) :
  (forall ex, f (h ex) = f ex) -> keeps (self_keeps f) (on_self (modify h)).
Proof. intros H w. apply H. Qed.

Lemma self_keeps_on_client {T A} (f : Exchange -> T) (c : M Client A) :
  keeps (self_keeps f) (on_client c).
Proof. intros w. unfold on_client, zoom. now destruct (c (client w)). Qed.

Lemma self_keeps_on_orderbook {T A} (f : Exchange -> T) (symbol : string)
    (c : M OrderBook A) :
  (forall obs ex, f (set_orderbooks obs ex) = f ex) ->
  keeps (self_keeps f) (on_orderbook symbol c).
Proof.
  intros H w. unfold on_orderbook.
  destruct (orderbooks (self w) !! symbol) as [ob|]; [|reflexivity].
  destruct (c ob) as [r ob']. apply H.
Qed.

Lemma client_keeps_on_self {T A} (g : Client -> T) (c : M Exchange A) :
  keeps (client_keeps g) (on_self c).
Proof. intros w. unfold on_self, zoom. now destruct (c (self w)). Qed.

Lemma client_keeps_on_orderbook {T A} (g : Client -> T) (symbol : string)
    (c : M OrderBook A) :
  keeps (client_keeps g) (on_orderbook symbol c).
Proof.
  intros w. unfold on_orderbook.
  destruct (orderbooks (self w) !! symbol) as [ob|]; [|reflexivity].
  now destruct (c ob).
Qed.

Lemma client_keeps_on_client_modify {T} (g : Client -> T) (h : Client -> Client) :
  (forall cl, g (h cl) = g cl) -> keeps (client_keeps g) (on_client (modify h)).
Proof. intros H w. apply H. Qed.

Lemma url_resolve (v : Value) (key : option string) (c : Client) :
  url (resolve v key c) = url c.
Proof. destruct key; [apply settle_keeps|reflexivity]. Qed.

Lemma url_reject (e : Exn) (key : option string) (c : Client) :
  url (reject e key c) = url c.
Proof.
  assert (Hall : forall ks c0,
            url (fold_left (fun c' k => settle k (Rejected e) c') ks c0) = url c0).
  { induction ks as [|k ks IH]; intros c0; simpl; [reflexivity|].
    rewrite IH. apply settle_keeps. }
  destruct key as [[|a k]|]; simpl; try apply Hall. apply settle_keeps.
Qed.

#[export] Hint Extern 1 (keeps (self_keeps _) (on_self (modify _))) =>
  (apply self_keeps_on_self_modify; intros ?; reflexivity) : keeps.
#[export] Hint Extern 1 (keeps (self_keeps _) (on_client _)) =>
  (apply self_keeps_on_client) : keeps.
#[export] Hint Extern 1 (keeps (self_keeps _) (on_orderbook _ _)) =>
  (apply self_keeps_on_orderbook; intros ? ?; reflexivity) : keeps.
#[export] Hint Extern 1 (keeps (client_keeps _) (on_self _)) =>
  (apply client_keeps_on_self) : keeps.
#[export] Hint Extern 1 (keeps (client_keeps _) (on_orderbook _ _)) =>
  (apply client_keeps_on_orderbook) : keeps.
#[export] Hint Extern 1 (keeps (client_keeps url) (on_client (modify (resolve _ _)))) =>
  (apply client_keeps_on_client_modify; intros ?; apply url_resolve) : keeps.
#[export] Hint Extern 1 (keeps (client_keeps url) (on_client (modify (reject _ _)))) =>
  (apply client_keeps_on_client_modify; intros ?; apply url_reject) : keeps.

(** *** Order books that only buffer *)

Lemma only_buffered_refl (ob : OrderBook) : only_buffered ob ob.
Proof. split; [reflexivity|]. exists []. now rewrite app_nil_r. Qed.

Lemma only_buffered_trans (a b c : OrderBook) :
  only_buffered a b -> only_buffered b c -> only_buffered a c.
Proof.
  intros [H1 [m1 C1]] [H2 [m2 C2]]. split; [congruence|].
  exists (m1 ++ m2). now rewrite C2, C1, app_assoc.
Qed.

#[export] Instance books_only_buffer_preorder : PreOrder books_only_buffer.
Proof.
  split.
  - intros w symbol. destruct (orderbooks (self w) !! symbol); [apply only_buffered_refl|exact I].
  - intros a b c H1 H2 symbol. specialize (H1 symbol). specialize (H2 symbol).
    destruct (orderbooks (self a) !! symbol), (orderbooks (self b) !! symbol),
             (orderbooks (self c) !! symbol); try contradiction; try exact I.
    eapply only_buffered_trans; eassumption.
Qed.

Lemma buffer_on_self_modify (h : Exchange -> Exchange) :
  (forall ex, orderbooks (h ex) = orderbooks ex) ->
  keeps books_only_buffer (on_self (modify h)).
Proof.
  intros H w symbol. cbn. rewrite H.
  destruct (orderbooks (self w) !! symbol); [apply only_buffered_refl|exact I].
Qed.

Lemma buffer_on_client {A} (c : M Client A) : keeps books_only_buffer (on_client c).
Proof.
  intros w symbol. unfold on_client, zoom. destruct (c (client w)) as [r cl]. cbn.
  destruct (orderbooks (self w) !! symbol); [apply only_buffered_refl|exact I].
Qed.

Lemma buffer_on_orderbook {A} (symbol : string) (c : M OrderBook A) :
  (forall ob, only_buffered ob (c ob).2) ->
  keeps books_only_buffer (on_orderbook symbol c).
Proof.
  intros H w s. unfold on_orderbook.
  destruct (orderbooks (self w) !! symbol) as [ob|] eqn:Hb.
  - specialize (H ob). destruct (c ob) as [r ob']. cbn [snd] in H |- *.
    destruct (decide (symbol = s)) as [<-|Hne].
    + now rewrite Hb, lookup_put_book.
    + rewrite (lookup_put_book_ne _ _ _ _ Hne).
      destruct (orderbooks (self w) !! s); [apply only_buffered_refl|exact I].
  - cbn. destruct (orderbooks (self w) !! s); [apply only_buffered_refl|exact I].
Qed.

#[export] Hint Extern 1 (keeps books_only_buffer (on_self (modify _))) =>
  (apply buffer_on_self_modify; intros ?; reflexivity) : keeps.
#[export] Hint Extern 1 (keeps books_only_buffer (on_client _)) =>
  (apply buffer_on_client) : keeps.

Section RipioFrames.
Context {collab : Ripio.Collaborators}.

Lemma handle_order_book_buffers (message subscription : PyVal) :
  keeps books_only_buffer (Ripio.handle_order_book message subscription).
Proof.
  unfold Ripio.handle_order_book. repeat keeps_step.
  - apply buffer_on_orderbook. intros ob.
    rewrite handle_order_book_message_book. apply only_buffered_refl.
  - apply buffer_on_orderbook. intros ob. apply only_buffered_refl.
  - apply buffer_on_orderbook. intros ob. split; [reflexivity|]. now eexists.
Qed.

Lemma handle_message_buffers (message : PyVal) :
  keeps books_only_buffer (Ripio.handle_message message).
Proof.
  unfold Ripio.handle_message. repeat keeps_step.
  unfold Ripio.call_method. destruct m.
  - unfold Ripio.handle_trade. repeat keeps_step.
  - unfold Ripio.handle_ticker. repeat keeps_step.
  - apply handle_order_book_buffers.
Qed.

Lemma receive_all_keeps {R : World -> World -> Prop} `{!PreOrder R}
    (messages : list PyVal) (w : World) :
  (forall message, keeps R (Ripio.handle_message message)) ->
  R w (Ripio.receive_all messages w).
Proof.
  intros H. revert w. induction messages as [|m ms IH]; intros w; simpl; [reflexivity|].
  etransitivity; [apply (H m)|apply IH].
Qed.

(** X1.  However many frames arrive, and whatever they hold, handing them
    to [handle_message] creates and drops no order book and changes no
    price level, nonce, timestamp or symbol of one: a book that was there
    is there afterwards with the same bids, asks, nonce, timestamp and
    datetime, and its buffer is the old one with frames appended. *)
Theorem frames_never_change_price_levels (messages : list PyVal) (w : World) :
  let w' := Ripio.receive_all messages w in
  forall symbol,
    match orderbooks (self w) !! symbol with
    | Some ob =>
        exists ob',
          orderbooks (self w') !! symbol = Some ob'
          /\ ob_bids ob' = ob_bids ob /\ ob_asks ob' = ob_asks ob
          /\ ob_nonce ob' = ob_nonce ob
          /\ ob_timestamp ob' = ob_timestamp ob /\ ob_datetime ob' = ob_datetime ob
          /\ exists more, ob_cache ob' = ob_cache ob ++ more
    | None => orderbooks (self w') !! symbol = None
    end.
Proof.
  intros w' symbol.
  pose proof (receive_all_keeps messages w handle_message_buffers symbol) as H.
  fold w' in H.
  destruct (orderbooks (self w) !! symbol) as [ob|],
           (orderbooks (self w') !! symbol) as [ob'|]; try contradiction; [|reflexivity].
  destruct H as [Hsame Hcache]. exists ob'. split; [reflexivity|].
  destruct ob, ob'. injection Hsame as -> -> -> -> -> ->. now repeat split.
Qed.

End RipioFrames.

(** ** Ripio: after a failed fetch *)

Lemma settled_future (key : string) (cl : Client) : settled (future key cl) = settled cl.
Proof. unfold future. now destruct (pending cl key). Qed.

Lemma pending_future_mono (key k : string) (cl : Client) :
  pending cl k = true -> pending (future key cl) k = true.
Proof.
  intros H. unfold future. destruct (pending cl key); [exact H|].
  unfold pending in *. cbn [futures]. rewrite existsb_app. now rewrite H.
Qed.

Lemma client_at_open (u : string) (ex : Exchange) (cl : Client) :
  clients ex !! u = Some cl -> client_at u ex = cl.
Proof. intros H. unfold client_at. now rewrite H. Qed.

Lemma with_client_open {A} (u : string) (c : M World A) (ex : Exchange) (cl : Client) :
  clients ex !! u = Some cl ->
  Ripio.with_open_client u c ex
  = set_clients (<[u := client (c (mkWorld ex cl)).2]> (clients (self (c (mkWorld ex cl)).2)))
                (self (c (mkWorld ex cl)).2).
Proof.
  intros H. unfold Ripio.with_open_client, with_client. rewrite H.
  change (default (new_client u) (Some cl)) with cl.
  now destruct (c (mkWorld ex cl)).
Qed.

(** A handler that leaves the subscriptions alone, run on a connection. *)
Lemma with_open_client_subscriptions {A} (u0 : string) (c : M World A) (ex : Exchange) :
  keeps same_subscriptions c ->
  delayed (Ripio.with_open_client u0 c ex) = delayed ex
  /\ forall u, subscriptions (client_at u (Ripio.with_open_client u0 c ex))
               = subscriptions (client_at u ex).
Proof.
  intros Hc. destruct (clients ex !! u0) as [cl|] eqn:Hcl.
  - rewrite (with_client_open _ _ _ _ Hcl).
    destruct (Hc (mkWorld ex cl)) as (Hd & Hcs & Hsub). cbn [self client] in Hd, Hcs, Hsub.
    split; [exact Hd|]. intros u. rewrite Hcs, client_at_insert.
    destruct (decide (u0 = u)) as [<-|_]; [|reflexivity].
    now rewrite Hsub, (client_at_open _ _ _ Hcl).
  - unfold Ripio.with_open_client. rewrite Hcl. now split.
Qed.

Section RipioNoRetry.
Context {collab : Ripio.Collaborators}.

(** Once a key is subscribed on a connection it stays so, and no event
    schedules another fetch for it. *)
Lemma run_event_scheduled (ex : Exchange) (ev : Ripio.Event) (u key : string) :
  dict_mem (subscriptions (client_at u ex)) key = true ->
  dict_mem (subscriptions (client_at u (Ripio.run_event ex ev))) key = true
  /\ Ripio.scheduled (Ripio.run_event ex ev) u key = Ripio.scheduled ex u key.
Proof.
  intros Hmem. destruct ev as [loaded symbol|u0 message|u0 sub fetched|u0 messageId];
    cbn [Ripio.run_event].
  - destruct (watch_order_book_cases loaded symbol ex) as [->|(m & u0 & -> & Hm & Hu)];
      [now split|].
    rewrite (watch_order_book_run _ _ _ _ Hm Hu). cbn [snd].
    set (key0 := Ripio.order_book_message_hash m).
    set (sub0 := Ripio.order_book_subscription m).
    destruct (dict_mem (subscriptions (client_at u0 ex)) key0) eqn:Hmem0.
    + split.
      * rewrite client_at_insert. destruct (decide (u0 = u)) as [<-|_]; [|exact Hmem].
        now rewrite subscriptions_future.
      * now apply scheduled_same.
    + split.
      * rewrite client_at_insert. destruct (decide (u0 = u)) as [<-|_]; [|exact Hmem].
        rewrite subscriptions_future. cbn [subscriptions set_subscriptions].
        rewrite dict_mem_dict_set, Hmem. apply orb_true_r.
      * erewrite scheduled_app by reflexivity. cbn [List.filter dc_client dc_subscription].
        destruct (String.eqb u0 u) eqn:E; cbn [andb length]; [|lia].
        apply String.eqb_eq in E. subst u0.
        case_bool_decide as Hk; cbn [length]; [|lia].
        assert (Hkey : safe_string sub0 (KStr "messageHash") = Some key0) by reflexivity.
        rewrite Hkey in Hk. injection Hk as <-. congruence.
  - destruct (with_open_client_subscriptions u0 _ ex (handle_message_same message))
      as [Hd Hs].
    split; [now rewrite Hs|now apply scheduled_same].
  - destruct (with_open_client_subscriptions u0 _ ex
                (fetch_order_book_snapshot_same fetched sub)) as [Hd Hs].
    split; [now rewrite Hs|now apply scheduled_same].
  - destruct (with_open_client_subscriptions u0 _ ex (ack_same messageId)) as [Hd Hs].
    split; [now rewrite Hs|now apply scheduled_same].
Qed.

Lemma run_scheduled (events : list Ripio.Event) (ex : Exchange) (u key : string) :
  dict_mem (subscriptions (client_at u ex)) key = true ->
  Ripio.scheduled (Ripio.run events ex) u key = Ripio.scheduled ex u key.
Proof.
  revert ex. induction events as [|ev events IH]; intros ex Hmem; [reflexivity|].
  cbn [Ripio.run fold_left]. destruct (run_event_scheduled ex ev u key Hmem) as [Hmem' Hs].
  fold (Ripio.run events (Ripio.run_event ex ev)). now rewrite (IH _ Hmem').
Qed.

Variables (u key symbol : string) (subscription : PyVal).
Hypothesis Hmethod :
  safe_value subscription (KStr "method") = Some (PMethod handle_order_book_method).
Hypothesis Hsymbol : safe_string subscription (KStr "symbol") = Some symbol.

(** A frame for a book that waits for its snapshot leaves the client
    alone. *)
Lemma frame_while_buffering (message : PyVal) (w : World) (others : pydict PyVal) :
  subscriptions (client w) = (key, subscription) :: others ->
  Ripio.buffering (self w) symbol ->
  client (Ripio.handle_message message w).2 = client w.
Proof.
  intros Hsubs (ob & Hb & Hn). rewrite handle_message_run. cbv zeta. rewrite Hsubs.
  assert (Hfb : Ripio.fallback ((key, subscription) :: others) = subscription).
  { destruct subscription; try reflexivity. discriminate Hmethod. }
  rewrite Hfb, Hmethod. cbn [Ripio.call_method].
  assert (Hbook : Ripio.book_of subscription (Ripio.acknowledged message w)
                  = Some (symbol, ob)).
  { apply book_of_some; [exact Hsymbol|].
    unfold Ripio.acknowledged. now destruct (safe_string message (KStr "messageId")). }
  rewrite (handle_order_book_buffering _ _ _ _ _ Hbook Hn). cbn [snd put_book client].
  unfold Ripio.acknowledged. now destruct (safe_string message (KStr "messageId")).
Qed.

(** One event that is not the answer to a fetch: the subscription stays
    first on its connection, the book keeps waiting, and no waiter of the
    connection is completed. *)
Lemma run_event_waiting (ex : Exchange) (ev : Ripio.Event) :
  match ev with Ripio.Fetched _ _ _ => False | _ => True end ->
  Ripio.first_subscription ex u key subscription ->
  Ripio.buffering ex symbol ->
  Ripio.first_subscription (Ripio.run_event ex ev) u key subscription
  /\ Ripio.buffering (Ripio.run_event ex ev) symbol
  /\ settled (client_at u (Ripio.run_event ex ev)) = settled (client_at u ex)
  /\ forall k, pending (client_at u ex) k = true ->
               pending (client_at u (Ripio.run_event ex ev)) k = true.
Proof.
  intros Hev (cl & others & Hcl & Hsubs) (ob & Hb & Hn).
  pose proof (client_at_open _ _ _ Hcl) as Hat.
  destruct ev as [loaded symbol0|u0 message|u0 sub fetched|u0 messageId];
    cbn [Ripio.run_event]; [| | contradiction |].
  - destruct (watch_order_book_cases loaded symbol0 ex) as [->|(m & u0 & -> & Hm & Hu)].
    { split; [now exists cl, others|]. split; [now exists ob|]. now split. }
    rewrite (watch_order_book_run _ _ _ _ Hm Hu). cbn [snd].
    set (key0 := Ripio.order_book_message_hash m).
    set (sub0 := Ripio.order_book_subscription m).
    destruct (dict_mem (subscriptions (client_at u0 ex)) key0) eqn:Hmem0.
    + split; [|split; [now exists ob|]].
      * destruct (decide (u0 = u)) as [->|Hne].
        -- exists (future key0 cl), others. cbn [clients set_clients].
           rewrite lookup_insert_eq, Hat. split; [reflexivity|].
           now rewrite subscriptions_future.
        -- exists cl, others. cbn [clients set_clients].
           now rewrite lookup_insert_ne.
      * rewrite client_at_insert. destruct (decide (u0 = u)) as [->|_]; [|now split].
        split; [apply settled_future|]. intros k. apply pending_future_mono.
    + split; [|split].
      * destruct (decide (u0 = u)) as [->|Hne].
        -- rewrite Hat, Hsubs in Hmem0.
           assert (Hk : String.eqb key key0 = false).
           { unfold dict_mem in Hmem0. cbn [dict_get] in Hmem0.
             now destruct (String.eqb key key0). }
           eexists _, _. cbn [clients set_clients set_delayed set_orderbooks].
           rewrite lookup_insert_eq. split; [reflexivity|].
           rewrite subscriptions_future, Hat. cbn [subscriptions set_subscriptions].
           rewrite Hsubs. cbn [dict_set]. now rewrite Hk.
        -- exists cl, others. cbn [clients set_clients set_delayed set_orderbooks].
           now rewrite lookup_insert_ne.
      * unfold Ripio.buffering. cbn [orderbooks set_clients set_delayed set_orderbooks].
        destruct (decide (market_symbol m = symbol)) as [Heq|Hne].
        -- exists (order_book None). now rewrite Heq, lookup_insert_eq.
        -- exists ob. now rewrite lookup_insert_ne.
      * rewrite client_at_insert. destruct (decide (u0 = u)) as [->|_].
        -- split; [now rewrite settled_future|].
           intros k Hk. now apply pending_future_mono.
        -- unfold client_at. cbn [clients set_delayed set_orderbooks]. now split.
  - destruct (clients ex !! u0) as [cl0|] eqn:Hcl0.
    + rewrite (with_client_open _ _ _ _ Hcl0).
      set (w1 := (Ripio.handle_message message (mkWorld ex cl0)).2).
      destruct (handle_message_same message (mkWorld ex cl0)) as (_ & Hcs & Hsub).
      pose proof (handle_message_buffers message (mkWorld ex cl0) symbol) as Hbuf.
      fold w1 in Hcs, Hsub, Hbuf. cbn [self client] in Hcs, Hsub, Hbuf. rewrite Hb in Hbuf.
      split; [|split].
      * destruct (decide (u0 = u)) as [->|Hne].
        -- exists (client w1), others. cbn [clients set_clients].
           rewrite lookup_insert_eq. split; [reflexivity|].
           rewrite Hsub. rewrite Hcl in Hcl0. now injection Hcl0 as <-.
        -- exists cl, others. cbn [clients set_clients].
           now rewrite lookup_insert_ne, Hcs.
      * unfold Ripio.buffering. cbn [orderbooks set_clients].
        destruct (orderbooks (self w1) !! symbol) as [ob'|]; [|contradiction].
        exists ob'. split; [reflexivity|]. destruct Hbuf as [Hsame _].
        apply (f_equal ob_nonce) in Hsame. cbn [ob_nonce set_cache] in Hsame. congruence.
      * rewrite client_at_insert. destruct (decide (u0 = u)) as [->|_].
        -- rewrite Hcl in Hcl0. injection Hcl0 as <-.
           assert (Hw1 : client w1 = cl).
           { subst w1. apply (frame_while_buffering message (mkWorld ex cl) others Hsubs).
             now exists ob. }
           rewrite Hw1, Hat. now split.
        -- unfold client_at. rewrite Hcs. now split.
    + unfold Ripio.with_open_client. rewrite Hcl0.
      split; [now exists cl, others|]. split; [now exists ob|]. now split.
  - destruct (clients ex !! u0) as [cl0|] eqn:Hcl0.
    + rewrite (with_client_open _ _ _ _ Hcl0). cbn.
      split; [|split].
      * destruct (decide (u0 = u)) as [->|Hne].
        -- eexists _, others. cbn [clients set_clients].
           rewrite lookup_insert_eq. split; [reflexivity|].
           cbn. rewrite Hcl in Hcl0. now injection Hcl0 as <-.
        -- exists cl, others. cbn [clients set_clients]. now rewrite lookup_insert_ne.
      * now exists ob.
      * rewrite client_at_insert. destruct (decide (u0 = u)) as [->|_]; [|now split].
        rewrite Hcl in Hcl0. injection Hcl0 as <-. rewrite Hat. now split.
    + unfold Ripio.with_open_client. rewrite Hcl0.
      split; [now exists cl, others|]. split; [now exists ob|]. now split.
Qed.

Lemma run_waiting (events : list Ripio.Event) (ex : Exchange) :
  Ripio.no_fetch_answered events ->
  Ripio.first_subscription ex u key subscription ->
  Ripio.buffering ex symbol ->
  Ripio.first_subscription (Ripio.run events ex) u key subscription
  /\ Ripio.buffering (Ripio.run events ex) symbol
  /\ settled (client_at u (Ripio.run events ex)) = settled (client_at u ex)
  /\ forall k, pending (client_at u ex) k = true ->
               pending (client_at u (Ripio.run events ex)) k = true.
Proof.
  intros Hall. revert ex. induction Hall as [|ev events Hev _ IH]; intros ex Hf Hb.
  - now repeat split.
  - destruct (run_event_waiting ex ev Hev Hf Hb) as (Hf1 & Hb1 & Hs1 & Hp1).
    destruct (IH _ Hf1 Hb1) as (Hf2 & Hb2 & Hs2 & Hp2).
    change (Ripio.run (ev :: events) ex) with (Ripio.run events (Ripio.run_event ex ev)).
    split; [exact Hf2|]. split; [exact Hb2|]. split; [congruence|].
    intros k Hk. apply Hp2, Hp1, Hk.
Qed.

End RipioNoRetry.

Section RipioFailedFetch.
Context {collab : Ripio.Collaborators}.

(** C5, as amended.  If the snapshot fetch raises [e],
    [fetch_order_book_snapshot] returns normally; it rejects the waiter
    pending under the subscription's routing key with exactly [e] and
    touches no other waiter; [self] (the order-book entry with its buffer
    included), the client's subscriptions and what it sent are as before, so
    the connection stays up.  Nothing retries the fetch.  On the connection
    that holds the subscription, whatever happens next schedules no further
    fetch for the routing key, because the key is still subscribed; and as
    long as no answer to a fetch arrives, the book of the symbol keeps its
    nonce unset, no waiter of the connection is resolved or rejected, and a
    caller that waits on the connection at some point is still waiting at
    every later point. *)
Theorem failed_fetch_is_rejected_and_not_retried
    (e : Exn) (subscription : PyVal) (w : World) (key : string) :
  safe_string subscription (KStr "messageHash") = Some key ->
  key <> "" ->
  let w' := (Ripio.fetch_order_book_snapshot (Raise e) subscription w).2 in
  Ripio.fetch_order_book_snapshot (Raise e) subscription w = (Ok tt, w')
  /\ self w' = self w
  /\ subscriptions (client w') = subscriptions (client w)
  /\ sent (client w') = sent (client w)
  /\ (pending (client w) key = true ->
      settled (client w') = settled (client w) ++ [(key, Rejected e)]
      /\ pending (client w') key = false)
  /\ (pending (client w) key = false -> client w' = client w)
  /\ (forall other, other <> key ->
      pending (client w') other = pending (client w) other)
  /\ (forall u symbol,
      clients (self w) !! u = Some (client w) ->
      (exists others, subscriptions (client w) = (key, subscription) :: others) ->
      safe_value subscription (KStr "method") = Some (PMethod handle_order_book_method) ->
      safe_string subscription (KStr "symbol") = Some symbol ->
      Ripio.buffering (self w) symbol ->
      let failed := Ripio.run_event (self w) (Ripio.Fetched u subscription (Raise e)) in
      client_at u failed = client w'
      /\ (forall later,
            Ripio.scheduled (Ripio.run later failed) u key
            = Ripio.scheduled (self w) u key)
      /\ (forall later,
            Ripio.no_fetch_answered later ->
            Ripio.buffering (Ripio.run later failed) symbol
            /\ settled (client_at u (Ripio.run later failed)) = settled (client w'))
      /\ (forall before after k,
            Ripio.no_fetch_answered (before ++ after) ->
            pending (client_at u (Ripio.run before failed)) k = true ->
            pending (client_at u (Ripio.run (before ++ after) failed)) k = true)).
Proof.
  intros Hk Hne w'.
  assert (Hrun : Ripio.fetch_order_book_snapshot (Raise e) subscription w
                 = (Ok tt, mkWorld (self w) (settle key (Rejected e) (client w)))).
  { now rewrite fetch_failed, Hk, (reject_keyed _ _ _ Hne). }
  subst w'. rewrite Hrun. cbn [snd self client].
  destruct (settle_keeps key (Rejected e) (client w)) as (Hsub & Hsent & _).
  split; [reflexivity|]. split; [reflexivity|]. split; [exact Hsub|].
  split; [exact Hsent|]. split; [now apply settle_pending|].
  split; [now apply settle_not_pending|].
  split; [intros other Ho; now apply settle_other|].
  intros u symbol Hcl (others & Hsubs) Hmethod Hsymbol Hbuf.
  set (failed := Ripio.run_event (self w) (Ripio.Fetched u subscription (Raise e))).
  assert (Hfailed : failed
                    = set_clients (<[u := settle key (Rejected e) (client w)]>
                                     (clients (self w))) (self w)).
  { subst failed. cbn [Ripio.run_event]. rewrite (with_client_open _ _ _ _ Hcl).
    destruct w as [ex cl]. cbn [self client] in *. now rewrite Hrun. }
  assert (Hat : client_at u failed = settle key (Rejected e) (client w)).
  { rewrite Hfailed, client_at_insert. now destruct (decide (u = u)). }
  assert (Hfirst : Ripio.first_subscription failed u key subscription).
  { exists (settle key (Rejected e) (client w)), others. rewrite Hfailed.
    cbn [clients set_clients]. rewrite lookup_insert_eq. split; [reflexivity|].
    now rewrite Hsub. }
  assert (Hbuf' : Ripio.buffering failed symbol) by (now rewrite Hfailed).
  assert (Hmem : dict_mem (subscriptions (client_at u failed)) key = true).
  { rewrite Hat, Hsub, Hsubs. unfold dict_mem. cbn [dict_get].
    now rewrite String.eqb_refl. }
  split; [exact Hat|]. split; [|split].
  - intros later. rewrite (run_scheduled later failed u key Hmem).
    apply scheduled_same. now rewrite Hfailed.
  - intros later Hlater.
    destruct (run_waiting u key symbol subscription Hmethod Hsymbol later failed
                Hlater Hfirst Hbuf') as (_ & Hb & Hs & _).
    split; [exact Hb|]. now rewrite Hs, Hat.
  - intros before after k Hall Hp.
    apply Forall_app in Hall. destruct Hall as [Hbefore Hafter].
    destruct (run_waiting u key symbol subscription Hmethod Hsymbol before failed
                Hbefore Hfirst Hbuf') as (Hf1 & Hb1 & _ & _).
    destruct (run_waiting u key symbol subscription Hmethod Hsymbol after _
                Hafter Hf1 Hb1) as (_ & _ & _ & Hp2).
    unfold Ripio.run. rewrite fold_left_app. apply Hp2, Hp.
Qed.

End RipioFailedFetch.

Lemma failed_fetch_is_rejected_and_not_retried_witness :
  let failure := mkExn NetworkError (PStr "ripio GET orderbook timed out") in
  let w := Frames.ripio_buffered in
  let failed := @Ripio.run_event Codec.reference (self w)
                  (Ripio.Fetched Frames.ripio_url Frames.ripio_subscription
                     (Raise failure)) in
  safe_string Frames.ripio_subscription (KStr "messageHash") = Some "orderbook_btc_usdc"
  /\ "orderbook_btc_usdc" <> ""
  /\ settled (client_at Frames.ripio_url failed)
     = [("orderbook_btc_usdc", Rejected failure)]
  /\ forall later,
       Ripio.no_fetch_answered later ->
       Ripio.buffering (@Ripio.run Codec.reference later failed) "BTC/USDC"
       /\ settled (client_at Frames.ripio_url (@Ripio.run Codec.reference later failed))
          = [("orderbook_btc_usdc", Rejected failure)].
Proof.
  cbv zeta.
  assert (Hk : safe_string Frames.ripio_subscription (KStr "messageHash")
               = Some "orderbook_btc_usdc") by reflexivity.
  assert (Hne : "orderbook_btc_usdc" <> "") by discriminate.
  assert (Hcl : clients (self Frames.ripio_buffered) !! Frames.ripio_url
                = Some (client Frames.ripio_buffered)) by (vm_compute; reflexivity).
  assert (Hsubs : exists others,
            subscriptions (client Frames.ripio_buffered)
            = ("orderbook_btc_usdc", Frames.ripio_subscription) :: others)
    by (exists []; vm_compute; reflexivity).
  assert (Hmethod : safe_value Frames.ripio_subscription (KStr "method")
                    = Some (PMethod handle_order_book_method)) by reflexivity.
  assert (Hsymbol : safe_string Frames.ripio_subscription (KStr "symbol")
                    = Some "BTC/USDC") by reflexivity.
  assert (Hbuf : Ripio.buffering (self Frames.ripio_buffered) "BTC/USDC").
  { eexists. split; [vm_compute; reflexivity|reflexivity]. }
  pose proof (proj2 (proj2 (proj2 (proj2 (proj2 (proj2 (proj2
                (@failed_fetch_is_rejected_and_not_retried Codec.reference
                   (mkExn NetworkError (PStr "ripio GET orderbook timed out"))
                   Frames.ripio_subscription Frames.ripio_buffered
                   "orderbook_btc_usdc" Hk Hne)))))))
                Frames.ripio_url "BTC/USDC" Hcl Hsubs Hmethod Hsymbol Hbuf) as H.
  cbv zeta in H. destruct H as (Hat & _ & Hwait & _).
  assert (Hsettled :
            settled (client (@Ripio.fetch_order_book_snapshot Codec.reference
                               (Raise (mkExn NetworkError
                                         (PStr "ripio GET orderbook timed out")))
                               Frames.ripio_subscription Frames.ripio_buffered).2)
            = [("orderbook_btc_usdc",
                Rejected (mkExn NetworkError (PStr "ripio GET orderbook timed out")))])
    by (vm_compute; reflexivity).
  split; [exact Hk|]. split; [exact Hne|]. split; [now rewrite Hat|].
  intros later Hlater. destruct (Hwait later Hlater) as [Hb Hs].
  split; [exact Hb|]. now rewrite Hs.
Defined.

(** C5 as stated fails: the state machine is not retryable.  The first
    [watch_order_book] schedules the fetch, a frame is buffered, the fetch
    fails and the waiter is rejected.  The caller asks again, twice, while
    frames keep arriving: no second fetch is scheduled (the one entry of
    [delayed] is the fetch that failed), the book's nonce is still unset,
    the three frames sit in its buffer, and the caller is left waiting. *)
Lemma failed_fetch_is_never_retried :
  let failure := mkExn NetworkError (PStr "ripio GET orderbook timed out") in
  let ex := @Ripio.run Codec.reference
              [Ripio.Watch (Ok tt) "BTC/USDC";
               Ripio.Frame Frames.ripio_url Frames.delta_99739;
               Ripio.Fetched Frames.ripio_url Frames.ripio_subscription (Raise failure);
               Ripio.Watch (Ok tt) "BTC/USDC";
               Ripio.Frame Frames.ripio_url Frames.delta_99740;
               Ripio.Watch (Ok tt) "BTC/USDC";
               Ripio.Frame Frames.ripio_url Frames.delta_11]
              Frames.ripio_fresh in
  delayed ex = [mkDelayed 50 Frames.ripio_url Frames.ripio_subscription]
  /\ Ripio.scheduled ex Frames.ripio_url "orderbook_btc_usdc" = 1%nat
  /\ ob_nonce <$> orderbooks ex !! "BTC/USDC" = Some None
  /\ ob_cache <$> orderbooks ex !! "BTC/USDC"
     = Some [Frames.delta_99739; Frames.delta_99740; Frames.delta_11]
  /\ settled (client_at Frames.ripio_url ex) = [("orderbook_btc_usdc", Rejected failure)]
  /\ pending (client_at Frames.ripio_url ex) "orderbook_btc_usdc" = true.
Proof. cbv zeta. repeat split; vm_compute; reflexivity. Qed.

(** ** Ripio: acknowledgments *)

Lemma sent_resolve (v : Value) (key : option string) (c : Client) :
  sent (resolve v key c) = sent c.
Proof. destruct key; [apply settle_keeps|reflexivity]. Qed.

#[export] Hint Extern 1 (keeps (client_keeps sent) (on_client (modify (resolve _ _)))) =>
  (apply client_keeps_on_client_modify; intros ?; apply sent_resolve) : keeps.

Section RipioAcknowledgments.
Context {collab : Ripio.Collaborators}.

Lemma call_method_keeps_self {T} (f : Exchange -> T) (method : Method)
    (message subscription : PyVal) :
  (forall x ex, f (set_orderbooks x ex) = f ex) ->
  (forall x ex, f (set_trades x ex) = f ex) ->
  (forall x ex, f (set_tickers x ex) = f ex) ->
  keeps (self_keeps f) (Ripio.call_method method message subscription).
Proof.
  intros Hb Ht Hk. destruct method; simpl.
  - unfold Ripio.handle_trade. repeat keeps_step.
    apply self_keeps_on_self_modify. intros ?. apply Ht.
  - unfold Ripio.handle_ticker. repeat keeps_step;
      apply self_keeps_on_self_modify; intros ?; apply Hk.
  - unfold Ripio.handle_order_book. repeat keeps_step;
      apply self_keeps_on_orderbook; intros ? ?; apply Hb.
Qed.

Lemma call_method_keeps_url (method : Method) (message subscription : PyVal) :
  keeps (client_keeps url) (Ripio.call_method method message subscription).
Proof.
  destruct method; simpl.
  - unfold Ripio.handle_trade. repeat keeps_step.
  - unfold Ripio.handle_ticker. repeat keeps_step.
  - unfold Ripio.handle_order_book. repeat keeps_step.
Qed.

Lemma call_method_keeps_sent (method : Method) (message subscription : PyVal) :
  keeps (client_keeps sent) (Ripio.call_method method message subscription).
Proof.
  destruct method; simpl.
  - unfold Ripio.handle_trade. repeat keeps_step.
  - unfold Ripio.handle_ticker. repeat keeps_step.
  - unfold Ripio.handle_order_book. repeat keeps_step.
Qed.

(** One frame: the acknowledgment is spawned before the frame is routed,
    and no handler touches the spawned tasks, the url or what was sent. *)
Lemma handle_message_spawns (message : PyVal) (w : World) :
  let w' := (Ripio.handle_message message w).2 in
  spawned (self w') = spawned (self w) ++ Ripio.acks_of (url (client w)) [message]
  /\ url (client w') = url (client w)
  /\ sent (client w') = sent (client w).
Proof.
  intros w'. subst w'. rewrite handle_message_run. cbv zeta.
  set (w1 := Ripio.acknowledged message w).
  assert (H1 : spawned (self w1)
               = spawned (self w) ++ Ripio.acks_of (url (client w)) [message]
               /\ url (client w1) = url (client w) /\ sent (client w1) = sent (client w)).
  { subst w1. unfold Ripio.acknowledged, Ripio.acks_of. simpl.
    destruct (safe_string message (KStr "messageId")); simpl;
      rewrite ?app_nil_r; now repeat split. }
  destruct H1 as (Hs & Hu & Hn).
  destruct (safe_value _ (KStr "method")) as [v|]; [|cbn [snd]; now repeat split].
  destruct v; cbn [snd]; try now repeat split.
  pose proof (call_method_keeps_self spawned m message
                (Ripio.fallback (subscriptions (client w)))
                (fun _ _ => eq_refl) (fun _ _ => eq_refl) (fun _ _ => eq_refl) w1) as K1.
  pose proof (call_method_keeps_url m message
                (Ripio.fallback (subscriptions (client w))) w1) as K2.
  pose proof (call_method_keeps_sent m message
                (Ripio.fallback (subscriptions (client w))) w1) as K3.
  unfold self_keeps, client_keeps in K1, K2, K3.
  rewrite K1, K2, K3. now repeat split.
Qed.

(** X2.  Handing frames to [handle_message] spawns exactly one
    acknowledgment per frame that carries a [messageId], in arrival order and
    for the connection the frames came in on, whether the frame's handler
    returns or raises; a frame without [messageId] is not acknowledged; and
    [handle_message] itself writes nothing to the transport. *)
Theorem every_frame_is_acknowledged_once (messages : list PyVal) (w : World) :
  let w' := Ripio.receive_all messages w in
  spawned (self w') = spawned (self w) ++ Ripio.acks_of (url (client w)) messages
  /\ sent (client w') = sent (client w).
Proof.
  cbv zeta. revert w. induction messages as [|m ms IH]; intros w.
  - simpl. now rewrite app_nil_r.
  - change (Ripio.receive_all (m :: ms) w)
      with (Ripio.receive_all ms (Ripio.handle_message m w).2).
    destruct (handle_message_spawns m w) as (Hs & Hu & Hn).
    destruct (IH (Ripio.handle_message m w).2) as [IHs IHn].
    rewrite IHs, IHn, Hs, Hu, Hn. split; [|reflexivity].
    rewrite <- app_assoc. f_equal.
    unfold Ripio.acks_of. simpl. now rewrite app_nil_r.
Qed.

End RipioAcknowledgments.

(** ** Ripio: the snapshot task and its waiter *)

Section RipioSnapshotTask.
Context {collab : Ripio.Collaborators}.

(** X3.  Whatever the fetch came back with, [fetch_order_book_snapshot]
    returns normally, and the waiter pending under the subscription's
    routing key is completed by it, resolved or rejected: it is no longer
    pending, exactly one outcome was recorded, under that key, and no other
    waiter was touched. *)
Theorem snapshot_task_settles_the_waiter
    (fetched : Res Snapshot) (subscription : PyVal) (w : World) (key : string) :
  safe_string subscription (KStr "messageHash") = Some key ->
  key <> "" ->
  pending (client w) key = true ->
  let run := Ripio.fetch_order_book_snapshot fetched subscription w in
  run.1 = Ok tt
  /\ pending (client run.2) key = false
  /\ (exists outcome, settled (client run.2) = settled (client w) ++ [(key, outcome)])
  /\ (forall other, other <> key ->
        pending (client run.2) other = pending (client w) other).
Proof.
  intros Hk Hne Hp run.
  assert (Hrun : exists outcome ex,
            run = (Ok tt, mkWorld ex (settle key outcome (client w)))).
  { subst run. destruct fetched as [snapshot|e].
    - destruct (Ripio.book_of subscription w) as [[symbol ob]|] eqn:Hb.
      + rewrite (fetch_with_book _ _ _ _ _ Hb). cbv zeta. rewrite Hk.
        destruct (Ripio.first_raise _ _) as [e|].
        * rewrite (reject_keyed _ _ _ Hne). now eexists _, _.
        * now eexists _, _.
      + rewrite (fetch_without_book _ _ _ Hb), Hk, (reject_keyed _ _ _ Hne).
        now eexists _, _.
    - rewrite fetch_failed, Hk, (reject_keyed _ _ _ Hne). now eexists _, _. }
  destruct Hrun as (outcome & ex & ->). cbn [fst snd client].
  destruct (settle_pending key outcome (client w) Hp) as [Hs Hq].
  split; [reflexivity|]. split; [exact Hq|]. split; [now exists outcome|].
  intros other Ho. now apply settle_other.
Qed.

End RipioSnapshotTask.

Lemma snapshot_task_settles_the_waiter_witness :
  safe_string Frames.ripio_subscription (KStr "messageHash") = Some "orderbook_btc_usdc"
  /\ "orderbook_btc_usdc" <> ""
  /\ pending (client Frames.ripio_buffered_garbled) "orderbook_btc_usdc" = true
  /\ pending
       (client (@Ripio.fetch_order_book_snapshot Codec.reference (Ok Frames.snapshot_99740)
                  Frames.ripio_subscription Frames.ripio_buffered_garbled).2)
       "orderbook_btc_usdc" = false.
Proof.
  assert (Hk : safe_string Frames.ripio_subscription (KStr "messageHash")
               = Some "orderbook_btc_usdc") by reflexivity.
  assert (Hne : "orderbook_btc_usdc" <> "") by discriminate.
  assert (Hp : pending (client Frames.ripio_buffered_garbled) "orderbook_btc_usdc" = true)
    by (vm_compute; reflexivity).
  split; [exact Hk|]. split; [exact Hne|]. split; [exact Hp|].
  exact (proj1 (proj2 (@snapshot_task_settles_the_waiter Codec.reference
                         (Ok Frames.snapshot_99740) Frames.ripio_subscription
                         Frames.ripio_buffered_garbled "orderbook_btc_usdc" Hk Hne Hp))).
Defined.

(** ** Ripio: the three streams and their connections *)

Lemma watch_run (message sub : option PyVal) (key : string) (cl : Client) :
  watch message key key sub cl
  = (Ok tt,
     if dict_mem (subscriptions cl) key then future key cl
     else
       let subscribed :=
         set_subscriptions
           (dict_set (subscriptions cl) key (or_default sub (PBool true)))
           (future key cl) in
       match message with
       | Some m => send m subscribed
       | None => subscribed
       end).
Proof.
  unfold watch. run_monad. rewrite subscriptions_future.
  destruct (dict_mem (subscriptions cl) key); [reflexivity|]. now destruct message.
Qed.

Lemma future_pending (key : string) (cl : Client) :
  pending cl key = true -> future key cl = cl.
Proof. intros H. unfold future. now rewrite H. Qed.

(** The client after [watch]: subscribed to the key, with a waiter under
    it; watching again leaves it as it is. *)
Lemma watch_again (message sub : option PyVal) (key : string) (cl : Client) :
  let cl' := (watch message key key sub cl).2 in
  (watch message key key sub cl').2 = cl'.
Proof.
  intros cl'.
  assert (Hmem : dict_mem (subscriptions cl') key = true).
  { subst cl'. rewrite watch_run. cbn [snd].
    destruct (dict_mem (subscriptions cl) key) eqn:Hmem.
    - now rewrite subscriptions_future.
    - destruct message; cbn [subscriptions send set_subscriptions];
        apply dict_mem_dict_set_same. }
  rewrite watch_run, Hmem. cbn [snd]. apply future_pending. apply pending_watch.
Qed.

Lemma set_clients_same (ex : Exchange) : set_clients (clients ex) ex = ex.
Proof. now destruct ex. Qed.

(** [self.watch(url, key, message, key, subscription)] on the exchange. *)
Lemma with_client_watch (u key : string) (message sub : option PyVal) (ex : Exchange) :
  with_client u (on_client (watch message key key sub)) ex
  = (Ok tt,
     set_clients (<[u := (watch message key key sub (client_at u ex)).2]> (clients ex)) ex).
Proof.
  unfold with_client. run_monad. fold (client_at u ex). now rewrite watch_run.
Qed.

Lemma with_client_watch_again (u key : string) (message sub : option PyVal)
    (ex : Exchange) :
  let ex' := (with_client u (on_client (watch message key key sub)) ex).2 in
  with_client u (on_client (watch message key key sub)) ex' = (Ok tt, ex').
Proof.
  intros ex'. subst ex'. rewrite !with_client_watch. cbn [snd]. f_equal.
  rewrite client_at_insert. destruct (decide (u = u)) as [_|Hne]; [|contradiction].
  rewrite watch_again. cbn [clients set_clients].
  rewrite insert_insert_eq. now destruct ex.
Qed.

Lemma watch_trades_run (ex : Exchange) (symbol : option string) (m : Market) (u : string) :
  market ex symbol = Ok m ->
  let key := "trades" +:+ "_" +:+ Ripio.lower (market_id m) in
  let sub := PDict [("name", PStr "trades");
                    ("symbol", PStr (market_symbol m));
                    ("messageHash", PStr key);
                    ("method", PMethod handle_trade_method)] in
  Ripio.stream_url ex key = Ok u ->
  Ripio.watch_trades (Ok tt) symbol ex
  = (Ok key, (with_client u (on_client (watch None key key (Some sub))) ex).2).
Proof.
  intros Hm key sub Hu. unfold Ripio.watch_trades.
  unfold bind at 1, lift at 1. unfold bind at 1, get at 1.
  unfold bind at 1, lift at 1. rewrite Hm. cbv zeta.
  unfold bind at 1, lift at 1. fold key. rewrite Hu. fold sub.
  unfold bind at 1. rewrite with_client_watch. reflexivity.
Qed.

Lemma watch_trades_cases (loaded : Res unit) (symbol : option string) (ex : Exchange) :
  (exists e, Ripio.watch_trades loaded symbol ex = (Raise e, ex))
  \/ exists m u,
       loaded = Ok tt /\ market ex symbol = Ok m
       /\ Ripio.stream_url ex ("trades" +:+ "_" +:+ Ripio.lower (market_id m)) = Ok u.
Proof.
  destruct loaded as [[]|e]; [|left; now exists e].
  destruct (market ex symbol) as [m|e] eqn:Hm.
  - destruct (Ripio.stream_url ex ("trades" +:+ "_" +:+ Ripio.lower (market_id m)))
      as [u|e] eqn:Hu.
    + right. now exists m, u.
    + left. exists e. unfold Ripio.watch_trades.
      unfold bind at 1, lift at 1. unfold bind at 1, get at 1.
      unfold bind at 1, lift at 1. rewrite Hm. cbv zeta.
      unfold bind at 1, lift at 1. now rewrite Hu.
  - left. exists e. unfold Ripio.watch_trades.
    unfold bind at 1, lift at 1. unfold bind at 1, get at 1.
    unfold bind at 1, lift at 1. now rewrite Hm.
Qed.

Lemma watch_ticker_run (ex : Exchange) (symbol : string) (m : Market) (u : string) :
  market ex (Some symbol) = Ok m ->
  let key := "rate" +:+ "_" +:+ Ripio.lower (market_id m) in
  let sub := PDict [("name", PStr "rate");
                    ("symbol", PStr (market_symbol m));
                    ("messageHash", PStr key);
                    ("method", PMethod handle_ticker_method)] in
  Ripio.stream_url ex key = Ok u ->
  Ripio.watch_ticker (Ok tt) symbol ex
  = (Ok key, (with_client u (on_client (watch None key key (Some sub))) ex).2).
Proof.
  intros Hm key sub Hu. unfold Ripio.watch_ticker.
  unfold bind at 1, lift at 1. unfold bind at 1, get at 1.
  unfold bind at 1, lift at 1. rewrite Hm. cbv zeta.
  unfold bind at 1, lift at 1. fold key. rewrite Hu. fold sub.
  unfold bind at 1. rewrite with_client_watch. reflexivity.
Qed.

Lemma watch_ticker_cases (loaded : Res unit) (symbol : string) (ex : Exchange) :
  (exists e, Ripio.watch_ticker loaded symbol ex = (Raise e, ex))
  \/ exists m u,
       loaded = Ok tt /\ market ex (Some symbol) = Ok m
       /\ Ripio.stream_url ex ("rate" +:+ "_" +:+ Ripio.lower (market_id m)) = Ok u.
Proof.
  destruct loaded as [[]|e]; [|left; now exists e].
  destruct (market ex (Some symbol)) as [m|e] eqn:Hm.
  - destruct (Ripio.stream_url ex ("rate" +:+ "_" +:+ Ripio.lower (market_id m)))
      as [u|e] eqn:Hu.
    + right. now exists m, u.
    + left. exists e. unfold Ripio.watch_ticker.
      unfold bind at 1, lift at 1. unfold bind at 1, get at 1.
      unfold bind at 1, lift at 1. rewrite Hm. cbv zeta.
      unfold bind at 1, lift at 1. now rewrite Hu.
  - left. exists e. unfold Ripio.watch_ticker.
    unfold bind at 1, lift at 1. unfold bind at 1, get at 1.
    unfold bind at 1, lift at 1. now rewrite Hm.
Qed.

Lemma append_cancel_l (a b c : string) : a +:+ b = a +:+ c -> b = c.
Proof. induction a as [|x a IH]; simpl; [auto|]. intros [= H]. auto. Qed.

Lemma length_append (a b : string) :
  String.length (a +:+ b) = (String.length a + String.length b)%nat.
Proof. induction a as [|x a IH]; simpl; [reflexivity|]. now rewrite IH. Qed.

Lemma append_cancel_r (a b c : string) : a +:+ c = b +:+ c -> a = b.
Proof.
  revert b. induction a as [|x a IH]; intros [|y b] H; simpl in H.
  - reflexivity.
  - apply (f_equal String.length) in H. simpl in H. rewrite ?length_append in H.
    simpl in H. lia.
  - apply (f_equal String.length) in H. simpl in H. rewrite ?length_append in H.
    simpl in H. lia.
  - injection H as -> H. f_equal. now apply IH.
Qed.

(** Two routing keys with the same url are the same key. *)
Lemma stream_url_inj (ex : Exchange) (key key' u : string) :
  Ripio.stream_url ex key = Ok u -> Ripio.stream_url ex key' = Ok u -> key = key'.
Proof.
  unfold Ripio.stream_url.
  destruct (py_getitem (options ex) (KStr "uuid")) as [[]|]; try discriminate.
  intros [= <-] [= H]. apply append_cancel_l in H. now apply append_cancel_r in H.
Qed.

Lemma stream_url_configuration (ex ex' : Exchange) (key : string) :
  configuration ex' = configuration ex ->
  Ripio.stream_url ex' key = Ripio.stream_url ex key.
Proof.
  unfold configuration. intros [= _ _ _ Ho _ _ Hu]. unfold Ripio.stream_url.
  now rewrite Ho, Hu.
Qed.

Lemma one_stream_insert (ex ex' : Exchange) (u key : string) (sub : PyVal) (cl' : Client) :
  Ripio.one_stream_per_connection ex ->
  Ripio.stream_url ex key = Ok u ->
  configuration ex' = configuration ex ->
  clients ex' = <[u := cl']> (clients ex) ->
  subscriptions cl'
  = (if dict_mem (subscriptions (client_at u ex)) key
     then subscriptions (client_at u ex)
     else dict_set (subscriptions (client_at u ex)) key sub) ->
  Ripio.one_stream_per_connection ex'.
Proof.
  intros Hinv Hu Hc Hcl Hsub u0 cl0 Hl. rewrite Hcl in Hl.
  destruct (decide (u = u0)) as [<-|Hne].
  - rewrite lookup_insert_eq in Hl. injection Hl as <-. right.
    assert (Hcur : subscriptions (client_at u ex) = []
                   \/ exists k s, subscriptions (client_at u ex) = [(k, s)]
                                  /\ Ripio.stream_url ex k = Ok u).
    { unfold client_at. destruct (clients ex !! u) as [c|] eqn:Hc0; [|now left].
      exact (Hinv u c Hc0). }
    destruct Hcur as [Hnil|(k & s & Hone & Hk)].
    + rewrite Hnil in Hsub. simpl in Hsub. exists key, sub. split; [exact Hsub|].
      now rewrite (stream_url_configuration _ _ _ Hc).
    + pose proof (stream_url_inj _ _ _ _ Hk Hu) as ->.
      rewrite Hone in Hsub. unfold dict_mem in Hsub. simpl in Hsub.
      rewrite String.eqb_refl in Hsub. exists key, s. split; [exact Hsub|].
      now rewrite (stream_url_configuration _ _ _ Hc).
  - rewrite lookup_insert_ne in Hl by assumption.
    destruct (Hinv u0 cl0 Hl) as [Hnil|(k & s & Hone & Hk)]; [now left|right].
    exists k, s. split; [exact Hone|]. now rewrite (stream_url_configuration _ _ _ Hc).
Qed.

Lemma subscriptions_watch (message : option PyVal) (sub : PyVal) (key : string)
    (cl : Client) :
  subscriptions (watch message key key (Some sub) cl).2
  = if dict_mem (subscriptions cl) key then subscriptions cl
    else dict_set (subscriptions cl) key sub.
Proof.
  rewrite watch_run. cbn [snd].
  destruct (dict_mem (subscriptions cl) key); [apply subscriptions_future|].
  now destruct message.
Qed.

Lemma one_stream_with_client_watch (ex : Exchange) (u key : string) (sub : PyVal) :
  Ripio.one_stream_per_connection ex ->
  Ripio.stream_url ex key = Ok u ->
  Ripio.one_stream_per_connection
    (with_client u (on_client (watch None key key (Some sub))) ex).2.
Proof.
  intros Hinv Hu. rewrite with_client_watch. cbn [snd].
  eapply (one_stream_insert ex _ u key sub); eauto.
  apply subscriptions_watch.
Qed.

Lemma one_stream_with_open_client {A} (u : string) (c : M World A) (ex : Exchange) :
  keeps same_subscriptions c ->
  keeps (self_keeps configuration) c ->
  Ripio.one_stream_per_connection ex ->
  Ripio.one_stream_per_connection (Ripio.with_open_client u c ex)
  /\ configuration (Ripio.with_open_client u c ex) = configuration ex.
Proof.
  intros Hc Hk Hinv. unfold Ripio.with_open_client.
  destruct (clients ex !! u) as [cl|] eqn:Hcl; [|now split].
  unfold with_client. rewrite Hcl. change (default (new_client u) (Some cl)) with cl.
  specialize (Hc (mkWorld ex cl)). specialize (Hk (mkWorld ex cl)).
  destruct (c (mkWorld ex cl)) as [r w']. cbn [snd] in Hc, Hk |- *.
  destruct Hc as (_ & Hcs & Hsub). unfold self_keeps in Hk.
  cbn [self client] in Hcs, Hsub, Hk.
  assert (Hconf : configuration (set_clients (<[u := client w']> (clients (self w')))
                                             (self w')) = configuration ex)
    by exact Hk.
  split; [|exact Hconf].
  intros u0 cl0 Hl. cbn [clients set_clients] in Hl. rewrite Hcs in Hl.
  assert (Hsame : forall k, Ripio.stream_url
                              (set_clients (<[u := client w']> (clients (self w')))
                                           (self w')) k
                            = Ripio.stream_url ex k)
    by (intros k; now apply stream_url_configuration).
  destruct (decide (u = u0)) as [<-|Hne].
  - rewrite lookup_insert_eq in Hl. injection Hl as <-. rewrite Hsub.
    destruct (Hinv u cl Hcl) as [Hnil|(k & s & Hone & Hk')]; [now left|right].
    exists k, s. now rewrite Hsame.
  - rewrite lookup_insert_ne in Hl by assumption.
    destruct (Hinv u0 cl0 Hl) as [Hnil|(k & s & Hone & Hk')]; [now left|right].
    exists k, s. now rewrite Hsame.
Qed.

Section RipioStreams.
Context {collab : Ripio.Collaborators}.

Lemma handle_message_configuration (message : PyVal) :
  keeps (self_keeps configuration) (Ripio.handle_message message).
Proof.
  unfold Ripio.handle_message. repeat keeps_step.
  apply call_method_keeps_self; reflexivity.
Qed.

Lemma fetch_order_book_snapshot_configuration (fetched : Res Snapshot) (subscription : PyVal) :
  keeps (self_keeps configuration) (Ripio.fetch_order_book_snapshot fetched subscription).
Proof. unfold Ripio.fetch_order_book_snapshot. repeat keeps_step. Qed.

Lemma run_event_one_stream (ex : Exchange) (ev : Ripio.Event) :
  Ripio.one_stream_per_connection ex ->
  Ripio.one_stream_per_connection (Ripio.run_event ex ev)
  /\ configuration (Ripio.run_event ex ev) = configuration ex.
Proof.
  intros Hinv. destruct ev as [loaded symbol|u message|u sub fetched|u messageId]; simpl.
  - destruct (watch_order_book_cases loaded symbol ex) as [->|(m & u & -> & Hm & Hu)];
      [now split|].
    rewrite (watch_order_book_run _ _ _ _ Hm Hu). cbn [snd].
    set (key := Ripio.order_book_message_hash m).
    set (sub := Ripio.order_book_subscription m).
    assert (Hurl : Ripio.stream_url ex key = Ok u) by exact Hu.
    destruct (dict_mem (subscriptions (client_at u ex)) key) eqn:Hmem.
    + split; [|reflexivity].
      eapply (one_stream_insert ex _ u key sub); eauto.
      rewrite Hmem. apply subscriptions_future.
    + split; [|reflexivity].
      eapply (one_stream_insert ex _ u key sub); eauto.
      rewrite Hmem. now rewrite subscriptions_future.
  - apply one_stream_with_open_client;
      [apply handle_message_same|apply handle_message_configuration|assumption].
  - apply one_stream_with_open_client;
      [apply fetch_order_book_snapshot_same
      |apply fetch_order_book_snapshot_configuration|assumption].
  - apply one_stream_with_open_client; [apply ack_same| |assumption].
    apply self_keeps_on_client.
Qed.

Lemma run_activity_one_stream (ex : Exchange) (a : Ripio.Activity) :
  Ripio.one_stream_per_connection ex ->
  Ripio.one_stream_per_connection (Ripio.run_activity ex a)
  /\ configuration (Ripio.run_activity ex a) = configuration ex.
Proof.
  intros Hinv. destruct a as [ev|loaded symbol|loaded symbol]; simpl.
  - now apply run_event_one_stream.
  - destruct (watch_trades_cases loaded symbol ex) as [[e ->]|(m & u & -> & Hm & Hu)];
      [now split|].
    rewrite (watch_trades_run _ _ _ _ Hm Hu). cbn [snd].
    split; [now apply one_stream_with_client_watch|].
    now rewrite with_client_watch.
  - destruct (watch_ticker_cases loaded symbol ex) as [[e ->]|(m & u & -> & Hm & Hu)];
      [now split|].
    rewrite (watch_ticker_run _ _ _ _ Hm Hu). cbn [snd].
    split; [now apply one_stream_with_client_watch|].
    now rewrite with_client_watch.
Qed.

Lemma run_all_one_stream (activities : list Ripio.Activity) (ex : Exchange) :
  Ripio.one_stream_per_connection ex ->
  Ripio.one_stream_per_connection (Ripio.run_all activities ex)
  /\ configuration (Ripio.run_all activities ex) = configuration ex.
Proof.
  revert ex. induction activities as [|a activities IH]; intros ex Hinv; [now split|].
  simpl. destruct (run_activity_one_stream ex a Hinv) as [H1 H2].
  destruct (IH _ H1) as [H3 H4]. split; [exact H3|]. now rewrite H4.
Qed.

(** X4.  On an instance that starts with no connection open, however calls
    of [watch_order_book], [watch_trades] and [watch_ticker], arriving
    frames, answers to the snapshot fetches and acknowledgments follow one
    another, every connection carries at most one subscription, and that
    subscription's routing key is the one the connection's url was built
    from.  So the subscription registered first on a connection, to which
    [handle_message] hands every frame, is the only one there. *)
Theorem one_subscription_per_connection
    (activities : list Ripio.Activity) (start : Exchange) (u : string) (cl : Client) :
  clients start = ∅ ->
  clients (Ripio.run_all activities start) !! u = Some cl ->
  subscriptions cl = []
  \/ exists key subscription,
       subscriptions cl = [(key, subscription)]
       /\ Ripio.stream_url start key = Ok u.
Proof.
  intros Hstart Hl.
  assert (Hinv : Ripio.one_stream_per_connection start).
  { intros u0 c0 H0. rewrite Hstart in H0. now rewrite lookup_empty in H0. }
  destruct (run_all_one_stream activities start Hinv) as [Hone Hconf].
  destruct (Hone u cl Hl) as [Hnil|(key & sub & Hsub & Hu)]; [now left|right].
  exists key, sub. split; [exact Hsub|].
  now rewrite <- (stream_url_configuration _ _ _ Hconf).
Qed.

End RipioStreams.

Lemma one_subscription_per_connection_witness :
  clients Frames.ripio_fresh = ∅
  /\ exists cl,
       clients
         (@Ripio.run_all Codec.reference
            [Ripio.WatchTrades (Ok tt) (Some "BTC/USDC");
             Ripio.OrderBookEvent (Ripio.Watch (Ok tt) "BTC/USDC");
             Ripio.OrderBookEvent (Ripio.Frame Frames.ripio_url Frames.delta_99740);
             Ripio.OrderBookEvent (Ripio.Watch (Ok tt) "BTC/USDC");
             Ripio.WatchTicker (Ok tt) "BTC/USDC"]
            Frames.ripio_fresh) !! Frames.ripio_url = Some cl
       /\ (subscriptions cl = []
           \/ exists key subscription,
                subscriptions cl = [(key, subscription)]
                /\ Ripio.stream_url Frames.ripio_fresh key = Ok Frames.ripio_url).
Proof.
  assert (H0 : clients Frames.ripio_fresh = ∅) by reflexivity.
  split; [exact H0|]. eexists. split.
  - vm_compute. reflexivity.
  - apply (@one_subscription_per_connection Codec.reference
             [Ripio.WatchTrades (Ok tt) (Some "BTC/USDC");
              Ripio.OrderBookEvent (Ripio.Watch (Ok tt) "BTC/USDC");
              Ripio.OrderBookEvent (Ripio.Frame Frames.ripio_url Frames.delta_99740);
              Ripio.OrderBookEvent (Ripio.Watch (Ok tt) "BTC/USDC");
              Ripio.WatchTicker (Ok tt) "BTC/USDC"]
             Frames.ripio_fresh Frames.ripio_url _ H0).
    vm_compute. reflexivity.
Defined.

(** ** Ripio: calling a watch method again, and calling it in vain *)

Lemma watch_order_book_outcome (loaded : Res unit) (symbol : string) (ex : Exchange) :
  (exists e, Ripio.watch_order_book loaded symbol ex = (Raise e, ex)
             /\ forall e0, loaded = Raise e0 -> e = e0)
  \/ exists m u,
       loaded = Ok tt /\ markets ex !! symbol = Some m /\ Ripio.order_book_url ex m = Ok u.
Proof.
  destruct loaded as [[]|e]; [|left; exists e; split; [reflexivity|now intros ? [= <-]]].
  destruct (markets ex !! symbol) as [m|] eqn:Hm.
  - destruct (Ripio.order_book_url ex m) as [u|e] eqn:Hu.
    + right. now exists m, u.
    + left. exists e. split; [|discriminate].
      unfold Ripio.watch_order_book. run_monad. unfold market. rewrite Hm.
      run_monad. now rewrite Hu.
  - left. eexists. split; [|discriminate].
    unfold Ripio.watch_order_book. run_monad. unfold market. now rewrite Hm.
Qed.

(** X5.  A call of [watch_order_book], [watch_trades] or [watch_ticker]
    either raises, and then the instance is exactly as before (no connection
    opened, no book created, no subscription entered, no fetch scheduled),
    the error being the one [load_markets] raised if it did; or it parks the
    caller: markets were loaded, and a waiter is pending under the returned
    routing key on the connection whose url is built from that key. *)
Theorem failed_watch_leaves_no_trace
    (loaded : Res unit) (symbol : string) (osymbol : option string) (ex : Exchange) :
  let unchanged_or_parked (run : Res string * Exchange) :=
    match run with
    | (Raise e, ex') => ex' = ex /\ (forall e0, loaded = Raise e0 -> e = e0)
    | (Ok key, ex') =>
        loaded = Ok tt
        /\ exists u, Ripio.stream_url ex key = Ok u
                     /\ pending (client_at u ex') key = true
    end in
  unchanged_or_parked (Ripio.watch_order_book loaded symbol ex)
  /\ unchanged_or_parked (Ripio.watch_trades loaded osymbol ex)
  /\ unchanged_or_parked (Ripio.watch_ticker loaded symbol ex).
Proof.
  cbv zeta. split; [|split].
  - destruct (watch_order_book_outcome loaded symbol ex)
      as [(e & -> & He)|(m & u & -> & Hm & Hu)]; [now split|].
    rewrite (watch_order_book_run _ _ _ _ Hm Hu). split; [reflexivity|].
    exists u. split; [exact Hu|].
    destruct (dict_mem _ _); rewrite client_at_insert;
      (destruct (decide (u = u)) as [_|Hne]; [|contradiction]); apply pending_future.
  - destruct loaded as [[]|e0]; [|split; [reflexivity|now intros ? [= <-]]].
    destruct (watch_trades_cases (Ok tt) osymbol ex) as [[e ->]|(m & u & _ & Hm & Hu)];
      [split; [reflexivity|discriminate]|].
    rewrite (watch_trades_run _ _ _ _ Hm Hu), with_client_watch. cbn [snd].
    split; [reflexivity|]. exists u. split; [exact Hu|].
    rewrite client_at_insert. destruct (decide (u = u)) as [_|Hne]; [|contradiction].
    apply pending_watch.
  - destruct loaded as [[]|e0]; [|split; [reflexivity|now intros ? [= <-]]].
    destruct (watch_ticker_cases (Ok tt) symbol ex) as [[e ->]|(m & u & _ & Hm & Hu)];
      [split; [reflexivity|discriminate]|].
    rewrite (watch_ticker_run _ _ _ _ Hm Hu), with_client_watch. cbn [snd].
    split; [reflexivity|]. exists u. split; [exact Hu|].
    rewrite client_at_insert. destruct (decide (u = u)) as [_|Hne]; [|contradiction].
    apply pending_watch.
Qed.

Lemma watch_order_book_again (loaded : Res unit) (symbol : string) (ex : Exchange) :
  Ripio.watch_order_book loaded symbol (Ripio.watch_order_book loaded symbol ex).2
  = Ripio.watch_order_book loaded symbol ex.
Proof.
  destruct (watch_order_book_outcome loaded symbol ex)
    as [(e & H & _)|(m & u & -> & Hm & Hu)]; [now rewrite H; cbn [snd]; rewrite H|].
  rewrite (watch_order_book_run ex _ _ _ Hm Hu). cbn [snd].
  set (key := Ripio.order_book_message_hash m).
  set (sub := Ripio.order_book_subscription m).
  set (cl := client_at u ex).
  assert (Hagain : forall ex1 cl1,
            markets ex1 = markets ex -> options ex1 = options ex -> ws_url ex1 = ws_url ex ->
            clients ex1 !! u = Some cl1 ->
            dict_mem (subscriptions cl1) key = true -> pending cl1 key = true ->
            Ripio.watch_order_book (Ok tt) symbol ex1 = (Ok key, ex1)).
  { intros ex1 cl1 Hmk Ho Hw Hl Hmem Hp.
    assert (Hm1 : markets ex1 !! symbol = Some m) by now rewrite Hmk.
    assert (Hu1 : Ripio.order_book_url ex1 m = Ok u)
      by (unfold Ripio.order_book_url in *; now rewrite Ho, Hw).
    rewrite (watch_order_book_run ex1 _ _ _ Hm1 Hu1).
    assert (Hc : client_at u ex1 = cl1) by (unfold client_at; now rewrite Hl).
    rewrite Hc. fold key. rewrite Hmem, (future_pending _ _ Hp).
    rewrite insert_id by assumption. now rewrite set_clients_same. }
  destruct (dict_mem (subscriptions cl) key) eqn:Hmem.
  - eapply Hagain; try reflexivity.
    + cbn [clients set_clients]. apply lookup_insert_eq.
    + now rewrite subscriptions_future.
    + apply pending_future.
  - eapply Hagain; try reflexivity.
    + cbn [clients set_clients]. apply lookup_insert_eq.
    + rewrite subscriptions_future. cbn [subscriptions set_subscriptions].
      apply dict_mem_dict_set_same.
    + apply pending_future.
Qed.

(** X6.  Calling [watch_order_book], [watch_trades] or [watch_ticker] a
    second time with the same arguments, before anything else happened,
    returns what the first call returned and leaves the instance exactly as
    the first call left it: no second connection, subscription, book reset
    or snapshot fetch, and the caller shares the waiter of the first. *)
Theorem watching_again_changes_nothing
    (loaded : Res unit) (symbol : string) (osymbol : option string) (ex : Exchange) :
  Ripio.watch_order_book loaded symbol (Ripio.watch_order_book loaded symbol ex).2
    = Ripio.watch_order_book loaded symbol ex
  /\ Ripio.watch_trades loaded osymbol (Ripio.watch_trades loaded osymbol ex).2
    = Ripio.watch_trades loaded osymbol ex
  /\ Ripio.watch_ticker loaded symbol (Ripio.watch_ticker loaded symbol ex).2
    = Ripio.watch_ticker loaded symbol ex.
Proof.
  split; [apply watch_order_book_again|]. split.
  - destruct (watch_trades_cases loaded osymbol ex) as [[e H]|(m & u & -> & Hm & Hu)];
      [now rewrite H; cbn [snd]; rewrite H|].
    rewrite (watch_trades_run ex _ _ _ Hm Hu). cbn [snd].
    match goal with |- context [(with_client u ?c ex).2] =>
      set (ex1 := (with_client u c ex).2)
    end.
    assert (Hex1 : exists cls, ex1 = set_clients cls ex)
      by (subst ex1; rewrite with_client_watch; now eexists).
    destruct Hex1 as [cls Hex1].
    assert (Hm1 : market ex1 osymbol = Ok m) by (rewrite Hex1; exact Hm).
    pose proof Hu as Hu1. change (Ripio.stream_url ex) with (Ripio.stream_url (set_clients cls ex)) in Hu1.
    rewrite <- Hex1 in Hu1.
    rewrite (watch_trades_run ex1 _ _ _ Hm1 Hu1). subst ex1.
    now rewrite with_client_watch_again.
  - destruct (watch_ticker_cases loaded symbol ex) as [[e H]|(m & u & -> & Hm & Hu)];
      [now rewrite H; cbn [snd]; rewrite H|].
    rewrite (watch_ticker_run ex _ _ _ Hm Hu). cbn [snd].
    match goal with |- context [(with_client u ?c ex).2] =>
      set (ex1 := (with_client u c ex).2)
    end.
    assert (Hex1 : exists cls, ex1 = set_clients cls ex)
      by (subst ex1; rewrite with_client_watch; now eexists).
    destruct Hex1 as [cls Hex1].
    assert (Hm1 : market ex1 (Some symbol) = Ok m) by (rewrite Hex1; exact Hm).
    pose proof Hu as Hu1. change (Ripio.stream_url ex) with (Ripio.stream_url (set_clients cls ex)) in Hu1.
    rewrite <- Hex1 in Hu1.
    rewrite (watch_ticker_run ex1 _ _ _ Hm1 Hu1). subst ex1.
    now rewrite with_client_watch_again.
Qed.

(** ** Ripio: trades and tickers *)

Lemma dict_get_dict_set_ne {V} (d : pydict V) (k k' : string) (v : V) :
  k <> k' -> dict_get (dict_set d k v) k' = dict_get d k'.
Proof.
  intros Hne. induction d as [|[k0 v0] d IH]; simpl.
  - destruct (String.eqb k k') eqn:E; [|reflexivity].
    apply String.eqb_eq in E. contradiction.
  - destruct (String.eqb k0 k) eqn:E; simpl.
    + apply String.eqb_eq in E. subst k0.
      destruct (String.eqb k k') eqn:E'; [|reflexivity].
      apply String.eqb_eq in E'. contradiction.
    + now rewrite IH.
Qed.

(** Keeping the newest [limit] after every append is keeping the newest
    [limit] of all. *)
Lemma newest_newest (limit : Z) (l : list PyVal) (x : PyVal) :
  Ripio.newest limit (Ripio.newest limit l ++ [x]) = Ripio.newest limit (l ++ [x]).
Proof.
  unfold Ripio.newest. generalize (Z.to_nat limit). intros n.
  rewrite !List.length_app, List.length_skipn. cbn [length].
  destruct (Nat.le_gt_cases (length l) n) as [Hle|Hgt].
  - replace (length l - n)%nat with 0%nat by lia. rewrite Nat.sub_0_r. reflexivity.
  - rewrite !List.skipn_app, List.skipn_skipn, List.length_skipn.
    f_equal; f_equal; lia.
Qed.

Lemma default_some {A} (a b : A) : default a (Some b) = b.
Proof. reflexivity. Qed.

Lemma array_cache_append_newest (x : PyVal) (c : ArrayCache) :
  array_cache_append x c
  = mkArrayCache (cache_limit c) (Ripio.newest (cache_limit c) (cache_items c ++ [x])).
Proof. reflexivity. Qed.

Section RipioTrades.
Context {collab : Ripio.Collaborators}.

(** One trade frame, run. *)
Lemma handle_trade_run (message subscription : PyVal) (w : World) (s : string)
    (m : Market) (t : PyVal) :
  safe_string subscription (KStr "symbol") = Some s ->
  markets (self w) !! s = Some m ->
  Ripio.trade_of m message = Some t ->
  let start :=
    default (mkArrayCache
               (or_default (safe_integer (options (self w)) (KStr "tradesLimit")) 1000) [])
            (trades (self w) !! s) in
  let cache := array_cache_append t start in
  Ripio.handle_trade message subscription w
  = (Ok RetNone,
     mkWorld (set_trades (<[s := cache]> (trades (self w))) (self w))
             (resolve (VTrades (cache_items cache))
                      (safe_string subscription (KStr "messageHash")) (client w))).
Proof.
  intros Hs Hm Ht start cache. unfold Ripio.trade_of in Ht.
  unfold Ripio.handle_trade.
  destruct (safe_string message (KStr "payload")) as [payload|]; [|discriminate].
  cbn [mbind option_bind] in Ht.
  destruct (Ripio.loads_base64 payload) as [data|e]; [|discriminate].
  injection Ht as <-. rewrite Hs. run_monad. unfold market. rewrite Hm. run_monad.
  subst cache start. now destruct (trades (self w) !! s).
Qed.

Lemma trade_all_run (messages ts : list PyVal) (subscription : PyVal) (s : string)
    (m : Market) (limit : Z) (l : list PyVal) (w : World) :
  safe_string subscription (KStr "symbol") = Some s ->
  markets (self w) !! s = Some m ->
  trades (self w) !! s = Some (mkArrayCache limit (Ripio.newest limit l)) ->
  Forall2 (fun message t => Ripio.trade_of m message = Some t) messages ts ->
  let w' := Ripio.trade_all messages subscription w in
  trades (self w') !! s = Some (mkArrayCache limit (Ripio.newest limit (l ++ ts)))
  /\ forall other, other <> s -> trades (self w') !! other = trades (self w) !! other.
Proof.
  intros Hs Hm Hc Hall. revert l w Hm Hc.
  induction Hall as [|message t messages ts Ht Hall IH]; intros l w Hm Hc.
  - simpl. now rewrite app_nil_r.
  - cbv zeta. change (Ripio.trade_all (message :: messages) subscription w)
      with (Ripio.trade_all messages subscription
              (Ripio.handle_trade message subscription w).2).
    rewrite (handle_trade_run _ _ _ _ _ _ Hs Hm Ht). cbn [snd]. rewrite Hc.
    rewrite default_some, array_cache_append_newest.
    cbn [cache_limit cache_items]. rewrite newest_newest.
    match goal with |- context [Ripio.trade_all messages subscription ?v] =>
      destruct (IH (l ++ [t]) v) as [H1 H2]
    end.
    + exact Hm.
    + cbn [self trades set_trades]. apply lookup_insert_eq.
    + split.
      * rewrite H1. now rewrite <- app_assoc.
      * intros other Ho. rewrite (H2 other Ho). cbn [self trades set_trades].
        now apply lookup_insert_ne.
Qed.

(** X7.  Trade frames that decode, for a subscription whose symbol is a
    loaded market: each is handed back as [None], the first one creates the
    symbol's cache with the limit of option ['tradesLimit'] (1000 when the
    option is absent) unless a cache is there already, every trade is
    appended in arrival order, so that after the frames the cache holds the
    newest [limit] of the trades it held plus the new ones; the caches of
    other symbols are not touched; and the waiter under the subscription's
    routing key is resolved with the cache as the first frame left it. *)
Theorem trades_accumulate_in_arrival_order
    (message : PyVal) (t : PyVal) (messages ts : list PyVal)
    (subscription : PyVal) (w : World) (s : string) (m : Market) :
  safe_string subscription (KStr "symbol") = Some s ->
  markets (self w) !! s = Some m ->
  Ripio.trade_of m message = Some t ->
  Forall2 (fun message t => Ripio.trade_of m message = Some t) messages ts ->
  let start :=
    default (mkArrayCache
               (or_default (safe_integer (options (self w)) (KStr "tradesLimit")) 1000) [])
            (trades (self w) !! s) in
  let limit := cache_limit start in
  let first := Ripio.handle_trade message subscription w in
  let w' := Ripio.trade_all (message :: messages) subscription w in
  first.1 = Ok RetNone
  /\ client first.2
     = resolve (VTrades (Ripio.newest limit (cache_items start ++ [t])))
               (safe_string subscription (KStr "messageHash")) (client w)
  /\ trades (self w') !! s
     = Some (mkArrayCache limit (Ripio.newest limit (cache_items start ++ t :: ts)))
  /\ (forall other, other <> s -> trades (self w') !! other = trades (self w) !! other).
Proof.
  intros Hs Hm Ht Hall start limit first w'. subst first w'.
  change (Ripio.trade_all (message :: messages) subscription w)
    with (Ripio.trade_all messages subscription
            (Ripio.handle_trade message subscription w).2).
  rewrite (handle_trade_run _ _ _ _ _ _ Hs Hm Ht). cbn [fst snd client].
  fold start. rewrite array_cache_append_newest. fold limit. cbn [cache_items].
  split; [reflexivity|]. split; [reflexivity|].
  match goal with |- context [Ripio.trade_all messages subscription ?v] =>
    destruct (trade_all_run messages ts subscription s m limit (cache_items start ++ [t]) v
                Hs Hm) as [H1 H2]
  end.
  - cbn [self trades set_trades]. apply lookup_insert_eq.
  - exact Hall.
  - split.
    + rewrite H1. now rewrite <- app_assoc.
    + intros other Ho. rewrite (H2 other Ho). cbn [self trades set_trades].
      now apply lookup_insert_ne.
Qed.

(** X8.  A ticker frame that decodes to a ticker with a symbol is handed
    back to the caller; the ticker is stored under the symbol its payload
    names, with ['timestamp'] and ['datetime'] taken from the frame's
    [publishTime] and every other field as [parse_ticker] gave it; the waiter
    under the subscription's routing key is resolved with that ticker, and a
    subscription without routing key wakes nobody, the ticker being stored
    all the same.  Order books and trades are not touched. *)
Theorem ticker_is_stored_under_its_symbol
    (message subscription data : PyVal) (payload : string)
    (ticker : pydict PyVal) (symbol : string) (w : World) :
  safe_string message (KStr "payload") = Some payload ->
  Ripio.loads_base64 payload = Ok data ->
  Ripio.parse_ticker data = PDict ticker ->
  dict_get ticker "symbol" = Some (PStr symbol) ->
  let timestamp := Ripio.parse8601 (safe_string message (KStr "publishTime")) in
  let run := Ripio.handle_ticker message subscription w in
  exists stored,
    run.1 = Ok (RetMessage message)
    /\ tickers (self run.2) = <[symbol := PDict stored]> (tickers (self w))
    /\ dict_get stored "timestamp" = Some (Ripio.nonce_value timestamp)
    /\ dict_get stored "datetime"
       = Some (or_default (PStr <$> Ripio.iso8601 timestamp) PNone)
    /\ (forall k, k <> "timestamp" -> k <> "datetime" ->
          dict_get stored k = dict_get ticker k)
    /\ client run.2
       = match safe_string subscription (KStr "messageHash") with
         | Some key => resolve (VPy (PDict stored)) (Some key) (client w)
         | None => client w
         end
    /\ orderbooks (self run.2) = orderbooks (self w)
    /\ trades (self run.2) = trades (self w).
Proof.
  intros Hp Hd Ht Hsym timestamp run. subst run.
  set (stored := dict_set (dict_set ticker "timestamp" (Ripio.nonce_value timestamp))
                          "datetime"
                          (or_default (PStr <$> Ripio.iso8601 timestamp) PNone)).
  assert (Hget : dict_get stored "symbol" = Some (PStr symbol)).
  { subst stored. rewrite !dict_get_dict_set_ne by discriminate. exact Hsym. }
  exists stored. unfold Ripio.handle_ticker. rewrite Hp. run_monad. rewrite Hd, Ht.
  fold timestamp. fold stored. rewrite Hget. run_monad.
  cbn [py_str].
  assert (Hfields : dict_get stored "timestamp" = Some (Ripio.nonce_value timestamp)
                    /\ dict_get stored "datetime"
                       = Some (or_default (PStr <$> Ripio.iso8601 timestamp) PNone)
                    /\ forall k, k <> "timestamp" -> k <> "datetime" ->
                         dict_get stored k = dict_get ticker k).
  { subst stored. split; [|split].
    - rewrite dict_get_dict_set_ne by discriminate. apply dict_get_dict_set_same.
    - apply dict_get_dict_set_same.
    - intros k H1 H2. rewrite !dict_get_dict_set_ne by congruence. reflexivity. }
  destruct Hfields as (F1 & F2 & F3).
  destruct (safe_string subscription (KStr "messageHash")) as [key|];
    cbn [fst snd self client tickers set_tickers orderbooks trades]; now repeat split.
Qed.

End RipioTrades.

Lemma trades_accumulate_in_arrival_order_witness :
  safe_string Frames.trades_subscription (KStr "symbol") = Some "BTC/USDC"
  /\ markets (self Frames.ripio_watching_trades) !! "BTC/USDC" = Some Frames.btc_usdc
  /\ exists t,
       @Ripio.trade_of Codec.reference Frames.btc_usdc Frames.trade_frame = Some t
       /\ trades
            (self (@Ripio.trade_all Codec.reference
                     [Frames.trade_frame; Frames.trade_frame]
                     Frames.trades_subscription Frames.ripio_watching_trades))
            !! "BTC/USDC"
          = Some (mkArrayCache 1000 (Ripio.newest 1000 ([] ++ [t; t]))).
Proof.
  assert (Hs : safe_string Frames.trades_subscription (KStr "symbol") = Some "BTC/USDC")
    by reflexivity.
  assert (Hm : markets (self Frames.ripio_watching_trades) !! "BTC/USDC"
               = Some Frames.btc_usdc) by (vm_compute; reflexivity).
  split; [exact Hs|]. split; [exact Hm|].
  destruct (@Ripio.trade_of Codec.reference Frames.btc_usdc Frames.trade_frame)
    as [t|] eqn:Ht; [|vm_compute in Ht; discriminate].
  assert (Hall : Forall2
            (fun message t => @Ripio.trade_of Codec.reference Frames.btc_usdc message = Some t)
            [Frames.trade_frame] [t])
    by (constructor; [exact Ht|constructor]).
  exists t. split; [reflexivity|].
  exact (proj1 (proj2 (proj2
           (@trades_accumulate_in_arrival_order Codec.reference
              Frames.trade_frame t [Frames.trade_frame] [t]
              Frames.trades_subscription Frames.ripio_watching_trades
              "BTC/USDC" Frames.btc_usdc Hs Hm Ht Hall)))).
Defined.

Lemma ticker_is_stored_under_its_symbol_witness :
  safe_string Frames.ticker_frame (KStr "payload") = Some Frames.ticker_payload
  /\ Codec.loads Frames.ticker_payload = Ok Frames.ticker_data
  /\ Codec.parse_ticker Frames.ticker_data
     = PDict [("symbol", PStr "BTC/BRL"); ("last", PStr "68558.59");
              ("info", Frames.ticker_data)]
  /\ exists stored,
       (@Ripio.handle_ticker Codec.reference Frames.ticker_frame
          Frames.ticker_subscription Frames.ripio_buffering).1
       = Ok (RetMessage Frames.ticker_frame)
       /\ tickers (self (@Ripio.handle_ticker Codec.reference Frames.ticker_frame
                           Frames.ticker_subscription Frames.ripio_buffering).2)
          = <["BTC/BRL" := PDict stored]> (tickers (self Frames.ripio_buffering))
       /\ dict_get stored "timestamp" = Some (PInt 1601719509445).
Proof.
  assert (Hp : safe_string Frames.ticker_frame (KStr "payload")
               = Some Frames.ticker_payload) by reflexivity.
  assert (Hd : Codec.loads Frames.ticker_payload = Ok Frames.ticker_data)
    by (vm_compute; reflexivity).
  assert (Ht : Codec.parse_ticker Frames.ticker_data
               = PDict [("symbol", PStr "BTC/BRL"); ("last", PStr "68558.59");
                        ("info", Frames.ticker_data)]) by reflexivity.
  assert (Hsym : dict_get [("symbol", PStr "BTC/BRL"); ("last", PStr "68558.59");
                           ("info", Frames.ticker_data)] "symbol"
                 = Some (PStr "BTC/BRL")) by reflexivity.
  split; [exact Hp|]. split; [exact Hd|]. split; [exact Ht|].
  destruct (@ticker_is_stored_under_its_symbol Codec.reference
              Frames.ticker_frame Frames.ticker_subscription Frames.ticker_data
              Frames.ticker_payload _ "BTC/BRL" Frames.ripio_buffering Hp Hd Ht Hsym)
    as (stored & H1 & H2 & H3 & _).
  exists stored. split; [exact H1|]. split; [exact H2|].
  rewrite H3. vm_compute. reflexivity.
Defined.

(* ===================================================================== *)
(** * Further properties of class bitmex                                  *)
(* ===================================================================== *)

(** ** Bitmex: subscribing *)

Lemma bitmex_level (ex : Exchange) (limit : option Z) :
  (match limit with
   | None =>
       ret (or_default (safe_string (options ex) (KStr "watchOrderBookLevel"))
                       "orderBookL2")
   | Some 25 => ret "orderBookL2_25"
   | Some 10 => ret "orderBookL10"
   | Some _ =>
       Bitmex.raise_new "ExchangeError"
         (PStr (id ex +:+ " watchOrderBook limit argument must be None(L2), 25(L2) or 10(L3)"))
   end) ex
  = match Bitmex.level_name ex limit with
    | Some name => (Ok name, ex)
    | None =>
        (Raise (mkExn ExchangeError
                  (PStr (id ex +:+ " watchOrderBook limit argument must be None(L2), 25(L2) or 10(L3)"))),
         ex)
    end.
Proof.
  destruct limit as [z|]; [|reflexivity].
  destruct z as [|q|q]; try reflexivity.
  repeat (destruct q as [q|q|]; try reflexivity).
Qed.

Lemma bitmex_watch_order_book_run (loaded : Res unit) (symbol : string) (limit : option Z)
    (ex : Exchange) :
  Bitmex.watch_order_book loaded symbol limit ex
  = match Bitmex.level_name ex limit with
    | None =>
        (Raise (mkExn ExchangeError
                  (PStr (id ex +:+ " watchOrderBook limit argument must be None(L2), 25(L2) or 10(L3)"))),
         ex)
    | Some name =>
        match loaded with
        | Raise e => (Raise e, ex)
        | Ok _ =>
            match market ex (Some symbol) with
            | Raise e => (Raise e, ex)
            | Ok m =>
                let key := name +:+ ":" +:+ market_id m in
                (Ok key,
                 (with_client (ws_url ex)
                    (on_client (watch (Some (Bitmex.subscribe_request key)) key key None))
                    ex).2)
            end
        end
    end.
Proof.
  unfold Bitmex.watch_order_book. unfold bind at 1, get at 1. unfold bind at 1.
  rewrite bitmex_level. destruct (Bitmex.level_name ex limit) as [name|]; [|reflexivity].
  unfold bind at 1, lift at 1. destruct loaded as [[]|e]; [|reflexivity].
  unfold bind at 1, lift at 1. destruct (market ex (Some symbol)) as [m|e]; [|reflexivity].
  cbv zeta. unfold bind at 1. fold (Bitmex.subscribe_request (name +:+ ":" +:+ market_id m)).
  now rewrite with_client_watch.
Qed.

(** X9.  [watch_order_book] of bitmex either raises, leaving the instance
    as it was (no connection opened, nothing sent, no waiter registered), or
    parks the caller.  A limit other than None, 25 and 10 is refused with an
    ExchangeError before the markets are even loaded; otherwise what
    [load_markets] raised is passed on.  When the call parks the caller, the
    markets were loaded and hold the symbol, the key is the level's table
    name, a colon and the market's id, and a waiter is pending under it. *)
Theorem refused_watch_sends_nothing
    (loaded : Res unit) (symbol : string) (limit : option Z) (ex : Exchange) :
  match Bitmex.watch_order_book loaded symbol limit ex with
  | (Raise e, ex') =>
      ex' = ex
      /\ match Bitmex.level_name ex limit with
         | None =>
             e = mkExn ExchangeError
                   (PStr (id ex +:+ " watchOrderBook limit argument must be None(L2), 25(L2) or 10(L3)"))
         | Some _ => forall e0, loaded = Raise e0 -> e = e0
         end
  | (Ok key, ex') =>
      loaded = Ok tt
      /\ exists name m,
           Bitmex.level_name ex limit = Some name
           /\ markets ex !! symbol = Some m
           /\ key = name +:+ ":" +:+ market_id m
           /\ pending (client_at (ws_url ex) ex') key = true
  end.
Proof.
  rewrite bitmex_watch_order_book_run.
  destruct (Bitmex.level_name ex limit) as [name|] eqn:Hname; [|now split].
  destruct loaded as [[]|e]; [|split; [reflexivity|now intros ? [= <-]]].
  unfold market. destruct (markets ex !! symbol) as [m|] eqn:Hm;
    [|split; [reflexivity|discriminate]].
  cbv zeta. split; [reflexivity|]. exists name, m. repeat split.
  rewrite with_client_watch. cbn [snd]. rewrite client_at_insert.
  destruct (decide (ws_url ex = ws_url ex)) as [_|Hne]; [|contradiction].
  apply pending_watch.
Qed.

Lemma sent_future (key : string) (cl : Client) : sent (future key cl) = sent cl.
Proof. unfold future. now destruct (pending cl key). Qed.

(** X10.  Calling [watch_order_book] of bitmex again with the same
    arguments returns the same key and leaves the instance as the first call
    left it; and a call that parks the caller writes to the transport exactly
    when the key was not subscribed yet, and then exactly the request
    [{'op': 'subscribe', 'args': [key]}] for the key the caller waits on. *)
Theorem one_subscribe_request_per_key
    (loaded : Res unit) (symbol : string) (limit : option Z) (ex : Exchange) :
  let first := Bitmex.watch_order_book loaded symbol limit ex in
  Bitmex.watch_order_book loaded symbol limit first.2 = first
  /\ match first.1 with
     | Ok key =>
         sent (client_at (ws_url ex) first.2)
         = sent (client_at (ws_url ex) ex)
           ++ (if dict_mem (subscriptions (client_at (ws_url ex) ex)) key then []
               else [Bitmex.subscribe_request key])
     | Raise _ => first.2 = ex
     end.
Proof.
  cbv zeta. rewrite !bitmex_watch_order_book_run.
  destruct (Bitmex.level_name ex limit) as [name|] eqn:Hname;
    [|cbn [fst snd]; now rewrite Hname].
  destruct loaded as [[]|e]; [|cbn [fst snd]; now rewrite Hname].
  destruct (market ex (Some symbol)) as [m|e] eqn:Hm;
    [|cbn [fst snd]; now rewrite Hname, Hm].
  cbv zeta. cbn [fst snd].
  set (key := name +:+ ":" +:+ market_id m).
  set (ex1 := (with_client (ws_url ex)
                 (on_client (watch (Some (Bitmex.subscribe_request key)) key key None))
                 ex).2).
  assert (Hex1 : ex1 = set_clients
                         (<[ws_url ex := (watch (Some (Bitmex.subscribe_request key)) key key
                                            None (client_at (ws_url ex) ex)).2]>
                            (clients ex)) ex)
    by (subst ex1; now rewrite with_client_watch).
  split.
  - assert (Hn1 : Bitmex.level_name ex1 limit = Some name) by (rewrite Hex1; exact Hname).
    assert (Hm1 : market ex1 (Some symbol) = Ok m) by (rewrite Hex1; exact Hm).
    assert (Hu1 : ws_url ex1 = ws_url ex) by now rewrite Hex1.
    rewrite Hn1, Hm1, Hu1. cbv zeta. fold key. f_equal.
    subst ex1. now rewrite with_client_watch_again.
  - rewrite Hex1, client_at_insert.
    destruct (decide (ws_url ex = ws_url ex)) as [_|Hne]; [|contradiction].
    rewrite watch_run. cbn [snd].
    destruct (dict_mem (subscriptions (client_at (ws_url ex) ex)) key).
    + now rewrite sent_future, app_nil_r.
    + cbn [sent send set_subscriptions]. now rewrite sent_future.
Qed.

(** ** Bitmex: routing and error frames *)

Lemma methods_lookup (table : string) :
  dict_get Bitmex.methods table
  = if existsb (String.eqb table) (dict_keys Bitmex.methods)
    then Some Bitmex.handle_order_book else None.
Proof.
  unfold Bitmex.methods. cbn [dict_get dict_keys map fst existsb].
  rewrite !(String.eqb_sym table).
  destruct (String.eqb "orderBookL2" table); [reflexivity|].
  destruct (String.eqb "orderBookL2_25" table); [reflexivity|].
  now destruct (String.eqb "orderBook10" table).
Qed.

(** X11.  A frame without an ['error'] is routed by its ['table'] alone:
    the tables 'orderBookL2', 'orderBookL2_25' and 'orderBook10' go to
    [handle_order_book]; any other frame (another table, or none, as the
    welcome and the subscription confirmations) is printed and handed back,
    and nothing else happens: no waiter, order book, subscription or
    transport write is touched. *)
Theorem frame_is_routed_by_its_table (message : PyVal) (w : World) :
  safe_value message (KStr "error") = None ->
  Bitmex.handle_message message w
  = match safe_string message (KStr "table") with
    | Some table =>
        if existsb (String.eqb table) (dict_keys Bitmex.methods)
        then Bitmex.handle_order_book message w
        else (Ok (RetMessage message),
              mkWorld (set_printed (printed (self w) ++ [message]) (self w)) (client w))
    | None =>
        (Ok (RetMessage message),
         mkWorld (set_printed (printed (self w) ++ [message]) (self w)) (client w))
    end.
Proof.
  intros He. unfold Bitmex.handle_message. unfold bind at 1.
  rewrite handle_error_message_run, He. cbv zeta.
  destruct (safe_string message (KStr "table")) as [table|]; [|reflexivity].
  cbn [mbind option_bind]. rewrite methods_lookup.
  now destruct (existsb (String.eqb table) (dict_keys Bitmex.methods)).
Qed.

Lemma frame_is_routed_by_its_table_witness :
  safe_value
    (PDict [("success", PBool true);
            ("subscribe", PStr "orderBookL2:XBTUSD");
            ("request", PDict [("op", PStr "subscribe");
                               ("args", PList [PStr "orderBookL2:XBTUSD"])])])
    (KStr "error") = None
  /\ Bitmex.handle_message
       (PDict [("success", PBool true);
               ("subscribe", PStr "orderBookL2:XBTUSD");
               ("request", PDict [("op", PStr "subscribe");
                                  ("args", PList [PStr "orderBookL2:XBTUSD"])])])
       Frames.bitmex_waiting
     = (Ok (RetMessage
              (PDict [("success", PBool true);
                      ("subscribe", PStr "orderBookL2:XBTUSD");
                      ("request", PDict [("op", PStr "subscribe");
                                         ("args", PList [PStr "orderBookL2:XBTUSD"])])])),
        mkWorld
          (set_printed
             (printed (self Frames.bitmex_waiting)
              ++ [PDict [("success", PBool true);
                         ("subscribe", PStr "orderBookL2:XBTUSD");
                         ("request", PDict [("op", PStr "subscribe");
                                            ("args", PList [PStr "orderBookL2:XBTUSD"])])]])
             (self Frames.bitmex_waiting))
          (client Frames.bitmex_waiting)).
Proof.
  assert (He : safe_value
                 (PDict [("success", PBool true);
                         ("subscribe", PStr "orderBookL2:XBTUSD");
                         ("request", PDict [("op", PStr "subscribe");
                                            ("args", PList [PStr "orderBookL2:XBTUSD"])])])
                 (KStr "error") = None) by reflexivity.
  split; [exact He|].
  exact (frame_is_routed_by_its_table _ Frames.bitmex_waiting He).
Defined.

(** X12.  An error frame whose echoed request carries no ['args'] (or that
    echoes no request at all, as [{"error": "Rate limit exceeded, retry in 29
    seconds."}]) rejects nobody: [handle_error_message] returns [True] and
    leaves every waiter pending, so [handle_message] goes on to route the
    frame by its table, and prints it when it has none. *)
Theorem error_without_args_rejects_nobody (message : PyVal) (w : World) :
  safe_string (or_default (safe_value message (KStr "request")) (PDict [])) (KStr "args")
    = None ->
  Bitmex.handle_error_message message w = (Ok true, w)
  /\ (safe_string message (KStr "table") = None ->
      Bitmex.handle_message message w
      = (Ok (RetMessage message),
         mkWorld (set_printed (printed (self w) ++ [message]) (self w)) (client w))).
Proof.
  intros Ha.
  assert (Hrun : Bitmex.handle_error_message message w = (Ok true, w)).
  { rewrite handle_error_message_run.
    destruct (safe_value message (KStr "error")); [|reflexivity].
    cbv zeta. now rewrite Ha. }
  split; [exact Hrun|]. intros Ht.
  unfold Bitmex.handle_message. unfold bind at 1. rewrite Hrun, Ht. reflexivity.
Qed.

Lemma error_without_args_rejects_nobody_witness :
  safe_string
    (or_default
       (safe_value (PDict [("error", PStr "Rate limit exceeded, retry in 29 seconds.")])
                   (KStr "request"))
       (PDict []))
    (KStr "args") = None
  /\ Bitmex.handle_error_message
       (PDict [("error", PStr "Rate limit exceeded, retry in 29 seconds.")])
       Frames.bitmex_waiting
     = (Ok true, Frames.bitmex_waiting).
Proof.
  assert (Ha : safe_string
                 (or_default
                    (safe_value
                       (PDict [("error", PStr "Rate limit exceeded, retry in 29 seconds.")])
                       (KStr "request"))
                    (PDict []))
                 (KStr "args") = None) by reflexivity.
  split; [exact Ha|].
  exact (proj1 (error_without_args_rejects_nobody _ Frames.bitmex_waiting Ha)).
Defined.

(** X13.  An error frame whose message is a text and whose echoed request
    carries ['args'] (of any kind, as long as [str(args)] is not empty): on an
    instance with the error table of [describe], the
    exception built is a RateLimitExceeded when the text contains 'Rate limit
    exceeded', and an ExchangeError otherwise, in both cases carrying the
    text; it is handed to [client.reject] under the first character of
    [str(args)]; [handle_error_message] returns [False] and [handle_message]
    returns without routing the frame, whatever table it names. *)
Theorem error_class_follows_the_text
    (message : PyVal) (text : string) (c : ascii) (rest : string) (w : World) :
  safe_value message (KStr "error") = Some (PStr text) ->
  safe_string (or_default (safe_value message (KStr "request")) (PDict [])) (KStr "args")
    = Some (String c rest) ->
  ws_broad (self w) = Bitmex.describe_ws_broad ->
  let exception :=
    mkExn (if contains text "Rate limit exceeded" then RateLimitExceeded else ExchangeError)
          (PStr text) in
  let w' := mkWorld (self w) (reject exception (Some (String c "")) (client w)) in
  Bitmex.handle_error_message message w = (Ok false, w')
  /\ Bitmex.handle_message message w = (Ok RetNone, w').
Proof.
  intros He Ha Hb exception w'.
  assert (Hrun : Bitmex.handle_error_message message w = (Ok false, w')).
  { rewrite handle_error_message_run, He. cbv zeta. rewrite Ha, Hb.
    unfold Bitmex.describe_ws_broad. cbn [find_broadly_matched_key].
    subst w' exception.
    destruct (contains text "Rate limit exceeded"); reflexivity. }
  split; [exact Hrun|].
  unfold Bitmex.handle_message. unfold bind at 1. now rewrite Hrun.
Qed.

Lemma error_class_follows_the_text_witness :
  safe_value Frames.rate_limit_error (KStr "error")
    = Some (PStr "Rate limit exceeded, retry in 1 seconds.")
  /\ safe_string
       (or_default (safe_value Frames.rate_limit_error (KStr "request")) (PDict []))
       (KStr "args")
     = Some (String "["%char "'orderBookL2:XBTUSD']")
  /\ ws_broad (self Frames.bitmex_waiting) = Bitmex.describe_ws_broad
  /\ Bitmex.handle_message Frames.rate_limit_error Frames.bitmex_waiting
     = (Ok RetNone,
        mkWorld (self Frames.bitmex_waiting)
          (reject
             (mkExn (if contains "Rate limit exceeded, retry in 1 seconds."
                                 "Rate limit exceeded"
                     then RateLimitExceeded else ExchangeError)
                    (PStr "Rate limit exceeded, retry in 1 seconds."))
             (Some (String "["%char "")) (client Frames.bitmex_waiting))).
Proof.
  assert (He : safe_value Frames.rate_limit_error (KStr "error")
               = Some (PStr "Rate limit exceeded, retry in 1 seconds.")) by reflexivity.
  assert (Ha : safe_string
                 (or_default (safe_value Frames.rate_limit_error (KStr "request")) (PDict []))
                 (KStr "args")
               = Some (String "["%char "'orderBookL2:XBTUSD']")) by reflexivity.
  assert (Hb : ws_broad (self Frames.bitmex_waiting) = Bitmex.describe_ws_broad)
    by reflexivity.
  split; [exact He|]. split; [exact Ha|]. split; [exact Hb|].
  exact (proj2 (error_class_follows_the_text Frames.rate_limit_error _ _ _
                  Frames.bitmex_waiting He Ha Hb)).
Defined.

(** ** Bitmex: order-book frames *)

(** A loop over a book in the store is the loop on the book, stored. *)
Lemma for_each_on_orderbook {A} (symbol : string) (c : A -> M OrderBook unit)
    (rows : list A) (ob : OrderBook) (w : World) :
  orderbooks (self w) !! symbol = Some ob ->
  for_each rows (fun row => on_orderbook symbol (c row)) w
  = ((for_each rows c ob).1, put_book symbol (for_each rows c ob).2 w).
Proof.
  revert ob w. induction rows as [|x xs IH]; intros ob w Hb.
  - simpl. unfold ret. now rewrite (put_book_same _ _ _ Hb).
  - simpl. unfold bind at 1. rewrite (on_orderbook_run _ _ _ _ Hb).
    unfold bind at 1 2. destruct (c x ob) as [[[]|e] ob1]; [|reflexivity].
    rewrite (IH ob1 _ (lookup_put_book symbol ob1 w)). now rewrite put_book_twice.
Qed.

Lemma depth_of_table_cases (table : string) (depth : option Z) :
  dict_get Bitmex.depth_of_table table = Some depth ->
  (table = "orderBookL2" /\ depth = None)
  \/ (table = "orderBookL2_25" /\ depth = Some 25)
  \/ (table = "orderBook10" /\ depth = Some 10).
Proof.
  unfold Bitmex.depth_of_table. cbn [dict_get].
  destruct (String.eqb_spec "orderBookL2" table) as [<-|_]; [intros [= <-]; auto|].
  destruct (String.eqb_spec "orderBookL2_25" table) as [<-|_]; [intros [= <-]; auto|].
  destruct (String.eqb_spec "orderBook10" table) as [<-|_]; [intros [= <-]; auto|].
  discriminate.
Qed.

(** A snapshot frame for a known market and one of the three tables, run. *)
Lemma partial_run (message : PyVal) (w : World) (table marketId : string)
    (depth : option Z) (m : Market) (rows : list PyVal) :
  safe_string message (KStr "action") = Some "partial" ->
  safe_string message (KStr "table") = Some table ->
  dict_get Bitmex.depth_of_table table = Some depth ->
  safe_value (or_default (safe_value message (KStr "filter")) (PDict [])) (KStr "symbol")
    = Some (PStr marketId) ->
  markets_by_id (self w) !! marketId = Some m ->
  py_items (or_default (safe_value message (KStr "data")) (PList [])) = Ok rows ->
  let run := for_each rows (Bitmex.apply_row true None) (indexed_order_book depth) in
  Bitmex.handle_order_book message w
  = Bitmex.after_rows (market_symbol m) (table +:+ ":" +:+ marketId) run.1 run.2 w.
Proof.
  intros Ha Ht Hd Hf Hm Hrows run.
  unfold Bitmex.handle_order_book. rewrite Ha, Ht. cbv zeta.
  destruct (decide (Some "partial" = Some "partial")) as [_|Hne]; [|contradiction].
  rewrite Hf. unfold bind at 1, get at 1. unfold bind at 1, lift at 1.
  unfold Bitmex.in_markets_by_id. rewrite Hm. cbn [fmap option_fmap option_map].
  set (symbol := market_symbol m).
  assert (Hfresh : forall k : M World unit,
            k = on_self (modify (fun ex =>
                  set_orderbooks (<[symbol := indexed_order_book depth]> (orderbooks ex)) ex)) ->
            k w = (Ok tt, put_book symbol (indexed_order_book depth) w)).
  { intros k ->. reflexivity. }
  unfold bind at 1.
  match goal with |- context [(if decide (Some table = _) then _ else _) w] =>
    assert (Hstep : (if decide (Some table = Some "orderBookL2")
                     then on_self (modify (fun ex =>
                            set_orderbooks (<[symbol := indexed_order_book None]>
                                              (orderbooks ex)) ex))
                     else if decide (Some table = Some "orderBookL2_25")
                     then on_self (modify (fun ex =>
                            set_orderbooks (<[symbol := indexed_order_book (Some 25)]>
                                              (orderbooks ex)) ex))
                     else if decide (Some table = Some "orderBook10")
                     then on_self (modify (fun ex =>
                            set_orderbooks (<[symbol := indexed_order_book (Some 10)]>
                                              (orderbooks ex)) ex))
                     else ret tt) w
                    = (Ok tt, put_book symbol (indexed_order_book depth) w))
  end.
  { destruct (depth_of_table_cases _ _ Hd) as [[-> ->]|[[-> ->]|[-> ->]]];
      repeat (destruct (decide _) as [Heq|Hne];
              [try discriminate Heq|try (exfalso; apply Hne; reflexivity)]);
      reflexivity. }
  rewrite Hstep. clear Hstep Hfresh.
  set (w1 := put_book symbol (indexed_order_book depth) w).
  assert (Hb1 : orderbooks (self w1) !! symbol = Some (indexed_order_book depth))
    by apply lookup_put_book.
  unfold bind at 1. rewrite (on_orderbook_run _ _ _ _ Hb1). unfold ret at 1.
  rewrite (put_book_same _ _ _ Hb1).
  unfold bind at 1, lift at 1. rewrite Hrows.
  unfold bind at 1. rewrite (for_each_on_orderbook _ _ _ _ _ Hb1). fold run.
  subst w1. rewrite put_book_twice.
  unfold Bitmex.after_rows. destruct run.1 as [[]|e]; [|reflexivity].
  unfold bind at 1, lift at 1. cbn [Bitmex.table_key].
  unfold bind at 1.
  rewrite (on_orderbook_run _ _ _ _ (lookup_put_book symbol run.2 w)).
  unfold get at 1. rewrite put_book_twice. reflexivity.
Qed.

(** X14.  A snapshot ('partial') frame for a market the instance knows and
    for one of the tables 'orderBookL2', 'orderBookL2_25', 'orderBook10'
    replaces the market's order book by a new one, of depth unlimited, 25 or
    10, into which the rows of the frame are stored in order: the book
    afterwards is the same whatever the instance held for the market before;
    the books of other markets stay.  If no row raises, the waiter under
    ['<table>:<marketId>'] is resolved with that book and the handler returns
    [None]; if a row raises, the handler raises and no waiter is touched. *)
Theorem snapshot_frame_rebuilds_the_book
    (message : PyVal) (w : World) (table marketId : string)
    (depth : option Z) (m : Market) (rows : list PyVal) :
  safe_string message (KStr "action") = Some "partial" ->
  safe_string message (KStr "table") = Some table ->
  dict_get Bitmex.depth_of_table table = Some depth ->
  safe_value (or_default (safe_value message (KStr "filter")) (PDict [])) (KStr "symbol")
    = Some (PStr marketId) ->
  markets_by_id (self w) !! marketId = Some m ->
  py_items (or_default (safe_value message (KStr "data")) (PList [])) = Ok rows ->
  let rebuilt := for_each rows (Bitmex.apply_row true None) (indexed_order_book depth) in
  let run := Bitmex.handle_order_book message w in
  orderbooks (self run.2) = <[market_symbol m := rebuilt.2]> (orderbooks (self w))
  /\ match rebuilt.1 with
     | Ok _ =>
         run.1 = Ok RetNone
         /\ client run.2
            = resolve (VBook rebuilt.2) (Some (table +:+ ":" +:+ marketId)) (client w)
     | Raise e => run.1 = Raise e /\ client run.2 = client w
     end.
Proof.
  intros Ha Ht Hd Hf Hm Hrows rebuilt run. subst run.
  rewrite (partial_run _ _ _ _ _ _ _ Ha Ht Hd Hf Hm Hrows). fold rebuilt.
  unfold Bitmex.after_rows. destruct rebuilt.1 as [[]|e]; now repeat split.
Qed.

Lemma snapshot_frame_rebuilds_the_book_witness :
  safe_string (Frames.partial_frame "orderBookL2_25") (KStr "action") = Some "partial"
  /\ safe_string (Frames.partial_frame "orderBookL2_25") (KStr "table")
     = Some "orderBookL2_25"
  /\ dict_get Bitmex.depth_of_table "orderBookL2_25" = Some (Some 25)
  /\ markets_by_id (self Frames.bitmex_waiting) !! "XBTUSD" = Some Frames.xbtusd
  /\ exists rows,
       py_items (or_default (safe_value (Frames.partial_frame "orderBookL2_25") (KStr "data"))
                            (PList [])) = Ok rows
       /\ orderbooks (self (Bitmex.handle_order_book (Frames.partial_frame "orderBookL2_25")
                              Frames.bitmex_waiting).2)
          = <["BTC/USD" := (for_each rows (Bitmex.apply_row true None)
                              (indexed_order_book (Some 25))).2]>
              (orderbooks (self Frames.bitmex_waiting)).
Proof.
  assert (Ha : safe_string (Frames.partial_frame "orderBookL2_25") (KStr "action")
               = Some "partial") by reflexivity.
  assert (Ht : safe_string (Frames.partial_frame "orderBookL2_25") (KStr "table")
               = Some "orderBookL2_25") by reflexivity.
  assert (Hd : dict_get Bitmex.depth_of_table "orderBookL2_25" = Some (Some 25))
    by reflexivity.
  assert (Hf : safe_value
                 (or_default (safe_value (Frames.partial_frame "orderBookL2_25")
                                         (KStr "filter")) (PDict []))
                 (KStr "symbol") = Some (PStr "XBTUSD")) by reflexivity.
  assert (Hm : markets_by_id (self Frames.bitmex_waiting) !! "XBTUSD" = Some Frames.xbtusd)
    by (vm_compute; reflexivity).
  split; [exact Ha|]. split; [exact Ht|]. split; [exact Hd|]. split; [exact Hm|].
  eexists. split; [reflexivity|].
  exact (proj1 (snapshot_frame_rebuilds_the_book
                  (Frames.partial_frame "orderBookL2_25") Frames.bitmex_waiting
                  "orderBookL2_25" "XBTUSD" (Some 25) Frames.xbtusd _
                  Ha Ht Hd Hf Hm eq_refl)).
Defined.

(** An update frame, unfolded into its two loops. *)
Lemma update_frame_unfold (message : PyVal) :
  safe_string message (KStr "action") <> Some "partial" ->
  Bitmex.handle_order_book message
  = (rows <- lift (py_items (or_default (safe_value message (KStr "data")) (PList []))) ;;
     numUpdatesByMarketId <-
       fold_each rows ([] : pydict Z)
         (Bitmex.update_row (safe_string message (KStr "action"))) ;;
     for_each (dict_keys numUpdatesByMarketId)
       (Bitmex.resolve_market (safe_string message (KStr "table"))) ;;;
     ret RetNone).
Proof.
  intros Hne. unfold Bitmex.handle_order_book. cbv zeta.
  destruct (decide (safe_string message (KStr "action") = Some "partial"));
    [contradiction|reflexivity].
Qed.

Lemma update_row_unknown (action : option string) (acc : pydict Z) (row : PyVal) (w : World) :
  Bitmex.in_markets_by_id (self w) (safe_value row (KStr "symbol")) = Ok None ->
  Bitmex.update_row action acc row w = (Ok acc, w).
Proof.
  intros H. unfold Bitmex.update_row. cbv zeta.
  unfold bind at 1, get at 1. unfold bind at 1, lift at 1. now rewrite H.
Qed.

Lemma update_row_known (action : option string) (acc : pydict Z) (row : PyVal) (w : World)
    (marketId : string) (m : Market) :
  safe_value row (KStr "symbol") = Some (PStr marketId) ->
  markets_by_id (self w) !! marketId = Some m ->
  Bitmex.update_row action acc row w
  = match orderbooks (self w) !! market_symbol m with
    | None => (Raise (mkExn KeyError (PStr (market_symbol m))), w)
    | Some ob =>
        let run := Bitmex.apply_row (bool_decide (action = Some "insert")) (Some 0%Q) row ob in
        (match run.1 with
         | Ok _ => Ok (dict_set acc marketId (or_default (dict_get acc marketId) 0 + 1))
         | Raise e => Raise e
         end,
         put_book (market_symbol m) run.2 w)
    end.
Proof.
  intros Hs Hm. unfold Bitmex.update_row. cbv zeta.
  unfold bind at 1, get at 1. unfold bind at 1, lift at 1.
  rewrite Hs. unfold Bitmex.in_markets_by_id. rewrite Hm.
  cbn [fmap option_fmap option_map]. unfold bind at 1. unfold on_orderbook.
  destruct (orderbooks (self w) !! market_symbol m) as [ob|]; [|reflexivity].
  cbv zeta. destruct (Bitmex.apply_row _ _ row ob) as [[[]|e] ob1]; reflexivity.
Qed.

(** Rows of markets the instance does not know are skipped. *)
Lemma update_rows_skip (action : option string) (skipped rest : list PyVal)
    (acc : pydict Z) (w : World) :
  Forall (fun row => Bitmex.in_markets_by_id (self w) (safe_value row (KStr "symbol"))
                     = Ok None) skipped ->
  fold_each (skipped ++ rest) acc (Bitmex.update_row action) w
  = fold_each rest acc (Bitmex.update_row action) w.
Proof.
  induction 1 as [|row skipped Hrow _ IH]; [reflexivity|].
  simpl. unfold bind at 1. now rewrite (update_row_unknown _ _ _ _ Hrow).
Qed.

(** X15.  An order-book frame that names no market the instance knows
    changes nothing and wakes nobody: a snapshot whose filter names an
    unknown market (or none), and an update none of whose rows names a known
    market, an update without rows or without ['data'] included, return
    [None] and leave the instance and the client as they were. *)
Theorem frame_for_unknown_market_changes_nothing
    (message : PyVal) (w : World) (rows : list PyVal) :
  (safe_string message (KStr "action") = Some "partial"
   /\ Bitmex.in_markets_by_id (self w)
        (safe_value (or_default (safe_value message (KStr "filter")) (PDict []))
                    (KStr "symbol")) = Ok None)
  \/ (safe_string message (KStr "action") <> Some "partial"
      /\ py_items (or_default (safe_value message (KStr "data")) (PList [])) = Ok rows
      /\ Forall (fun row => Bitmex.in_markets_by_id (self w) (safe_value row (KStr "symbol"))
                            = Ok None) rows) ->
  Bitmex.handle_order_book message w = (Ok RetNone, w).
Proof.
  intros [[Ha Hf]|(Ha & Hrows & Hall)].
  - unfold Bitmex.handle_order_book. cbv zeta.
    destruct (decide (safe_string message (KStr "action") = Some "partial"));
      [|contradiction].
    unfold bind at 1, get at 1. unfold bind at 1, lift at 1. now rewrite Hf.
  - rewrite (update_frame_unfold _ Ha).
    unfold bind at 1, lift at 1. rewrite Hrows. unfold bind at 1.
    rewrite <- (app_nil_r rows), (update_rows_skip _ _ _ _ _ Hall). reflexivity.
Qed.

Lemma frame_for_unknown_market_changes_nothing_witness :
  safe_string Frames.update_ethusd (KStr "action") <> Some "partial"
  /\ py_items (or_default (safe_value Frames.update_ethusd (KStr "data")) (PList []))
     = Ok [Frames.row_ethusd]
  /\ Forall (fun row => Bitmex.in_markets_by_id (self Frames.bitmex_waiting)
                          (safe_value row (KStr "symbol")) = Ok None)
            [Frames.row_ethusd]
  /\ Bitmex.handle_order_book Frames.update_ethusd Frames.bitmex_waiting
     = (Ok RetNone, Frames.bitmex_waiting).
Proof.
  assert (Ha : safe_string Frames.update_ethusd (KStr "action") <> Some "partial")
    by discriminate.
  assert (Hrows : py_items (or_default (safe_value Frames.update_ethusd (KStr "data"))
                                       (PList []))
                  = Ok [Frames.row_ethusd]) by reflexivity.
  assert (Hall : Forall (fun row => Bitmex.in_markets_by_id (self Frames.bitmex_waiting)
                                      (safe_value row (KStr "symbol")) = Ok None)
                        [Frames.row_ethusd])
    by (constructor; [vm_compute; reflexivity|constructor]).
  split; [exact Ha|]. split; [exact Hrows|]. split; [exact Hall|].
  exact (frame_for_unknown_market_changes_nothing Frames.update_ethusd
           Frames.bitmex_waiting [Frames.row_ethusd]
           (or_intror (conj Ha (conj Hrows Hall)))).
Defined.

(** The rows of an update that belong to one market, run: they go to that
    market's book in order, and the market is counted. *)
Lemma update_rows_one_market (action : option string) (marketId : string) (m : Market)
    (rows : list PyVal) (acc : pydict Z) (w : World) (ob : OrderBook) :
  Forall (fun row => safe_value row (KStr "symbol") = Some (PStr marketId)) rows ->
  markets_by_id (self w) !! marketId = Some m ->
  orderbooks (self w) !! market_symbol m = Some ob ->
  acc = [] \/ (exists n, acc = [(marketId, n)]) ->
  let run := for_each rows
               (Bitmex.apply_row (bool_decide (action = Some "insert")) (Some 0%Q)) ob in
  exists acc',
    match rows with
    | [] => acc' = acc
    | _ => exists n, acc' = [(marketId, n)]
    end
    /\ fold_each rows acc (Bitmex.update_row action) w
       = (match run.1 with Ok _ => Ok acc' | Raise e => Raise e end,
          put_book (market_symbol m) run.2 w).
Proof.
  intros Hall. revert acc w ob.
  induction Hall as [|row rows Hrow Hall IH]; intros acc w ob Hm Hb Hacc run.
  - exists acc. split; [reflexivity|]. subst run. simpl. unfold ret.
    now rewrite (put_book_same _ _ _ Hb).
  - subst run. simpl. unfold bind.
    rewrite (update_row_known _ _ _ _ _ _ Hrow Hm), Hb. cbv zeta.
    destruct (Bitmex.apply_row _ _ row ob) as [[[]|e] ob1]; cbn [fst snd].
    + set (acc1 := dict_set acc marketId (or_default (dict_get acc marketId) 0 + 1)).
      assert (Hacc1 : exists n, acc1 = [(marketId, n)]).
      { subst acc1. destruct Hacc as [->|[n ->]]; simpl; [now eexists|].
        rewrite String.eqb_refl. now eexists. }
      destruct (IH acc1 (put_book (market_symbol m) ob1 w) ob1 Hm
                  (lookup_put_book _ _ _) (or_intror Hacc1)) as (acc' & Hshape & Hfold).
      exists acc'. split.
      * destruct rows; [now rewrite Hshape|exact Hshape].
      * rewrite Hfold. now rewrite put_book_twice.
    + exists [(marketId, 0)]. split; [now eexists|reflexivity].
Qed.

(** An update frame whose rows belong to one known market with a book,
    run. *)
Lemma update_run (message : PyVal) (w : World) (table marketId : string) (m : Market)
    (ob : OrderBook) (row : PyVal) (rows : list PyVal) :
  safe_string message (KStr "action") <> Some "partial" ->
  safe_string message (KStr "table") = Some table ->
  py_items (or_default (safe_value message (KStr "data")) (PList [])) = Ok (row :: rows) ->
  Forall (fun row => safe_value row (KStr "symbol") = Some (PStr marketId)) (row :: rows) ->
  markets_by_id (self w) !! marketId = Some m ->
  orderbooks (self w) !! market_symbol m = Some ob ->
  let run := for_each (row :: rows)
               (Bitmex.apply_row
                  (bool_decide (safe_string message (KStr "action") = Some "insert"))
                  (Some 0%Q)) ob in
  Bitmex.handle_order_book message w
  = Bitmex.after_rows (market_symbol m) (table +:+ ":" +:+ marketId) run.1 run.2 w.
Proof.
  intros Ha Ht Hrows Hall Hm Hb run.
  rewrite (update_frame_unfold _ Ha). unfold bind at 1, lift at 1. rewrite Hrows.
  unfold bind at 1.
  destruct (update_rows_one_market (safe_string message (KStr "action")) marketId m
              (row :: rows) [] w ob Hall Hm Hb (or_introl eq_refl))
    as (acc' & [n ->] & Hfold).
  rewrite Hfold. fold run. unfold Bitmex.after_rows.
  destruct run.1 as [[]|e]; [|reflexivity].
  cbn [dict_keys map fst for_each]. rewrite Ht.
  unfold bind at 1. unfold bind at 1. unfold Bitmex.resolve_market.
  unfold bind at 1, lift at 1. cbn [Bitmex.table_key].
  unfold bind at 1, get at 1.
  assert (Hm1 : markets_by_id (self (put_book (market_symbol m) run.2 w)) !! marketId
                = Some m) by exact Hm.
  rewrite Hm1. cbv zeta. unfold bind at 1.
  rewrite (on_orderbook_run _ _ _ _ (lookup_put_book (market_symbol m) run.2 w)).
  unfold get at 1. rewrite put_book_twice. reflexivity.
Qed.

(** X16.  An update ('update', 'insert' or 'delete') frame that arrives
    before the snapshot of its market, so that no order book exists for the
    market yet, raises a KeyError naming the market's symbol at the first row
    of a known market; nothing is written and no waiter is resolved.  Rows
    of unknown markets before it are skipped silently. *)
Theorem update_before_snapshot_raises_key_error
    (message : PyVal) (w : World) (skipped rest : list PyVal) (row : PyVal)
    (marketId : string) (m : Market) :
  safe_string message (KStr "action") <> Some "partial" ->
  py_items (or_default (safe_value message (KStr "data")) (PList []))
    = Ok (skipped ++ row :: rest) ->
  Forall (fun row => Bitmex.in_markets_by_id (self w) (safe_value row (KStr "symbol"))
                     = Ok None) skipped ->
  safe_value row (KStr "symbol") = Some (PStr marketId) ->
  markets_by_id (self w) !! marketId = Some m ->
  orderbooks (self w) !! market_symbol m = None ->
  Bitmex.handle_order_book message w
  = (Raise (mkExn KeyError (PStr (market_symbol m))), w).
Proof.
  intros Ha Hrows Hskip Hrow Hm Hb.
  rewrite (update_frame_unfold _ Ha). unfold bind at 1, lift at 1. rewrite Hrows.
  unfold bind at 1. rewrite (update_rows_skip _ _ _ _ _ Hskip).
  simpl. unfold bind at 1.
  now rewrite (update_row_known _ _ _ _ _ _ Hrow Hm), Hb.
Qed.

Lemma update_before_snapshot_raises_key_error_witness :
  safe_string Frames.update_xbtusd (KStr "action") <> Some "partial"
  /\ py_items (or_default (safe_value Frames.update_xbtusd (KStr "data")) (PList []))
     = Ok ([] ++ Frames.row_sell :: [])
  /\ safe_value Frames.row_sell (KStr "symbol") = Some (PStr "XBTUSD")
  /\ markets_by_id (self Frames.bitmex_waiting) !! "XBTUSD" = Some Frames.xbtusd
  /\ orderbooks (self Frames.bitmex_waiting) !! "BTC/USD" = None
  /\ Bitmex.handle_order_book Frames.update_xbtusd Frames.bitmex_waiting
     = (Raise (mkExn KeyError (PStr "BTC/USD")), Frames.bitmex_waiting).
Proof.
  assert (Ha : safe_string Frames.update_xbtusd (KStr "action") <> Some "partial")
    by discriminate.
  assert (Hrows : py_items (or_default (safe_value Frames.update_xbtusd (KStr "data"))
                                       (PList []))
                  = Ok ([] ++ Frames.row_sell :: [])) by reflexivity.
  assert (Hrow : safe_value Frames.row_sell (KStr "symbol") = Some (PStr "XBTUSD"))
    by reflexivity.
  assert (Hm : markets_by_id (self Frames.bitmex_waiting) !! "XBTUSD" = Some Frames.xbtusd)
    by (vm_compute; reflexivity).
  assert (Hb : orderbooks (self Frames.bitmex_waiting) !! "BTC/USD" = None)
    by (vm_compute; reflexivity).
  split; [exact Ha|]. split; [exact Hrows|]. split; [exact Hrow|].
  split; [exact Hm|]. split; [exact Hb|].
  exact (update_before_snapshot_raises_key_error Frames.update_xbtusd
           Frames.bitmex_waiting [] [] Frames.row_sell "XBTUSD" Frames.xbtusd
           Ha Hrows (List.Forall_nil _) Hrow Hm Hb).
Defined.

(** X17.  An update frame all of whose rows name one known market whose
    order book exists: the rows are applied to that book in order, with
    [store] when the action is 'insert' and with [restore] otherwise (a
    missing size counting as 0); the books of other markets stay.  If no row
    raises, the waiter under ['<table>:<marketId>'] is resolved, once, with
    the updated book and the handler returns [None]; if a row raises, the
    rows before it stay applied, the handler raises and no waiter is
    touched. *)
Theorem update_frame_applies_its_rows_in_order
    (message : PyVal) (w : World) (table marketId : string) (m : Market)
    (ob : OrderBook) (row : PyVal) (rows : list PyVal) :
  safe_string message (KStr "action") <> Some "partial" ->
  safe_string message (KStr "table") = Some table ->
  py_items (or_default (safe_value message (KStr "data")) (PList [])) = Ok (row :: rows) ->
  Forall (fun row => safe_value row (KStr "symbol") = Some (PStr marketId)) (row :: rows) ->
  markets_by_id (self w) !! marketId = Some m ->
  orderbooks (self w) !! market_symbol m = Some ob ->
  let updated := for_each (row :: rows)
                   (Bitmex.apply_row
                      (bool_decide (safe_string message (KStr "action") = Some "insert"))
                      (Some 0%Q)) ob in
  let run := Bitmex.handle_order_book message w in
  orderbooks (self run.2) = <[market_symbol m := updated.2]> (orderbooks (self w))
  /\ match updated.1 with
     | Ok _ =>
         run.1 = Ok RetNone
         /\ client run.2
            = resolve (VBook updated.2) (Some (table +:+ ":" +:+ marketId)) (client w)
     | Raise e => run.1 = Raise e /\ client run.2 = client w
     end.
Proof.
  intros Ha Ht Hrows Hall Hm Hb updated run. subst run.
  rewrite (update_run _ _ _ _ _ _ _ _ Ha Ht Hrows Hall Hm Hb). fold updated.
  unfold Bitmex.after_rows. destruct updated.1 as [[]|e]; now repeat split.
Qed.

Lemma update_frame_applies_its_rows_in_order_witness :
  safe_string Frames.update_xbtusd (KStr "action") <> Some "partial"
  /\ safe_string Frames.update_xbtusd (KStr "table") = Some "orderBookL2"
  /\ py_items (or_default (safe_value Frames.update_xbtusd (KStr "data")) (PList []))
     = Ok [Frames.row_sell]
  /\ markets_by_id (self Frames.bitmex_synced) !! "XBTUSD" = Some Frames.xbtusd
  /\ exists ob,
       orderbooks (self Frames.bitmex_synced) !! "BTC/USD" = Some ob
       /\ orderbooks (self (Bitmex.handle_order_book Frames.update_xbtusd
                              Frames.bitmex_synced).2)
          = <["BTC/USD" :=
                (for_each [Frames.row_sell]
                   (Bitmex.apply_row
                      (bool_decide (safe_string Frames.update_xbtusd (KStr "action")
                                    = Some "insert"))
                      (Some 0%Q)) ob).2]>
              (orderbooks (self Frames.bitmex_synced)).
Proof.
  assert (Ha : safe_string Frames.update_xbtusd (KStr "action") <> Some "partial")
    by discriminate.
  assert (Ht : safe_string Frames.update_xbtusd (KStr "table") = Some "orderBookL2")
    by reflexivity.
  assert (Hrows : py_items (or_default (safe_value Frames.update_xbtusd (KStr "data"))
                                       (PList []))
                  = Ok [Frames.row_sell]) by reflexivity.
  assert (Hall : Forall (fun row => safe_value row (KStr "symbol") = Some (PStr "XBTUSD"))
                        [Frames.row_sell])
    by (constructor; [reflexivity|constructor]).
  assert (Hm : markets_by_id (self Frames.bitmex_synced) !! "XBTUSD" = Some Frames.xbtusd)
    by (vm_compute; reflexivity).
  split; [exact Ha|]. split; [exact Ht|]. split; [exact Hrows|]. split; [exact Hm|].
  destruct (orderbooks (self Frames.bitmex_synced) !! "BTC/USD") as [ob|] eqn:Hb;
    [|vm_compute in Hb; discriminate].
  exists ob. split; [reflexivity|].
  exact (proj1 (update_frame_applies_its_rows_in_order Frames.update_xbtusd
                  Frames.bitmex_synced "orderBookL2" "XBTUSD" Frames.xbtusd ob
                  Frames.row_sell [] Ha Ht Hrows Hall Hm Hb)).
Defined.

(** ** Bitmex: a level inserted and deleted *)

Lemma put_side_book_side (k : SideKind) (x : OrderBookSide) (ob : OrderBook) :
  book_side k (put_side k x ob) = x.
Proof. now destruct k. Qed.

Lemma put_side_twice (k : SideKind) (x y : OrderBookSide) (ob : OrderBook) :
  put_side k y (put_side k x ob) = put_side k y ob.
Proof. now destruct k. Qed.

Lemma put_side_same (k : SideKind) (ob : OrderBook) : put_side k (book_side k ob) ob = ob.
Proof. destruct k, ob; reflexivity. Qed.

(** One row, run on a book. *)
Lemma apply_row_run (use_store : bool) (d : option Q) (row : PyVal) (ob : OrderBook)
    (marketId i : string) (k : SideKind) (p s : option Q) :
  Bitmex.reads_row row marketId i k p s ->
  Bitmex.apply_row use_store d row ob
  = match (if use_store then store else restore)
            p (match s with Some q => Some q | None => d end) (Some i) (book_side k ob) with
    | Ok side => (Ok tt, put_side k side ob)
    | Raise e => (Raise e, ob)
    end.
Proof.
  intros (_ & Hi & Hk & Hp & Hs). unfold Bitmex.apply_row.
  unfold bind at 1, lift at 1. rewrite Hp. unfold bind at 1, lift at 1. rewrite Hs.
  cbv zeta. rewrite Hi, Hk.
  destruct k; unfold on_side, zoom, bind, get, lift, put; cbn [book_side put_side];
    destruct ((if use_store then store else restore) _ _ _ _) as [side|e];
    try reflexivity; now destruct ob.
Qed.

Lemma same_level_other (p : option Q) (i : string) (l : Level) :
  level_id l <> Some i -> same_level p (Some i) l = false.
Proof.
  intros H. unfold same_level. destruct (level_id l) as [j|]; [|reflexivity].
  destruct (String.eqb_spec i j) as [->|_]; [now contradiction H|reflexivity].
Qed.

Lemma filter_other_levels (p : option Q) (i : string) (ls : list Level) :
  Forall (fun l => level_id l <> Some i) ls ->
  List.filter (fun l => negb (same_level p (Some i) l)) ls = ls.
Proof.
  induction 1 as [|l ls Hl _ IH]; cbn [List.filter]; [reflexivity|].
  now rewrite (same_level_other p i l Hl), IH.
Qed.

Lemma exists_other_levels (p : option Q) (i : string) (ls : list Level) :
  Forall (fun l => level_id l <> Some i) ls ->
  existsb (same_level p (Some i)) ls = false.
Proof.
  induction 1 as [|l ls Hl _ IH]; cbn [existsb]; [reflexivity|].
  now rewrite (same_level_other p i l Hl), IH.
Qed.

Lemma filter_insert_level (k : SideKind) (p : option Q) (i : string) (x : Level)
    (ls : list Level) :
  level_id x = Some i ->
  Forall (fun l => level_id l <> Some i) ls ->
  List.filter (fun l => negb (same_level p (Some i) l)) (insert_level k x ls) = ls.
Proof.
  intros Hx. assert (Hsame : same_level p (Some i) x = true).
  { unfold same_level. rewrite Hx. apply String.eqb_refl. }
  induction 1 as [|l ls Hl Hall IH]; cbn [insert_level].
  - cbn [List.filter]. now rewrite Hsame.
  - destruct (goes_before k (price x) (price l)); cbn [List.filter].
    + rewrite Hsame, (same_level_other p i l Hl). cbn [negb].
      now rewrite (filter_other_levels p i ls Hall).
    + now rewrite (same_level_other p i l Hl), IH.
Qed.

Lemma find_insert_level (k : SideKind) (i : string) (x : Level) (ls : list Level) :
  level_id x = Some i ->
  Forall (fun l => level_id l <> Some i) ls ->
  List.find (same_level None (Some i)) (insert_level k x ls) = Some x.
Proof.
  intros Hx. assert (Hsame : same_level None (Some i) x = true).
  { unfold same_level. rewrite Hx. apply String.eqb_refl. }
  induction 1 as [|l ls Hl Hall IH]; cbn [insert_level].
  - cbn [List.find]. now rewrite Hsame.
  - destruct (goes_before k (price x) (price l)); cbn [List.find].
    + now rewrite Hsame.
    + now rewrite (same_level_other None i l Hl), IH.
Qed.

Lemma in_insert_level (k : SideKind) (x : Level) (ls : list Level) :
  In x (insert_level k x ls).
Proof.
  induction ls as [|l ls IH]; simpl; [now left|].
  destruct (goes_before k (price x) (price l)); simpl; auto.
Qed.

(** Storing a new level, then restoring its id with size 0. *)
Lemma store_then_remove (side : OrderBookSide) (p q : Q) (i : string) :
  Qle_bool q 0 = false ->
  Forall (fun l => level_id l <> Some i) (levels side) ->
  exists side1,
    store (Some p) (Some q) (Some i) side = Ok side1
    /\ In (mkLevel p q (Some i)) (levels side1)
    /\ restore None (Some 0%Q) (Some i) side1 = Ok side.
Proof.
  intros Hq Hall. unfold store.
  rewrite (exists_other_levels (Some p) i _ Hall). cbn [kept_amount]. rewrite Hq.
  rewrite (filter_other_levels (Some p) i _ Hall). eexists. split; [reflexivity|].
  split; [apply in_insert_level|].
  unfold restore. cbn [levels].
  rewrite (find_insert_level _ i (mkLevel p q (Some i)) _ eq_refl Hall).
  unfold store. cbn [levels side_kind depth price].
  assert (Hgone : forall known, kept_amount known (Some 0%Q) = None)
    by (now intros []).
  rewrite Hgone.
  rewrite (filter_insert_level _ (Some p) i (mkLevel p q (Some i)) _ eq_refl Hall).
  now destruct side.
Qed.

(** X18.  A level inserted and then deleted leaves the book as it was.  An
    'insert' frame with one row (market, id, side, price, size > 0) for a
    known market whose book holds no level of that id on that side puts the
    level there; a 'delete' frame for the same market, id and side, which
    carries neither price nor size, removes it again, and the order books
    are then exactly those before the insert.  Both handlers return
    [None]. *)
Theorem insert_then_delete_restores_the_book
    (inserted deleted row gone : PyVal) (w : World) (table marketId i : string)
    (k : SideKind) (m : Market) (ob : OrderBook) (p q : Q) :
  Bitmex.frame_of inserted "insert" table [row] ->
  Bitmex.frame_of deleted "delete" table [gone] ->
  Bitmex.reads_row row marketId i k (Some p) (Some q) ->
  Qle_bool q 0 = false ->
  Bitmex.reads_row gone marketId i k None None ->
  markets_by_id (self w) !! marketId = Some m ->
  orderbooks (self w) !! market_symbol m = Some ob ->
  Forall (fun l => level_id l <> Some i) (levels (book_side k ob)) ->
  let first := Bitmex.handle_order_book inserted w in
  let second := Bitmex.handle_order_book deleted first.2 in
  first.1 = Ok RetNone
  /\ (exists ob1,
        orderbooks (self first.2) !! market_symbol m = Some ob1
        /\ In (mkLevel p q (Some i)) (levels (book_side k ob1)))
  /\ second.1 = Ok RetNone
  /\ orderbooks (self second.2) = orderbooks (self w).
Proof.
  intros (Ha1 & Ht1 & Hr1) (Ha2 & Ht2 & Hr2) Hrow Hq Hgone Hm Hb Hall first second.
  destruct (store_then_remove (book_side k ob) p q i Hq Hall) as (side1 & Hst & Hin & Hre).
  assert (Hp1 : safe_string inserted (KStr "action") <> Some "partial")
    by (rewrite Ha1; discriminate).
  assert (Hp2 : safe_string deleted (KStr "action") <> Some "partial")
    by (rewrite Ha2; discriminate).
  assert (Hs1 : Forall (fun r => safe_value r (KStr "symbol") = Some (PStr marketId)) [row])
    by (constructor; [apply Hrow|constructor]).
  assert (Hs2 : Forall (fun r => safe_value r (KStr "symbol") = Some (PStr marketId)) [gone])
    by (constructor; [apply Hgone|constructor]).
  set (ob1 := put_side k side1 ob).
  assert (Hfirst : first
                   = Bitmex.after_rows (market_symbol m) (table +:+ ":" +:+ marketId)
                       (Ok tt) ob1 w).
  { subst first. rewrite (update_run _ _ _ _ _ _ _ _ Hp1 Ht1 Hr1 Hs1 Hm Hb).
    rewrite Ha1. cbn [for_each]. unfold bind.
    rewrite (apply_row_run _ _ _ _ _ _ _ _ _ Hrow).
    rewrite bool_decide_eq_true_2 by reflexivity. now rewrite Hst. }
  assert (Hb1 : orderbooks (self first.2) !! market_symbol m = Some ob1).
  { rewrite Hfirst. cbn [Bitmex.after_rows snd self]. apply lookup_put_book. }
  assert (Hm1 : markets_by_id (self first.2) !! marketId = Some m).
  { rewrite Hfirst. exact Hm. }
  assert (Hsecond : second
                    = Bitmex.after_rows (market_symbol m) (table +:+ ":" +:+ marketId)
                        (Ok tt) ob first.2).
  { subst second. rewrite (update_run _ _ _ _ _ _ _ _ Hp2 Ht2 Hr2 Hs2 Hm1 Hb1).
    rewrite Ha2. cbn [for_each]. unfold bind.
    rewrite (apply_row_run _ _ _ _ _ _ _ _ _ Hgone).
    rewrite bool_decide_eq_false_2 by discriminate.
    subst ob1. rewrite put_side_book_side, Hre, put_side_twice, put_side_same.
    reflexivity. }
  split; [now rewrite Hfirst|]. split.
  - exists ob1. split; [exact Hb1|]. subst ob1. now rewrite put_side_book_side.
  - split; [now rewrite Hsecond|].
    rewrite Hsecond. cbn [Bitmex.after_rows snd self put_book orderbooks set_orderbooks].
    rewrite Hfirst. cbn [Bitmex.after_rows snd self put_book orderbooks set_orderbooks].
    rewrite insert_insert_eq. now apply insert_id.
Qed.

Lemma insert_then_delete_restores_the_book_witness :
  Bitmex.frame_of Frames.insert_xbtusd "insert" "orderBookL2" [Frames.row_inserted]
  /\ Bitmex.frame_of Frames.delete_xbtusd "delete" "orderBookL2" [Frames.row_deleted]
  /\ Bitmex.reads_row Frames.row_inserted "XBTUSD" "8799285100" AsksSide
       (Some (14299 # 2)) (Some (70590 # 1))
  /\ Bitmex.reads_row Frames.row_deleted "XBTUSD" "8799285100" AsksSide None None
  /\ markets_by_id (self Frames.bitmex_synced) !! "XBTUSD" = Some Frames.xbtusd
  /\ orderbooks
       (self (Bitmex.handle_order_book Frames.delete_xbtusd
                (Bitmex.handle_order_book Frames.insert_xbtusd Frames.bitmex_synced).2).2)
     = orderbooks (self Frames.bitmex_synced).
Proof.
  assert (F1 : Bitmex.frame_of Frames.insert_xbtusd "insert" "orderBookL2"
                 [Frames.row_inserted]) by (repeat split).
  assert (F2 : Bitmex.frame_of Frames.delete_xbtusd "delete" "orderBookL2"
                 [Frames.row_deleted]) by (repeat split).
  assert (R1 : Bitmex.reads_row Frames.row_inserted "XBTUSD" "8799285100" AsksSide
                 (Some (14299 # 2)) (Some (70590 # 1)))
    by (repeat split; vm_compute; reflexivity).
  assert (R2 : Bitmex.reads_row Frames.row_deleted "XBTUSD" "8799285100" AsksSide None None)
    by (repeat split; vm_compute; reflexivity).
  assert (Hq : Qle_bool (70590 # 1) 0 = false) by reflexivity.
  assert (Hm : markets_by_id (self Frames.bitmex_synced) !! "XBTUSD" = Some Frames.xbtusd)
    by (vm_compute; reflexivity).
  split; [exact F1|]. split; [exact F2|]. split; [exact R1|]. split; [exact R2|].
  split; [exact Hm|].
  destruct (orderbooks (self Frames.bitmex_synced) !! "BTC/USD") as [ob|] eqn:Hb;
    [|vm_compute in Hb; discriminate].
  assert (Hall : Forall (fun l => level_id l <> Some "8799285100")
                        (levels (book_side AsksSide ob))).
  { vm_compute in Hb. injection Hb as <-. repeat constructor; discriminate. }
  exact (proj2 (proj2 (proj2
           (insert_then_delete_restores_the_book
              Frames.insert_xbtusd Frames.delete_xbtusd Frames.row_inserted
              Frames.row_deleted Frames.bitmex_synced "orderBookL2" "XBTUSD"
              "8799285100" AsksSide Frames.xbtusd ob (14299 # 2) (70590 # 1)
              F1 F2 R1 Hq R2 Hm Hb Hall)))).
Defined.

(** ** Bitmex: the entry points left unfinished *)

(** X19.  [watch_ohlcv] and [handle_trades] never return a value.
    [watch_ohlcv] raises at once, whatever its arguments, without loading
    markets or touching a connection; [handle_trades] raises for every
    frame, leaving the instance and every waiter as they were.  What they
    raise where the source says [raise NotImplemented(...)] is the TypeError
    of calling the builtin constant [NotImplemented]; [handle_trades] gets
    there only if the reads of the frame before it succeed, and raises their
    error otherwise. *)
Theorem unfinished_entry_points_never_return
    (int : PyVal -> Res Z) (iso8601 : Z -> Res PyVal) (message : PyVal) (w : World)
    (symbol timeframe : string) (since limit : option Z) (ex : Exchange) :
  Bitmex.watch_ohlcv symbol timeframe since limit ex
    = (Raise (type_error "'NotImplementedType' object is not callable"), ex)
  /\ (exists e, Bitmex.handle_trades int iso8601 message w = (Raise e, w))
  /\ (forall wsName marketsByWsName market symbol third timestamp datetime,
        py_index message 3 = Ok wsName ->
        Bitmex.py_item (options (self w)) "marketsByWsName" = Ok marketsByWsName ->
        Bitmex.safe_value_at marketsByWsName wsName = Ok market ->
        Bitmex.py_item (or_default market PNone) "symbol" = Ok symbol ->
        py_index message 2 = Ok third ->
        int third = Ok timestamp ->
        iso8601 timestamp = Ok datetime ->
        Bitmex.handle_trades int iso8601 message w
        = (Raise (type_error "'NotImplementedType' object is not callable"), w)).
Proof.
  split; [reflexivity|]. split.
  - unfold Bitmex.handle_trades.
    unfold bind at 1, lift at 1.
    destruct (py_index message 3) as [wsName|e]; [|now exists e].
    unfold bind at 1, get at 1. unfold bind at 1, lift at 1.
    destruct (Bitmex.py_item (options (self w)) "marketsByWsName") as [byName|e];
      [|now exists e].
    unfold bind at 1, lift at 1.
    destruct (Bitmex.safe_value_at byName wsName) as [market|e]; [|now exists e].
    unfold bind at 1, lift at 1.
    destruct (Bitmex.py_item (or_default market PNone) "symbol") as [sym|e];
      [|now exists e].
    unfold bind at 1, lift at 1.
    destruct (py_index message 2) as [third|e]; [|now exists e].
    unfold bind at 1, lift at 1.
    destruct (int third) as [timestamp|e]; [|now exists e].
    unfold bind at 1, lift at 1.
    destruct (iso8601 timestamp) as [datetime|e]; [|now exists e].
    eexists. reflexivity.
  - intros wsName byName market sym third timestamp datetime H1 H2 H3 H4 H5 H6 H7.
    unfold Bitmex.handle_trades.
    unfold bind at 1, lift at 1. rewrite H1.
    unfold bind at 1, get at 1. unfold bind at 1, lift at 1. rewrite H2.
    unfold bind at 1, lift at 1. rewrite H3.
    unfold bind at 1, lift at 1. rewrite H4.
    unfold bind at 1, lift at 1. rewrite H5.
    unfold bind at 1, lift at 1. rewrite H6.
    unfold bind at 1, lift at 1. rewrite H7.
    reflexivity.
Qed.

(** ** Ripio: the buffer *)

Section RipioBuffer.
Context {collab : Ripio.Collaborators}.

(** X20.  While the order book of a symbol has no nonce, the frames handed
    to [handle_order_book] are kept in the book's buffer in their arrival
    order, after those buffered before, none dropped, decoded or reordered;
    the rest of the instance and the client stay as they were. *)
Theorem buffered_frames_keep_their_order
    (messages : list PyVal) (subscription : PyVal) (w : World)
    (symbol : string) (ob : OrderBook) :
  safe_string subscription (KStr "symbol") = Some symbol ->
  orderbooks (self w) !! symbol = Some ob ->
  ob_nonce ob = None ->
  let w' := Ripio.deliver_all messages subscription w in
  orderbooks (self w')
    = <[symbol := set_cache (ob_cache ob ++ messages) ob]> (orderbooks (self w))
  /\ set_orderbooks (orderbooks (self w)) (self w') = self w
  /\ client w' = client w.
Proof.
  intros Hs. revert w ob. induction messages as [|m ms IH]; intros w ob Hb Hn.
  - simpl. rewrite app_nil_r. split; [|split; [apply set_orderbooks_same|reflexivity]].
    symmetry. apply insert_id. rewrite Hb. now destruct ob.
  - cbv zeta. change (Ripio.deliver_all (m :: ms) subscription w)
      with (Ripio.deliver_all ms subscription (Ripio.handle_order_book m subscription w).2).
    rewrite (handle_order_book_buffering m _ _ _ _ (book_of_some _ _ _ _ Hs Hb) Hn).
    cbn [snd].
    set (ob1 := set_cache (ob_cache ob ++ [m]) ob).
    destruct (IH (put_book symbol ob1 w) ob1 (lookup_put_book _ _ _) Hn)
      as (H1 & H2 & H3).
    split; [|split].
    + rewrite H1. cbn [self put_book orderbooks set_orderbooks].
      rewrite insert_insert_eq. subst ob1. cbn [ob_cache set_cache].
      rewrite <- app_assoc. reflexivity.
    + apply (f_equal (set_orderbooks (orderbooks (self w)))) in H2.
      cbn [self put_book] in H2.
      destruct (self (Ripio.deliver_all ms subscription (put_book symbol ob1 w))),
               (self w).
      exact H2.
    + rewrite H3. reflexivity.
Qed.

End RipioBuffer.

Lemma buffered_frames_keep_their_order_witness :
  safe_string Frames.ripio_subscription (KStr "symbol") = Some "BTC/USDC"
  /\ orderbooks (self Frames.ripio_buffering) !! "BTC/USDC" = Some (order_book None)
  /\ ob_nonce (order_book None) = None
  /\ orderbooks
       (self (@Ripio.deliver_all Codec.reference
                [Frames.delta_99739; Frames.delta_99740]
                Frames.ripio_subscription Frames.ripio_buffering))
     = <["BTC/USDC" :=
           set_cache (ob_cache (order_book None)
                      ++ [Frames.delta_99739; Frames.delta_99740])
                     (order_book None)]>
         (orderbooks (self Frames.ripio_buffering)).
Proof.
  assert (Hs : safe_string Frames.ripio_subscription (KStr "symbol") = Some "BTC/USDC")
    by reflexivity.
  assert (Hb : orderbooks (self Frames.ripio_buffering) !! "BTC/USDC"
               = Some (order_book None)) by (vm_compute; reflexivity).
  assert (Hn : ob_nonce (order_book None) = None) by reflexivity.
  split; [exact Hs|]. split; [exact Hb|]. split; [exact Hn|].
  exact (proj1 (@buffered_frames_keep_their_order Codec.reference
                  [Frames.delta_99739; Frames.delta_99740]
                  Frames.ripio_subscription Frames.ripio_buffering "BTC/USDC"
                  (order_book None) Hs Hb Hn)).
Defined.

(** ** Bitmex: the side a row goes to *)

Lemma side_of_not_buy (side : option string) :
  side <> Some "Buy" -> Bitmex.side_of side = AsksSide.
Proof.
  intros H. unfold Bitmex.side_of. destruct side as [s|]; [|reflexivity].
  destruct (String.eqb_spec s "Buy") as [->|_]; [now contradiction H|reflexivity].
Qed.

Lemma apply_row_other_side (use_store : bool) (d : option Q) (row : PyVal) (ob : OrderBook) :
  let after := (Bitmex.apply_row use_store d row ob).2 in
  match Bitmex.side_of (safe_string row (KStr "side")) with
  | AsksSide => ob_bids after = ob_bids ob
  | BidsSide => ob_asks after = ob_asks ob
  end.
Proof.
  cbv zeta. unfold Bitmex.apply_row.
  unfold bind at 1, lift at 1.
  destruct (safe_float row (KStr "price")) as [p|e];
    [|now destruct (Bitmex.side_of _)].
  unfold bind at 1, lift at 1.
  destruct (safe_float row (KStr "size")) as [s|e];
    [|now destruct (Bitmex.side_of _)].
  cbv zeta.
  destruct (Bitmex.side_of (safe_string row (KStr "side")));
    unfold on_side, zoom, bind, get, lift, put;
    destruct ((if use_store then store else restore) _ _ _ _); reflexivity.
Qed.

Lemma apply_rows_other_side (use_store : bool) (d : option Q) (k : SideKind)
    (rows : list PyVal) (ob : OrderBook) :
  Forall (fun row => Bitmex.side_of (safe_string row (KStr "side")) = k) rows ->
  let after := (for_each rows (Bitmex.apply_row use_store d) ob).2 in
  match k with
  | AsksSide => ob_bids after = ob_bids ob
  | BidsSide => ob_asks after = ob_asks ob
  end.
Proof.
  intros Hall. revert ob. induction Hall as [|row rows Hrow _ IH]; intros ob.
  - now destruct k.
  - cbv zeta. cbn [for_each]. unfold bind.
    pose proof (apply_row_other_side use_store d row ob) as H1. cbv zeta in H1.
    rewrite Hrow in H1.
    destruct (Bitmex.apply_row use_store d row ob) as [[[]|e] ob1]; cbn [snd] in H1 |- *.
    + specialize (IH ob1). cbv zeta in IH. destruct k; congruence.
    + exact H1.
Qed.

(** X21.  In an update frame for one known market, a row goes to the bids
    only if its ['side'] is exactly 'Buy': when no row is marked 'Buy' (rows
    marked 'Sell', marked otherwise, or carrying no side at all), the bids
    of the market's book are afterwards what they were, and when every row
    is marked 'Buy', the asks are, whether or not a row raised on the
    way. *)
Theorem only_buy_rows_reach_the_bids
    (message : PyVal) (w : World) (table marketId : string) (m : Market)
    (ob : OrderBook) (row : PyVal) (rows : list PyVal) :
  safe_string message (KStr "action") <> Some "partial" ->
  safe_string message (KStr "table") = Some table ->
  py_items (or_default (safe_value message (KStr "data")) (PList [])) = Ok (row :: rows) ->
  Forall (fun row => safe_value row (KStr "symbol") = Some (PStr marketId)) (row :: rows) ->
  markets_by_id (self w) !! marketId = Some m ->
  orderbooks (self w) !! market_symbol m = Some ob ->
  exists ob',
    orderbooks (self (Bitmex.handle_order_book message w).2) !! market_symbol m = Some ob'
    /\ (Forall (fun row => safe_string row (KStr "side") <> Some "Buy") (row :: rows) ->
        ob_bids ob' = ob_bids ob)
    /\ (Forall (fun row => safe_string row (KStr "side") = Some "Buy") (row :: rows) ->
        ob_asks ob' = ob_asks ob).
Proof.
  intros Ha Ht Hrows Hall Hm Hb.
  rewrite (update_run _ _ _ _ _ _ _ _ Ha Ht Hrows Hall Hm Hb).
  set (updated := for_each (row :: rows) _ ob).
  exists updated.2. split; [|split].
  - unfold Bitmex.after_rows. destruct updated.1; cbn [snd self]; apply lookup_put_book.
  - intros Hside.
    apply (apply_rows_other_side _ _ AsksSide (row :: rows) ob).
    eapply Forall_impl; [exact Hside|]. intros r Hr. now apply side_of_not_buy.
  - intros Hside.
    apply (apply_rows_other_side _ _ BidsSide (row :: rows) ob).
    eapply Forall_impl; [exact Hside|]. intros r Hr. now rewrite Hr.
Qed.

Lemma only_buy_rows_reach_the_bids_witness :
  safe_string Frames.update_xbtusd (KStr "action") <> Some "partial"
  /\ safe_string Frames.update_xbtusd (KStr "table") = Some "orderBookL2"
  /\ py_items (or_default (safe_value Frames.update_xbtusd (KStr "data")) (PList []))
     = Ok [Frames.row_sell]
  /\ markets_by_id (self Frames.bitmex_synced) !! "XBTUSD" = Some Frames.xbtusd
  /\ exists ob ob',
       orderbooks (self Frames.bitmex_synced) !! "BTC/USD" = Some ob
       /\ orderbooks (self (Bitmex.handle_order_book Frames.update_xbtusd
                              Frames.bitmex_synced).2) !! "BTC/USD" = Some ob'
       /\ ob_bids ob' = ob_bids ob.
Proof.
  assert (Ha : safe_string Frames.update_xbtusd (KStr "action") <> Some "partial")
    by discriminate.
  assert (Ht : safe_string Frames.update_xbtusd (KStr "table") = Some "orderBookL2")
    by reflexivity.
  assert (Hrows : py_items (or_default (safe_value Frames.update_xbtusd (KStr "data"))
                                       (PList []))
                  = Ok [Frames.row_sell]) by reflexivity.
  assert (Hall : Forall (fun row => safe_value row (KStr "symbol") = Some (PStr "XBTUSD"))
                        [Frames.row_sell])
    by (constructor; [reflexivity|constructor]).
  assert (Hm : markets_by_id (self Frames.bitmex_synced) !! "XBTUSD" = Some Frames.xbtusd)
    by (vm_compute; reflexivity).
  assert (Hside : Forall (fun row => safe_string row (KStr "side") <> Some "Buy")
                         [Frames.row_sell])
    by (constructor; [discriminate|constructor]).
  split; [exact Ha|]. split; [exact Ht|]. split; [exact Hrows|]. split; [exact Hm|].
  destruct (orderbooks (self Frames.bitmex_synced) !! "BTC/USD") as [ob|] eqn:Hb;
    [|vm_compute in Hb; discriminate].
  destruct (only_buy_rows_reach_the_bids Frames.update_xbtusd Frames.bitmex_synced
              "orderBookL2" "XBTUSD" Frames.xbtusd ob Frames.row_sell []
              Ha Ht Hrows Hall Hm Hb) as (ob' & H1 & H2 & _).
  exists ob, ob'. split; [reflexivity|]. split; [exact H1|]. exact (H2 Hside).
Defined.
